(** * Bot-detection heuristics: a shallow embedding of [detect-bot-algo.ts]

    The development embeds the rule engine [detectBotAlgo], the copy of
    it that ships with the interactive runner ([run-detect.ts]), the run
    summarizers, the two drivers ([detectBotDuringScan], [analyzeUrl])
    and the bot verdict of the admin report.

    Conventions.
    - A metric is a JavaScript [number]; the data model restricts metrics
      to integers, so a metric is a [Z].  A value read through optional
      chaining ([nextScan?.likes]) is an [option Z], [None] standing for
      [undefined].
    - A comparison of one product or one quotient of integers with a
      constant ([curr < prev * 1.2], [a / b < 5]) is evaluated in [Q]:
      on integer operands far below 2^53, as view and like counts are,
      the double comparison of the source agrees with the exact one.
    - Where the source rounds more than once before it compares, or
      prints a double ([toFixed]), the model computes in IEEE 754
      binary64 as the source does ([number], from the Standard Library's
      [SpecFloat]).
    - The two mutable locals [shouldReject] and [bottedReason] and the
      console are threaded explicitly through a state record; a ghost
      field records which rule executed each reject site. *)

From Stdlib Require Import ZArith QArith List String Ascii Bool Lia DecimalString.
From Stdlib Require Import SpecFloat.
Import ListNotations.

Local Open Scope string_scope.
Local Open Scope Z_scope.

(** ** Numbers and text *)

Definition Qleb (x y : Q) : bool := Qle_bool x y.
Definition Qltb (x y : Q) : bool := negb (Qle_bool y x).

Notation "x <=? y" := (Qleb x y) : Q_scope.
Notation "x <? y" := (Qltb x y) : Q_scope.
Notation "x >=? y" := (Qleb y x) (only parsing) : Q_scope.
Notation "x >? y" := (Qltb y x) (only parsing) : Q_scope.

(** An integer metric used in a decimal expression. *)
Local Coercion inject_Z : Z >-> Q.

(** [a || d] on a number: [0] is the only falsy integer. *)
Definition orElse (a d : Z) : Z := if a =? 0 then d else a.

(** The line feed that starts every reason fragment. *)
Definition nl : string := String (ascii_of_nat 10) EmptyString.

(** Template-literal rendering of an integer. *)
Definition showZ (z : Z) : string := NilZero.string_of_int (Z.to_int z).

Definition showBool (b : bool) : string := if b then "true" else "false".

Fixpoint zeros (n : nat) : string :=
  match n with
  | O => ""
  | S k => "0" ++ zeros k
  end.

(** The decimal rendering of [toFixed(d)] for the real number [x]: the
    sign is split off, the magnitude is scaled by [10^d] and rounded to
    the nearest integer (the larger one on a tie), and the digits are
    printed with [d] decimals. *)
Definition toFixed (x : Q) (d : nat) : string :=
  let neg := (x <? 0)%Q in
  let num := Z.abs (Qnum x) in
  let den := Z.pos (Qden x) in
  let scale := 10 ^ Z.of_nat d in
  let n := (2 * num * scale + den) / (2 * den) in
  let digits := showZ n in
  let padded := zeros (S d - String.length digits) ++ digits in
  let cut := (String.length padded - d)%nat in
  let int_part := substring 0 cut padded in
  let frac_part := substring cut d padded in
  (if neg then "-" else "") ++ int_part ++
  (match d with O => "" | S _ => "." ++ frac_part end).

(** ** Doubles

    A JavaScript [number] is an IEEE 754 binary64 value; the operations
    round to nearest, ties to even. *)

Definition number : Type := spec_float.

(** The double of an integer (exact below 2^53). *)
Definition ofZ (z : Z) : number := binary_normalize 53 1024 z 0 false.

Definition fdiv (x y : number) : number := SFdiv 53 1024 x y.
Definition fmul (x y : number) : number := SFmul 53 1024 x y.
Definition fltb (x y : number) : bool := SFltb x y.
Definition fleb (x y : number) : bool := SFleb x y.

(** The double a decimal literal denotes: the one nearest to [n/d]. *)
Definition decimal (n : Z) (d : positive) : number := fdiv (ofZ n) (ofZ (Z.pos d)).

(** [Math.max] on two numbers. *)
Definition fmax (x y : number) : number :=
  match x, y with
  | S754_nan, _ => S754_nan
  | _, S754_nan => S754_nan
  | S754_zero sx, S754_zero sy => S754_zero (sx && sy)
  | _, _ => if fltb x y then y else x
  end.

(** The real number a finite double stands for. *)
Definition exactValue (x : number) : Q :=
  match x with
  | S754_finite s m e =>
      let n := if s then Z.neg m else Z.pos m in
      if 0 <=? e then inject_Z (n * 2 ^ e) else Qmake n (2 ^ Z.to_pos (- e))
  | _ => 0%Q
  end.

(** [x.toFixed(d)] on a double (magnitudes below 10^21, where the
    source prints no exponent). *)
Definition toFixedNumber (x : number) (d : nat) : string :=
  match x with
  | S754_nan => "NaN"
  | S754_infinity s => if s then "-Infinity" else "Infinity"
  | _ => toFixed (exactValue x) d
  end.

(** [(a / b) < t] on integers [a], [b]: the quotient by zero is an
    infinity or [NaN], and only the negative infinity is below [t]. *)
Definition quotientLt (a b : Z) (t : Q) : bool :=
  if b =? 0 then a <? 0 else (inject_Z a / inject_Z b <? t)%Q.

(** ** Data model (lines 1-22) *)

Record ScanData := mkScan {
  views : Z;
  likes : Z;
  saves : Z;
  shares : Z;
  comments : Z;
  missing : bool                      (* [missing?: boolean], absent = false *)
}.

Record BotDetectorAlgoResponse := mkResponse {
  shouldReject : bool;
  bottedReason : string
}.

Record Props := mkProps {
  prevScan : ScanData;
  currentScan : ScanData;
  platform : string;
  scanIndex : option Z;               (* [scanIndex?: number] *)
  allScans : option (list ScanData);  (* [allScans?: ScanData[]] *)
  logNotes : bool                     (* [logNotes?: boolean], absent = false *)
}.

(** The reject sites of [detectBotAlgo], in source order. *)
Inductive Rule :=
| EarlyViewJump
| ViewsDoubledLikesFlat
| ViewsGrewLikesFrozen
| LikesSpikeViewsFlat
| MetricAppeared                      (* checkAnomaly, first branch *)
| MetricGrewQuickly                   (* checkAnomaly, second branch *)
| SharesZeroToX
| SavesZeroToX
| TikTokZeroSaves
| TikTokZeroShares
| ZeroLikes
| SnapchatUltraLowEngagement
| LikeRatioCollapse
| MassiveCommentDrop
| CommentJumpViewsFlat
| CommentInjection
| PlateauJumpPlateau
| SmallPlateauStep.

(** ** Evaluation state *)

Module St.
Record t := mk {
    shouldReject : bool;              (* [let shouldReject = false] *)
    bottedReason : string;            (* [let bottedReason = ''] *)
    console : list string;            (* lines written by [console.log] *)
    fired : list (Rule * option string)
      (* ghost: the reject sites executed so far, with the message each
         one appended ([None] for a site that appends nothing) *)
  }.

Definition init : t := mk false "" [] [].
End St.

Notation "st |> f" := (f st) (at level 45, left associativity, only parsing).

(** [bottedReason += s] *)
Definition appendReason (s : string) (st : St.t) : St.t :=
  St.mk (St.shouldReject st) (St.bottedReason st ++ s) (St.console st) (St.fired st).

(** [shouldReject = true] *)
Definition setReject (st : St.t) : St.t :=
  St.mk true (St.bottedReason st) (St.console st) (St.fired st).

(** [console.log(s)] *)
Definition consoleLog (s : string) (st : St.t) : St.t :=
  St.mk (St.shouldReject st) (St.bottedReason st) (St.console st ++ [s]) (St.fired st).

(** Ghost step: remember the reject site. *)
Definition mark (r : Rule) (m : option string) (st : St.t) : St.t :=
  St.mk (St.shouldReject st) (St.bottedReason st) (St.console st) (St.fired st ++ [(r, m)]).

(** The statement pair [bottedReason += '\n<msg>'; shouldReject = true;]
    of a reason-bearing rule. *)
Definition flag (r : Rule) (msg : string) (st : St.t) : St.t :=
  st |> appendReason (nl ++ msg) |> setReject |> mark r (Some msg).

(** The lone statement [shouldReject = true;] of a rule that attaches no
    text. *)
Definition flagSilently (r : Rule) (st : St.t) : St.t :=
  st |> setReject |> mark r None.

Definition respond (st : St.t) : BotDetectorAlgoResponse :=
  mkResponse (St.shouldReject st) (St.bottedReason st).

(** ** Single-scan glitch guard and bridging (lines 59-104) *)

Definition isNumber (v : option Z) : bool :=
  match v with Some _ => true | None => false end.

Definition toNum (v : option Z) : Z :=
  match v with Some z => if isNumber v then z else 0 | None => 0 end.

Definition isZeroish (v : option Z) : bool :=
  negb (isNumber v) || match v with Some z => z =? 0 | None => false end.

Inductive MetricKey := Likes | Comments | Saves | Shares.

(** [scan[key]] *)
Definition metric (key : MetricKey) (s : ScanData) : Z :=
  match key with
  | Likes => likes s
  | Comments => comments s
  | Saves => saves s
  | Shares => shares s
  end.

(** [arr[k]] for an integer [k]: [undefined] outside the array. *)
Definition index {A : Type} (l : list A) (k : Z) : option A :=
  if k <? 0 then None else nth_error l (Z.to_nat k).

Definition truthy {A : Type} (o : option A) : bool :=
  match o with Some _ => true | None => false end.

Definition hasNext (P : Props) : bool :=
  match allScans P, scanIndex P with
  | Some l, Some i => i + 1 <? orElse (Z.of_nat (List.length l)) 0
  | _, _ => false
  end.

Definition hasPrevPrev (P : Props) : bool :=
  match allScans P, scanIndex P with
  | Some _, Some i => i - 2 >=? 0
  | _, _ => false
  end.

Definition nextScan (P : Props) : option ScanData :=
  if hasNext P then
    match allScans P, scanIndex P with
    | Some l, Some i => index l (i + 1)
    | _, _ => None
    end
  else None.

Definition prevPrevScan (P : Props) : option ScanData :=
  if hasPrevPrev P then
    match allScans P, scanIndex P with
    | Some l, Some i => index l (i - 2)
    | _, _ => None
    end
  else None.

(** The four [glitchX] constants share one shape. *)
Definition glitch (key : MetricKey) (P : Props) : bool :=
  let scanM := metric key (currentScan P) in
  let prevM := metric key (prevScan P) in
  (isZeroish (Some scanM) && truthy (nextScan P) && (prevM >? 0)
     && (toNum (option_map (metric key) (nextScan P)) >? 0))
  || (isZeroish (Some prevM) && truthy (prevPrevScan P)
     && (toNum (option_map (metric key) (prevPrevScan P)) >? 0) && (scanM >? 0)).

Definition glitchLikes := glitch Likes.
Definition glitchComments := glitch Comments.
Definition glitchSaves := glitch Saves.
Definition glitchShares := glitch Shares.

Record EffectivePair := mkPair {
  prev : Z;
  curr : Z;
  prevViews : Z;
  currViews : Z;
  bridged : bool
}.

Definition getEffectivePair (P : Props) (key : MetricKey) : EffectivePair :=
  let pVal := toNum (Some (metric key (prevScan P))) in
  let cVal := toNum (Some (metric key (currentScan P))) in
  let pViews := views (prevScan P) in
  let cViews := views (currentScan P) in
  if hasNext P
     && isZeroish (Some (metric key (currentScan P)))
     && (toNum (Some (metric key (prevScan P))) >? 0)
     && (toNum (option_map (metric key) (nextScan P)) >? 0)
  then
    (* Bridge over the middle scan (current) *)
    mkPair pVal
           (toNum (option_map (metric key) (nextScan P)))
           pViews
           (toNum (option_map views (nextScan P)))
           true
  else mkPair pVal cVal pViews cViews false.

(** Run sharp-change anomaly rules on every scan after the first. *)
Definition matureScan (P : Props) : bool :=
  match scanIndex P with Some i => i >=? 1 | None => false end.

(** ** The rule blocks of [detectBotAlgo] (lines 41-267)

    Each block of the source is a state transformer; [detectBotAlgo]
    runs them in source order. *)

(** Helper function for anomaly detection (lines 46-57). *)
Definition checkAnomaly (P : Props) (metricName : string)
    (current previous : Z) (viewGrowth threshold : Q) (st : St.t) : St.t :=
  let scanViews := views (currentScan P) in
  let prevViews := views (prevScan P) in
  (* Handle zero-to-something jumps first *)
  if (previous =? 0) && (current >=? 10) && (scanViews <? prevViews * viewGrowth)%Q then
    st |> flag MetricAppeared
            (metricName ++ " appeared (0→" ++ showZ current
               ++ ") without corresponding jump in views")
  else if (previous >? 0) && (scanViews <? prevViews * viewGrowth)%Q
          && (current >? previous * threshold)%Q then
    st |> flag MetricGrewQuickly
            (metricName ++ " grew quickly without corresponding jump in views")
  else st.

(** Compute how many leading scans have zero views (lines 110-120). *)
Fixpoint countLeadingZeros (scansArr : list ScanData) : Z :=
  match scansArr with
  | [] => 0
  | s :: rest => if orElse (views s) 0 =? 0 then 1 + countLeadingZeros rest else 0
  end.

Definition leadingZeroCount (P : Props) : Z :=
  match allScans P with
  | Some scansArr => countLeadingZeros scansArr
  | None => 0
  end.

(** EARLY 20K VIEW JUMP IN FIRST 5 SCANS (lines 122-128). *)
Definition earlyViewJump (P : Props) (st : St.t) : St.t :=
  let scanViews := views (currentScan P) in
  let prevViews := views (prevScan P) in
  if matureScan P
     && match scanIndex P with Some i => i - leadingZeroCount P <? 4 | None => false end
  then
    if scanViews - prevViews >=? 20000 then
      st |> flag EarlyViewJump "early 20k+ view jump within first 5 scans"
    else st
  else st.

(** LIKES ANOMALIES (lines 130-149). *)
Definition likesAnomalies (P : Props) (st : St.t) : St.t :=
  if negb (platform P =? "youtube")%string && negb (platform P =? "snapchat")%string then
    let L := getEffectivePair P Likes in
    let st :=
      if (currViews L >? 1000) && (currViews L >? prevViews L * 2)
         && (curr L <? prev L * 1.2)%Q
      then st |> flag ViewsDoubledLikesFlat
                   "views doubled quickly without corresponding jump in likes"
      else st in
    let st :=
      if matureScan P && negb (glitchLikes P)
         && (currViews L - prevViews L >=? 1000) && (curr L - prev L <? 2)
      then st |> flag ViewsGrewLikesFrozen "views grew but <2 likes change"
      else st in
    if matureScan P && negb (glitchLikes P) && (curr L >? 0)
       && (curr L >? prev L * 1.5)%Q && (currViews L <? prevViews L * 1.2)%Q
    then st |> flag LikesSpikeViewsFlat
                 "likes spiked (≥1.5x) without corresponding jump in views"
    else st
  else st.

(** Check shares and saves anomalies (lines 151-163). *)
Definition sharesSavesGrowth (P : Props) (st : St.t) : St.t :=
  if matureScan P then
    let st :=
      if negb (glitchShares P) then
        let S := getEffectivePair P Shares in
        st |> checkAnomaly P "shares" (curr S) (prev S) 2 10
           |> checkAnomaly P "shares" (curr S) (prev S) 1.2 3
      else st in
    if negb (glitchSaves P) then
      let SV := getEffectivePair P Saves in
      st |> checkAnomaly P "saves" (curr SV) (prev SV) 2 10
         |> checkAnomaly P "saves" (curr SV) (prev SV) 1.2 3
    else st
  else st.

(** SHARES ANOMALY RULE (lines 165-172). *)
Definition sharesZeroToX (P : Props) (st : St.t) : St.t :=
  let scanViews := views (currentScan P) in
  let prevViews := views (prevScan P) in
  if matureScan P && negb (glitchShares P) then
    let S0 := getEffectivePair P Shares in
    if (shares (prevScan P) =? 0) && negb (bridged S0)
       && (shares (currentScan P) >=? 10) && (scanViews <? prevViews * 2)
    then st |> flag SharesZeroToX
                 "shares appeared (0→X) without corresponding jump in views"
    else st
  else st.

(** SAVES ANOMALY RULE (lines 174-181). *)
Definition savesZeroToX (P : Props) (st : St.t) : St.t :=
  let scanViews := views (currentScan P) in
  let prevViews := views (prevScan P) in
  if matureScan P && negb (glitchSaves P) then
    let SV0 := getEffectivePair P Saves in
    if (saves (prevScan P) =? 0) && negb (bridged SV0)
       && (saves (currentScan P) >=? 10) && (scanViews <? prevViews * 2)
    then st |> flag SavesZeroToX
                 "saves appeared (0→X) without corresponding jump in views"
    else st
  else st.

(** TIKTOK: ZERO SAVES WITH 5K+ VIEWS (lines 183-187). *)
Definition tiktokZeroSaves (P : Props) (st : St.t) : St.t :=
  if (platform P =? "tiktok")%string && (views (currentScan P) >=? 5000)
     && (saves (currentScan P) =? 0) && negb (glitchSaves P)
  then st |> flag TikTokZeroSaves "zero saves at 5k+ views (TikTok)"
  else st.

(** TIKTOK: ZERO SHARES WITH 10K+ VIEWS (lines 189-193). *)
Definition tiktokZeroShares (P : Props) (st : St.t) : St.t :=
  if (platform P =? "tiktok")%string && (views (currentScan P) >=? 10000)
     && (shares (currentScan P) =? 0) && negb (glitchShares P)
  then st |> flag TikTokZeroShares "zero shares at 10k+ views (TikTok)"
  else st.

(** [['tiktok', 'instagram', 'youtube'].includes(platform)] *)
Definition includes (l : list string) (s : string) : bool :=
  existsb (String.eqb s) l.

(** ZERO LIKES RULE (lines 195-202). *)
Definition zeroLikes (P : Props) (st : St.t) : St.t :=
  if matureScan P && negb (glitchLikes P) then
    let L0 := getEffectivePair P Likes in
    if (currViews L0 >? 1000) && (curr L0 =? 0)
       && includes ["tiktok"; "instagram"; "youtube"] (platform P)
    then st |> flag ZeroLikes "zero likes"
    else st
  else st.

(** SNAPCHAT ULTRA-LOW ENGAGEMENT RULE (lines 204-208): no message is
    added here, "it will be summarized later". *)
Definition snapchatUltraLowEngagement (P : Props) (st : St.t) : St.t :=
  if (platform P =? "snapchat")%string && (views (currentScan P) >? 20000)
     && (comments (currentScan P) =? 0) && (shares (currentScan P) <=? 1)
  then st |> flagSilently SnapchatUltraLowEngagement
  else st.

(** ZERO COMMENTS & LOW RATIO: log but don't reject (lines 210-220). *)
Definition commentNotes (P : Props) (st : St.t) : St.t :=
  let scanViews := views (currentScan P) in
  let scanComments := comments (currentScan P) in
  let commentRatio := fmul (fdiv (ofZ scanComments) (ofZ scanViews)) (ofZ 100) in
  if logNotes P && (scanViews >? 5000) then
    let st :=
      if scanComments =? 0 then
        st |> consoleLog ("    📝 NOTE: Zero comments with " ++ showZ scanViews
                            ++ " views (not rejecting)")
      else st in
    if fltb commentRatio (decimal 1 100) then
      st |> consoleLog ("    📝 NOTE: Low comment ratio " ++ toFixedNumber commentRatio 4
                          ++ "% with " ++ showZ scanViews ++ " views (not rejecting)")
    else st
  else st.

(** LIKE-RATIO COLLAPSE AFTER MAJOR VIEW JUMP (lines 222-237). *)
Definition likeRatioCollapse (P : Props) (st : St.t) : St.t :=
  if negb (platform P =? "youtube")%string && negb (platform P =? "snapchat")%string
     && (views (prevScan P) >=? 100) && matureScan P
  then
    let Lr := getEffectivePair P Likes in
    let prevLikeRatio :=
      if prevViews Lr >? 0 then fdiv (ofZ (prev Lr)) (ofZ (prevViews Lr)) else ofZ 0 in
    let currLikeRatio :=
      if currViews Lr >? 0 then fdiv (ofZ (curr Lr)) (ofZ (currViews Lr)) else ofZ 0 in
    let bigJump := (currViews Lr >=? prevViews Lr * 5)
                   || (currViews Lr - prevViews Lr >=? 5000) in
    if negb (glitchLikes P) && bigJump && fltb (ofZ 0) prevLikeRatio then
      let dropFactor := fdiv prevLikeRatio (fmax currLikeRatio (decimal 1 1000000000)) in
      if fleb (ofZ 3) dropFactor then
        st |> flag LikeRatioCollapse
                ("massive view jump with like-ratio collapse ("
                   ++ toFixedNumber (fmul prevLikeRatio (ofZ 100)) 2 ++ "% → "
                   ++ toFixedNumber (fmul currLikeRatio (ofZ 100)) 2 ++ "%)")
      else st
    else st
  else st.

(** MASSIVE COMMENT DROP (lines 239-247). *)
Definition massiveCommentDrop (P : Props) (st : St.t) : St.t :=
  if matureScan P && negb (glitchComments P) && (comments (prevScan P) >=? 20) then
    let C := getEffectivePair P Comments in
    let drop := prev C - curr C in
    if drop >=? 10 then
      st |> flag MassiveCommentDrop ("massive comment drop (-" ++ showZ drop ++ ")")
    else st
  else st.

(** COMMENTS JUMP WITH MINIMAL VIEW CHANGE (lines 249-258). *)
Definition commentJumpViewsFlat (P : Props) (st : St.t) : St.t :=
  if negb (platform P =? "youtube")%string && matureScan P && negb (glitchComments P) then
    let C2 := getEffectivePair P Comments in
    let viewDelta := Z.abs (currViews C2 - prevViews C2) in
    let commentJump := curr C2 - prev C2 in
    if (viewDelta <=? 30) && (commentJump >=? 10) then
      st |> flag CommentJumpViewsFlat
              ("comments jumped by " ++ showZ commentJump
                 ++ " with minimal view change (+" ++ showZ viewDelta ++ ")")
    else st
  else st.

(** SUSPICIOUS COMMENT INJECTION (lines 260-267).  The two factors are
    compared exactly and printed from their doubles. *)
Definition commentInjection (P : Props) (st : St.t) : St.t :=
  let C3 := getEffectivePair P Comments in
  let viewJumpFactor := (currViews C3 / Z.max (prevViews C3) 1)%Q in
  let commentJumpFactor := (curr C3 / Z.max (prev C3) 1)%Q in
  if matureScan P && negb (glitchComments P)
     && (viewJumpFactor <? 5)%Q && (commentJumpFactor >=? 50)%Q
  then
    st |> flag CommentInjection
            ("sus comment injection: views " ++ showZ (views (prevScan P)) ++ "→"
               ++ showZ (views (currentScan P)) ++ " ("
               ++ toFixedNumber (fdiv (ofZ (currViews C3)) (ofZ (Z.max (prevViews C3) 1))) 1
               ++ "x) but comments " ++ showZ (comments (prevScan P)) ++ "→"
               ++ showZ (comments (currentScan P)) ++ " ("
               ++ toFixedNumber (fdiv (ofZ (curr C3)) (ofZ (Z.max (prev C3) 1))) 1
               ++ "x)")
  else st.

(** ** Statements that may raise (the [try] block, lines 271-326)

    Inside the [try] block a computation either completes or raises; the
    assignments made before the raise stay in effect, as in the source,
    where [shouldReject] and [bottedReason] live outside the block and
    [catch] undoes nothing. *)

Inductive Completion (A : Type) :=
| Normal (a : A)
| Thrown (error : string).
Arguments Normal {A} a.
Arguments Thrown {A} error.

Definition M (A : Type) : Type := St.t -> St.t * Completion A.

Definition ret {A : Type} (a : A) : M A := fun st => (st, Normal a).

Definition throw {A : Type} (error : string) : M A := fun st => (st, Thrown error).

Definition bind {A B : Type} (m : M A) (k : A -> M B) : M B :=
  fun st =>
    match m st with
    | (st', Normal a) => k a st'
    | (st', Thrown e) => (st', Thrown e)
    end.

Notation "x <- m ;; k" := (bind m (fun x => k))
  (at level 61, m at next level, right associativity).
Notation "m ;; k" := (bind m (fun _ => k))
  (at level 61, right associativity).

(** A statement that cannot raise. *)
Definition exec (f : St.t -> St.t) : M unit := fun st => (f st, Normal tt).

Definition when (b : bool) (m : M unit) : M unit := if b then m else ret tt.

(** [try { body } catch (error) { handler(error) }] *)
Definition tryCatch (body : M unit) (handler : string -> M unit) : M unit :=
  fun st =>
    match body st with
    | (st', Normal _) => (st', Normal tt)
    | (st', Thrown e) => handler e st'
    end.

(** [arr.slice(b, e)] for [0 <= b]; the window start is never negative. *)
Definition slice {A : Type} (l : list A) (b e : Z) : list A :=
  skipn (Z.to_nat b) (firstn (Z.to_nat e) l).

Definition isPlateau (a b : Z) : bool :=
  let absOk := Z.abs (a - b) <=? 30 in
  absOk.

Definition plateauMessage (v0 v1 v2 v3 v4 v5 : Z) : string :=
  "suspicious plateau → jump → plateau pattern (views: "
    ++ showZ v0 ++ " → " ++ showZ v1 ++ " → " ++ showZ v2 ++ " → "
    ++ showZ v3 ++ " → " ++ showZ v4 ++ " → " ++ showZ v5 ++ ")".

Definition stepMessage (smallJumpDelta bigJumpDelta v0 v1 v2 v3 v4 v5 : Z) : string :=
  "small plateau-step pattern: plateau → small jump (+" ++ showZ smallJumpDelta
    ++ ") → jump (+" ++ showZ bigJumpDelta ++ ") → plateau (views: "
    ++ showZ v0 ++ " → " ++ showZ v1 ++ " → " ++ showZ v2 ++ " → "
    ++ showZ v3 ++ " → " ++ showZ v4 ++ " → " ++ showZ v5 ++ ")".

(** The window start, [Math.max(0, Math.min(scanIndex - 3, total - 6))]. *)
Definition windowStart (l : list ScanData) (i : Z) : Z :=
  let total := Z.of_nat (List.length l) in
  Z.max 0 (Z.min (i - 3) (total - 6)).

(** The 6-scan window around the current index. *)
Definition window (l : list ScanData) (i : Z) : list ScanData :=
  let start := windowStart l i in
  slice l start (start + 6).

(** *** Steps that may raise

    A scan object may answer the read of [.views] through an accessor
    (the production drivers pass database rows), and [allScans] need not
    be a true array, so these steps may raise: every read of [.views] in
    the function and the call of [slice].  A step is named by its place
    in the source; [Faults] tells which steps raise, and with what
    error.  A step is one evaluation of a read, so that an accessor
    which answers a first read and raises on a later one is covered.  A
    step that does not raise yields the stored value.  The other steps
    of the function do not raise. *)

Inductive Site :=
| ReadCurrent               (* line 33: [views] of [currentScan] *)
| ReadPrevious              (* line 39: [views] of [prevScan] *)
| ReadLeading (k : nat)     (* line 114: [scansArr[k]?.views] *)
| ReadBridge (line : nat)   (* line 100, in [getEffectivePair] called at [line] *)
| WindowSlice               (* line 275: [allScans.slice(start, start + 6)] *)
| ReadWindow (n : nat).     (* lines 281-309: the read number [n] (from 0) of
                               [.views] in the text of the [try] block *)

Definition Faults : Type := Site -> option string.

(** Plain records in a true array. *)
Definition noFaults : Faults := fun _ => None.

(** The error of the first step of [sites] that raises. *)
Fixpoint firstFault (faults : Faults) (sites : list Site) : option string :=
  match sites with
  | [] => None
  | site :: rest =>
      match faults site with
      | Some error => Some error
      | None => firstFault faults rest
      end
  end.

Section Window.

Variable faults : Faults.

Definition step {A : Type} (site : Site) (a : A) : M A :=
  match faults site with
  | Some error => throw error
  | None => ret a
  end.

(** [o.views] on an array slot, as read number [n] of the block: reading
    a property of [undefined] raises a [TypeError]. *)
Definition readViews (n : nat) (o : option ScanData) : M Z :=
  match o with
  | Some s => step (ReadWindow n) (views s)
  | None => throw "TypeError: Cannot read properties of undefined (reading 'views')"
  end.

(** [o?.views || 0] *)
Definition readViewsOr0 (n : nat) (o : option ScanData) : M Z :=
  match o with
  | Some s => v <- step (ReadWindow n) (views s) ;; ret (orElse v 0)
  | None => ret 0
  end.

(** The body of the [try] block after the slice (lines 276-322), over
    the sliced window [scans]. *)
Definition plateauBody (scans : list ScanData) : M unit :=
  let s0 := nth_error scans 0 in
  let s1 := nth_error scans 1 in
  let s2 := nth_error scans 2 in
  let s3 := nth_error scans 3 in
  let s4 := nth_error scans 4 in
  let s5 := nth_error scans 5 in
  beforePlateau <-
    (if truthy s0 && truthy s2 then
       a <- readViews 0 s0 ;; b <- readViews 1 s2 ;;
       ret (isPlateau (orElse a 0) (orElse b 0))
     else ret false) ;;
  hasJump <-
    (if truthy s3 && truthy s2 then
       a <- readViews 2 s3 ;; b <- readViews 3 s2 ;;
       ret (orElse a 0 - orElse b 0 >=? 500)
     else ret false) ;;
  consecutivePlateau <-
    (if truthy s3 && truthy s4 && truthy s5 then
       a <- readViews 4 s3 ;; b <- readViews 5 s4 ;;
       if isPlateau (orElse a 0) (orElse b 0) then
         c <- readViews 6 s4 ;; d <- readViews 7 s5 ;;
         ret (isPlateau (orElse c 0) (orElse d 0))
       else ret false
     else ret false) ;;
  overallChangeAbs <-
    (if truthy s5 && truthy s3 then
       a <- readViews 8 s5 ;; b <- readViews 9 s3 ;;
       ret (Z.abs (orElse a 0 - orElse b 0))
     else ret 0) ;;
  overallChangeRel <-
    (if truthy s5 && truthy s3 then
       a <- readViews 10 s5 ;; b <- readViews 11 s3 ;; c <- readViews 12 s3 ;;
       ret (Z.abs (orElse a 0 - orElse b 0) / Z.max (orElse c 1) 1)%Q
     else ret 0%Q) ;;
  (if beforePlateau && hasJump && consecutivePlateau
      && ((overallChangeAbs <=? 30) || (overallChangeRel <=? 0.1)%Q)
   then
     t0 <- readViewsOr0 13 s0 ;; t1 <- readViewsOr0 14 s1 ;;
     t2 <- readViewsOr0 15 s2 ;; t3 <- readViewsOr0 16 s3 ;;
     t4 <- readViewsOr0 17 s4 ;; t5 <- readViewsOr0 18 s5 ;;
     exec (flag PlateauJumpPlateau (plateauMessage t0 t1 t2 t3 t4 t5))
   else ret tt) ;;
  (* SMALL-PLATEAU STEP PATTERN *)
  v0 <- readViewsOr0 19 s0 ;;
  v1 <- readViewsOr0 20 s1 ;;
  v2 <- readViewsOr0 21 s2 ;;
  v3 <- readViewsOr0 22 s3 ;;
  v4 <- readViewsOr0 23 s4 ;;
  v5 <- readViewsOr0 24 s5 ;;
  let twoPlateau := isPlateau v0 v1 in
  let smallJumpDelta := v2 - v1 in
  let bigJumpDelta := v3 - v2 in
  let highPlateau3 := isPlateau v3 v4 && isPlateau v4 v5 in
  let smallJump := smallJumpDelta >=? 300 in
  let bigJump := (bigJumpDelta >=? 500) && (bigJumpDelta >? smallJumpDelta) in
  when (twoPlateau && smallJump && bigJump && highPlateau3)
       (exec (flag SmallPlateauStep
                (stepMessage smallJumpDelta bigJumpDelta v0 v1 v2 v3 v4 v5))).

(** The whole [try] block (lines 272-322). *)
Definition windowBlock (l : list ScanData) (i : Z) : M unit :=
  scans <- step WindowSlice (window l i) ;;
  plateauBody scans.

(** PLATEAU PATTERN DETECTION (lines 269-326), with its [try]/[catch]. *)
Definition plateauPatternDetectionM (P : Props) : M unit :=
  match allScans P, scanIndex P with
  | Some l, Some i =>
      when (negb (platform P =? "youtube")%string && (Z.of_nat (List.length l) >=? 6))
           (tryCatch (windowBlock l i)
                     (fun error =>
                        exec (consoleLog ("Error in plateau detection: " ++ error))))
  | _, _ => ret tt
  end.

End Window.

Definition plateauPatternDetection (P : Props) (st : St.t) : St.t :=
  fst (plateauPatternDetectionM noFaults P st).

(** The reads of [.views] outside the [try] block, in the order of
    evaluation: the two destructurings, the loop that counts the leading
    zero-view scans (it reads one scan past them, if there is one), and
    the bridging branch of [getEffectivePair], once for each call that
    is executed and bridges. *)
Definition leadingReads (P : Props) : list Site :=
  match allScans P with
  | Some scansArr =>
      map ReadLeading
          (seq 0 (Nat.min (List.length scansArr) (S (Z.to_nat (leadingZeroCount P)))))
  | None => []
  end.

Definition bridgeReads (P : Props) : list Site :=
  let call (line : nat) (executed : bool) (key : MetricKey) : list Site :=
    if executed && bridged (getEffectivePair P key) then [ReadBridge line] else [] in
  let likesPlatform :=
    negb (platform P =? "youtube")%string && negb (platform P =? "snapchat")%string in
  (call 132%nat likesPlatform Likes
   ++ call 154%nat (matureScan P && negb (glitchShares P)) Shares
   ++ call 159%nat (matureScan P && negb (glitchSaves P)) Saves
   ++ call 167%nat (matureScan P && negb (glitchShares P)) Shares
   ++ call 176%nat (matureScan P && negb (glitchSaves P)) Saves
   ++ call 197%nat (matureScan P && negb (glitchLikes P)) Likes
   ++ call 225%nat (likesPlatform && (views (prevScan P) >=? 100) && matureScan P) Likes
   ++ call 241%nat (matureScan P && negb (glitchComments P)
                    && (comments (prevScan P) >=? 20)) Comments
   ++ call 251%nat (negb (platform P =? "youtube")%string && matureScan P
                    && negb (glitchComments P)) Comments
   ++ call 261%nat true Comments)%list.

Definition readsBeforeWindow (P : Props) : list Site :=
  ([ReadCurrent; ReadPrevious] ++ leadingReads P ++ bridgeReads P)%list.

(** ** [detectBotAlgo] (detect-bot-algo.ts, lines 24-329) *)

(** The per-transition rules, lines 122-267. *)
Definition transitionRules (P : Props) : St.t :=
  St.init
    |> earlyViewJump P
    |> likesAnomalies P
    |> sharesSavesGrowth P
    |> sharesZeroToX P
    |> savesZeroToX P
    |> tiktokZeroSaves P
    |> tiktokZeroShares P
    |> zeroLikes P
    |> snapchatUltraLowEngagement P
    |> commentNotes P
    |> likeRatioCollapse P
    |> massiveCommentDrop P
    |> commentJumpViewsFlat P
    |> commentInjection P.

Definition runRules (P : Props) : St.t :=
  transitionRules P |> plateauPatternDetection P.

Definition detectBotAlgo (P : Props) : BotDetectorAlgoResponse :=
  respond (runRules P).

(** [detectBotAlgo] under [faults].  A step that raises outside the
    [try] block ends the call with its error, whatever the rules did
    before; the rules themselves are computed from the stored values,
    which is what the steps yield when they do not raise. *)
Definition detectBotAlgoWith (faults : Faults) (P : Props)
    : Completion BotDetectorAlgoResponse :=
  match firstFault faults (readsBeforeWindow P) with
  | Some error => Thrown error
  | None =>
      match plateauPatternDetectionM faults P (transitionRules P) with
      | (st, Normal _) => Normal (respond st)
      | (_, Thrown error) => Thrown error
      end
  end.

(** The reject sites executed on [P], in order. *)
Definition firedRules (P : Props) : list Rule := map fst (St.fired (runRules P)).

(** ** The runner's copy of [detectBotAlgo] (lines 382-630)

    The helper closures and the blocks it has are textually the blocks
    above; it has no early-view-jump block and no TikTok blocks. *)

Module RunDetect.

Definition runRules (P : Props) : St.t :=
    St.init
      |> likesAnomalies P
      |> sharesSavesGrowth P
      |> sharesZeroToX P
      |> savesZeroToX P
      |> zeroLikes P
      |> snapchatUltraLowEngagement P
      |> commentNotes P
      |> likeRatioCollapse P
      |> massiveCommentDrop P
      |> commentJumpViewsFlat P
      |> commentInjection P
      |> plateauPatternDetection P.

Definition detectBotAlgo (P : Props) : BotDetectorAlgoResponse :=
    respond (runRules P).

End RunDetect.

(** ** Text helpers of the drivers *)

(** [s.split('\n')] for a one-character separator. *)
Fixpoint split (sep : ascii) (s : string) : list string :=
  match s with
  | EmptyString => [""]
  | String c rest =>
      if Ascii.eqb c sep then "" :: split sep rest
      else match split sep rest with
           | h :: t => String c h :: t
           | [] => [String c ""]
           end
  end.

(** White space removed by [trim], within ASCII. *)
Definition isSpace (c : ascii) : bool :=
  let n := nat_of_ascii c in
  ((9 <=? n) && (n <=? 13))%nat || (n =? 32)%nat.

Fixpoint trimStart (s : string) : string :=
  match s with
  | EmptyString => ""
  | String c rest => if isSpace c then trimStart rest else s
  end.

Fixpoint trimEnd (s : string) : string :=
  match s with
  | EmptyString => ""
  | String c rest =>
      match trimEnd rest with
      | EmptyString => if isSpace c then "" else String c ""
      | r => String c r
      end
  end.

Definition trim (s : string) : string := trimEnd (trimStart s).

(** [Boolean(s)] on a string. *)
Definition nonEmpty (s : string) : bool :=
  match s with EmptyString => false | _ => true end.

(** [l.join(sep)] *)
Fixpoint join (sep : string) (l : list string) : string :=
  match l with
  | [] => ""
  | [s] => s
  | s :: rest => s ++ sep ++ join sep rest
  end.

(** [\w] *)
Definition isWordChar (c : ascii) : bool :=
  let n := nat_of_ascii c in
  ((48 <=? n) && (n <=? 57) || (65 <=? n) && (n <=? 90)
   || (97 <=? n) && (n <=? 122) || (n =? 95))%nat.

Fixpoint afterPrefix (w s : string) : option string :=
  match w, s with
  | EmptyString, _ => Some s
  | String a w', String b s' => if Ascii.eqb a b then afterPrefix w' s' else None
  | String _ _, EmptyString => None
  end.

(** [/\bw\b/.test(s)] for a literal [w] that starts and ends with a word
    character; [prevWord] tells whether the character before [s] is one. *)
Fixpoint testWord (w : string) (prevWord : bool) (s : string) : bool :=
  (negb prevWord
   && match afterPrefix w s with
      | Some EmptyString => true
      | Some (String c _) => negb (isWordChar c)
      | None => false
      end)
  || match s with
     | EmptyString => false
     | String c rest => testWord w (isWordChar c) rest
     end.

(** ** Run summarizers (run-detect.ts, lines 652-793)

    The four summarizers are one loop over the scans, with a condition
    and a line format of their own. *)

Section Summarize.
Variable cond : ScanData -> bool.
Variable line : Z -> Z -> Z -> string. (* first scan, last scan, length *)
Variable minRun : Z.

  (** The [for] loop: [i] is the index of the head of [scans], [start]
      the pending run, [msgs] the lines pushed so far. *)
Fixpoint runLoop (scans : list ScanData) (i : Z) (start : option Z)
      (msgs : list string) : option Z * list string :=
    match scans with
    | [] => (start, msgs)
    | s :: rest =>
        if cond s then
          runLoop rest (i + 1)
                  (match start with None => Some i | Some _ => start end) msgs
        else
          match start with
          | Some st =>
              let len := i - st in
              runLoop rest (i + 1) None
                      (if len >=? minRun then (msgs ++ [line (st + 1) i len])%list else msgs)
          | None => runLoop rest (i + 1) None msgs
          end
    end.

Definition summarizeRuns (scans : list ScanData) : list string :=
    let '(start, msgs) := runLoop scans 0 None [] in
    (* close a trailing run *)
    match start with
    | Some st =>
        let total := Z.of_nat (List.length scans) in
        let len := total - st in
        if len >=? minRun then (msgs ++ [line (st + 1) total len])%list else msgs
    | None => msgs
    end.
End Summarize.

Definition zeroLikesLine (a b len : Z) : string :=
  "Scans " ++ showZ a ++ "–" ++ showZ b ++ ": zero likes across " ++ showZ len
    ++ " scans (may be hidden likes)".

Definition zeroLike (minViews : Z) (s : ScanData) : bool :=
  (views s >? minViews) && (likes s =? 0).

Definition summarizeZeroLikes (scans : list ScanData) (_platform : string)
    (minViews minRun : Z) : list string :=
  summarizeRuns (zeroLike minViews) zeroLikesLine minRun scans.

Definition ultraLowEngagementLine (a b len : Z) : string :=
  "Scans " ++ showZ a ++ "–" ++ showZ b ++ ": ultra-low engagement across "
    ++ showZ len ++ " scans (20K+ views with 0 comments and ≤1 shares)".

Definition summarizeUltraLowEngagement (scans : list ScanData) (platform : string)
    (minViews minRun : Z) : list string :=
  if negb (platform =? "snapchat")%string then []
  else summarizeRuns
         (fun s => (views s >? minViews) && (comments s =? 0) && (shares s <=? 1))
         ultraLowEngagementLine minRun scans.

Definition zeroCommentsLine (a b len : Z) : string :=
  "Scans " ++ showZ a ++ "–" ++ showZ b ++ ": zero comments across " ++ showZ len
    ++ " scans (5K+ views with 0 comments)".

Definition summarizeZeroComments (scans : list ScanData) (_platform : string)
    (minViews minRun : Z) : list string :=
  summarizeRuns (fun s => (views s >? minViews) && (comments s =? 0))
                zeroCommentsLine minRun scans.

Definition lowCommentRatioLine (threshold : Q) (a b len : Z) : string :=
  "Scans " ++ showZ a ++ "–" ++ showZ b ++ ": low comment ratio across " ++ showZ len
    ++ " scans (5K+ views with <"
    ++ toFixedNumber (fmul (decimal (Qnum threshold) (Qden threshold)) (ofZ 100)) 2
    ++ "% comment ratio)".

Definition summarizeLowCommentRatio (scans : list ScanData) (_platform : string)
    (minViews minRun : Z) (threshold : Q) : list string :=
  summarizeRuns
    (fun s => (views s >? minViews) && quotientLt (comments s) (views s) threshold)
    (lowCommentRatioLine threshold) minRun scans.

(** ** [analyzeUrl] (run-detect.ts, lines 876-957)

    The page fetch, [inferPlatformFromUrl] and [parseScans] are inputs:
    [platform] is the inferred platform and [scans] the parsed series.
    Lines streamed to the console are not part of the result. *)

Module Analysis.
Record t := mk {
    url : string;
    platform : string;
    scanCount : Z;
    flagged : list string;
    perScan : list (Z * list string);
    zeroCommentSummaries : option (list string);
    lowCommentRatioSummaries : option (list string)
  }.
End Analysis.

(** [bottedReason.split('\n').map(s => s.trim()).filter(Boolean)] *)
Definition reasonsOf (botted : string) : list string :=
  filter nonEmpty (map trim (split (ascii_of_nat 10) botted)).

(** Pairwise checks: the iterations [i, i+1, ...] of the loop, [previous]
    being [validScans[i-1]] and [rest] the scans from index [i] on. *)
Fixpoint pairwiseChecks (platform : string) (validScans : list ScanData)
    (logNotes : bool) (previous : ScanData) (rest : list ScanData) (i : Z)
    (flagged : list string) (perScan : list (Z * list string))
    : list string * list (Z * list string) :=
  match rest with
  | [] => (flagged, perScan)
  | current :: rest' =>
      let r := RunDetect.detectBotAlgo
                 (mkProps previous current platform (Some i) (Some validScans) logNotes) in
      let reasons := reasonsOf (bottedReason r) in
      let line :=
        if (0 <? List.length reasons)%nat
        then "Scan " ++ showZ i ++ ": Anomalie : " ++ join "; " reasons
        else "Scan " ++ showZ i ++ ": No anomalies" in
      let flagged' :=
        if shouldReject r && (0 <? List.length reasons)%nat
        then (flagged ++ [line])%list else flagged in
      pairwiseChecks platform validScans logNotes current rest' (i + 1)
                     flagged' (perScan ++ [(i, reasons)])%list
  end.

Definition analyzeUrl (url platform : string) (scans : list ScanData)
    (logNotes : bool) : Completion Analysis.t :=
  let validScans := filter (fun s => negb (missing s)) scans in
  match validScans with
  | [] => Thrown "No scans found."
  | first :: rest =>
      let '(flagged, perScan) :=
        pairwiseChecks platform validScans logNotes first rest 1 [] [] in
      let likesPlatform := includes ["tiktok"; "instagram"; "youtube"] platform in
      (* Only summarize zero-likes where likes are meaningful *)
      let flagged :=
        if likesPlatform then
          match summarizeZeroLikes validScans platform 1000 5 with
          | [] => flagged
          | zeroLikeSummaries =>
              (filter (fun l => negb (testWord "zero likes" false l)) flagged
                 ++ zeroLikeSummaries)%list
          end
        else flagged in
      (* Summarize ultra-low engagement for Snapchat *)
      let flagged :=
        if (platform =? "snapchat")%string then
          match summarizeUltraLowEngagement validScans platform 20000 3 with
          | [] => flagged
          | summaries =>
              (filter (fun l => negb (testWord "ultra-low engagement" false l)) flagged
                 ++ summaries)%list
          end
        else flagged in
      Normal (Analysis.mk url platform (Z.of_nat (List.length scans)) flagged perScan
                (if likesPlatform
                 then Some (summarizeZeroComments validScans platform 5000 3)
                 else None)
                (if likesPlatform
                 then Some (summarizeLowCommentRatio validScans platform 5000 3 0.01)
                 else None))
  end.

(** The line [runOnce] prints for a result (lines 998-1006). *)
Definition runOnceLine (result : Analysis.t) : string :=
  match Analysis.flagged result with
  | [] => "url1: ✅ No anomalies detected"
  | fl => "url1: 🚩 (" ++ join " | " fl ++ ")"
  end.

(** ** [detectBotDuringScan] (the scan-time driver)

    The database is an input: [submission] is the row found for the id,
    [findAll] gives the non-extended scans of a table in id order, and
    [now i] is the time stamp taken at transition [i]. *)

Inductive ScanTable :=
| PostScansFacebook | PostScansGram | PostScansSnapchat
| PostScansTiktok | PostScansTwitter | PostScansTube.

Module Submission.
Record t := mk {
    platform : string;
    internalNotes : string  (* [submissionInfo?.internalNotes || ''] *)
  }.
End Submission.

(** The [switch] on the platform; [None] leaves [scans] undefined. *)
Definition scanTable (platform : string) : option ScanTable :=
  if (platform =? "facebook")%string then Some PostScansFacebook
  else if (platform =? "instagram")%string then Some PostScansGram
  else if (platform =? "snapchat")%string then Some PostScansSnapchat
  else if (platform =? "tiktok")%string then Some PostScansTiktok
  else if (platform =? "twitter")%string then Some PostScansTwitter
  else if (platform =? "youtube")%string then Some PostScansTube
  else if (platform =? "youtube-short")%string then Some PostScansTube
  else None.

(** The outcome of the driver: the value it resolves to ([None] is
    [undefined], the bare [return;]) and the notes it stores, if any. *)
Record DuringScan := mkDuringScan {
  verdict : option bool;
  storedNotes : option string
}.

Fixpoint scanTransitions (platform : string) (scans : list ScanData)
    (now : Z -> string) (previous : ScanData) (rest : list ScanData) (i : Z)
    (reject : bool) (internalNotes : string) : bool * string :=
  match rest with
  | [] => (reject, internalNotes)
  | current :: rest' =>
      let r := detectBotAlgo
                 (mkProps previous current
                    (if (platform =? "youtube-short")%string then "youtube" else platform)
                    (Some i) (Some scans) false) in
      let internalNotes' :=
        if nonEmpty (trim (bottedReason r)) then
          internalNotes
            ++ (if nonEmpty internalNotes then nl ++ nl else "") ++ " " ++ now i
            ++ " shouldReject: " ++ showBool (shouldReject r)
            ++ " bottedReason: " ++ bottedReason r
            ++ " between scans " ++ showZ i ++ " and " ++ showZ (i + 1) ++ " "
        else internalNotes in
      scanTransitions platform scans now current rest' (i + 1)
                      (if shouldReject r then true else reject) internalNotes'
  end.

Definition detectBotDuringScan (submission : option Submission.t)
    (findAll : ScanTable -> list ScanData) (now : Z -> string)
    : Completion DuringScan :=
  match submission with
  | None => Thrown "Missing submission"
  | Some sub =>
      match scanTable (Submission.platform sub) with
      | None => Thrown "TypeError: Cannot read properties of undefined (reading 'length')"
      | Some table =>
          let scans := findAll table in
          if Z.of_nat (List.length scans) <? 2 then
            Normal (mkDuringScan None None)
          else
            match scans with
            | first :: rest =>
                let '(reject, notes) :=
                  scanTransitions (Submission.platform sub) scans now first rest 1
                                  false (Submission.internalNotes sub) in
                Normal (mkDuringScan (Some reject) (Some notes))
            | [] => Normal (mkDuringScan None None)
            end
      end
  end.

(** ** The bot verdict of the admin report (dump-marketing-data.ts)

    Of [adminDumpMarketingDataHandler] the part that decides the
    "Bot AI Detection" box (lines 90-152, 172-222 and 238-250).  The
    database is an input, as for [detectBotDuringScan]: [findAll] gives
    the scans the query of a table returns, extended scans included or
    not as the setting says.  The HTML is not modelled. *)

(** The [switch] on the platform (lines 97-152): it has no case for
    'youtube-short', and [scans] stays [[]] outside its cases. *)
Definition dumpScanTable (platform : string) : option ScanTable :=
  if (platform =? "tiktok")%string then Some PostScansTiktok
  else if (platform =? "instagram")%string then Some PostScansGram
  else if (platform =? "youtube")%string then Some PostScansTube
  else if (platform =? "facebook")%string then Some PostScansFacebook
  else if (platform =? "snapchat")%string then Some PostScansSnapchat
  else if (platform =? "twitter")%string then Some PostScansTwitter
  else None.

(** [map.set(k, v)] on a [Map], which keeps the keys in insertion order. *)
Fixpoint mapSet (k : string) (v : bool) (m : list (string * bool))
    : list (string * bool) :=
  match m with
  | [] => [(k, v)]
  | (k', v') :: rest =>
      if (k' =? k)%string then (k', v) :: rest else (k', v') :: mapSet k v rest
  end.

(** The loop of lines 174-236, as far as [bottedReason] is concerned. *)
Fixpoint dumpTransitions (platform : string) (scans : list ScanData)
    (previous : ScanData) (rest : list ScanData) (index : Z)
    (botted : list (string * bool)) : list (string * bool) :=
  match rest with
  | [] => botted
  | scan :: rest' =>
      let botDetectionReasons :=
        detectBotAlgo
          (mkProps previous scan
             (if (platform =? "youtube-short")%string then "youtube" else platform)
             (Some index) (Some scans) true) in
      let botted' :=
        if (0 <? String.length (bottedReason botDetectionReasons))%nat then
          mapSet ("#" ++ showZ index ++ ": " ++ bottedReason botDetectionReasons)
                 (shouldReject botDetectionReasons) botted
        else botted in
      dumpTransitions platform scans scan rest' (index + 1) botted'
  end.

(** The three labels of the box: 'Not Botted', 'Maybe Botted', 'Botted'. *)
Inductive BotLabel := NotBotted | MaybeBotted | Botted.

Definition botLabel (botted : list (string * bool)) : BotLabel :=
  let hasBottedReason := (0 <? List.length botted)%nat in
  let hasReject := existsb (fun entry => snd entry) botted in
  if hasBottedReason then (if hasReject then Botted else MaybeBotted) else NotBotted.

Definition dumpBotLabel (platform : string) (findAll : ScanTable -> list ScanData)
    : BotLabel :=
  let scans := match dumpScanTable platform with
               | Some table => findAll table
               | None => []
               end in
  botLabel (match scans with
            | [] => []
            | first :: rest => dumpTransitions platform scans first rest 1 []
            end).

(** ** Auxiliary definitions used by the statements *)

(** The text a list of executed reject sites leaves in [bottedReason]. *)
Fixpoint render (evs : list (Rule * option string)) : string :=
  match evs with
  | [] => ""
  | (_, Some msg) :: rest => nl ++ msg ++ render rest
  | (_, None) :: rest => render rest
  end.

(** The state agrees with its ghost trace. *)
Definition Coherent (st : St.t) : Prop :=
  St.bottedReason st = render (St.fired st)
  /\ St.shouldReject st = negb (match St.fired st with [] => true | _ => false end).

(** Running [b]'s effects after [a]'s. *)
Definition st_app (a b : St.t) : St.t :=
  St.mk (St.shouldReject a || St.shouldReject b)
        (St.bottedReason a ++ St.bottedReason b)
        (St.console a ++ St.console b)
        (St.fired a ++ St.fired b).

(** A block only ever adds to the state it is given. *)
Definition Appending (f : St.t -> St.t) : Prop :=
  forall st, f st = st_app st (f St.init).

(** [o?.views || 0] on a plain record. *)
Definition slotViews (o : option ScanData) : Z :=
  match o with Some s => orElse (views s) 0 | None => 0 end.

(** The two window rules over plain records, as guards. *)
Definition plateauJumpPlateauGuard (scans : list ScanData) : bool :=
  let s k := nth_error scans k in
  let v k := slotViews (s k) in
  (truthy (s 0%nat) && truthy (s 2%nat) && isPlateau (v 0%nat) (v 2%nat))
  && (truthy (s 3%nat) && truthy (s 2%nat) && (v 3%nat - v 2%nat >=? 500))
  && (truthy (s 3%nat) && truthy (s 4%nat) && truthy (s 5%nat)
      && isPlateau (v 3%nat) (v 4%nat) && isPlateau (v 4%nat) (v 5%nat))
  && ((Z.abs (v 5%nat - v 3%nat) <=? 30)
      || (Z.abs (v 5%nat - v 3%nat)
            / Z.max (match s 3%nat with Some s3 => orElse (views s3) 1 | None => 1 end) 1
          <=? 0.1)%Q).

Definition smallPlateauStepGuard (scans : list ScanData) : bool :=
  let v k := slotViews (nth_error scans k) in
  isPlateau (v 0%nat) (v 1%nat)
  && (v 2%nat - v 1%nat >=? 300)
  && ((v 3%nat - v 2%nat >=? 500) && (v 3%nat - v 2%nat >? v 2%nat - v 1%nat))
  && (isPlateau (v 3%nat) (v 4%nat) && isPlateau (v 4%nat) (v 5%nat)).

Definition windowRules (scans : list ScanData) (st : St.t) : St.t :=
  let v k := slotViews (nth_error scans k) in
  let st :=
    if plateauJumpPlateauGuard scans then
      st |> flag PlateauJumpPlateau
              (plateauMessage (v 0%nat) (v 1%nat) (v 2%nat) (v 3%nat) (v 4%nat) (v 5%nat))
    else st in
  if smallPlateauStepGuard scans then
    st |> flag SmallPlateauStep
            (stepMessage (v 2%nat - v 1%nat) (v 3%nat - v 2%nat)
               (v 0%nat) (v 1%nat) (v 2%nat) (v 3%nat) (v 4%nat) (v 5%nat))
  else st.

(** [Block rs f]: the block [f] only adds to the state, what it adds is
    coherent with the ghost trace, every site it executes is one of
    [rs], and the only site without a message is the Snapchat one. *)

Definition Block (rs : list Rule) (f : St.t -> St.t) : Prop :=
  Appending f
  /\ Coherent (f St.init)
  /\ (forall r m, In (r, m) (St.fired (f St.init)) ->
        In r rs /\ (m = None -> r = SnapchatUltraLowEngagement)).

(** Every reject site. *)
Definition allRules : list Rule :=
  [EarlyViewJump; ViewsDoubledLikesFlat; ViewsGrewLikesFrozen; LikesSpikeViewsFlat;
   MetricAppeared; MetricGrewQuickly; SharesZeroToX; SavesZeroToX;
   TikTokZeroSaves; TikTokZeroShares; ZeroLikes; SnapchatUltraLowEngagement;
   LikeRatioCollapse; MassiveCommentDrop; CommentJumpViewsFlat; CommentInjection;
   PlateauJumpPlateau; SmallPlateauStep].

(** The reads of the [try] block that precede the test of the
    plateau-jump-plateau rule (lines 281-296): reads 6 and 7 are skipped
    when the first plateau test of line 289 fails. *)
Definition guardReads (scans : list ScanData) : list Site :=
  let v k := slotViews (nth_error scans k) in
  map ReadWindow
      ([0; 1; 2; 3; 4; 5]
         ++ (if isPlateau (v 3%nat) (v 4%nat) then [6; 7] else [])
         ++ [8; 9; 10; 11; 12])%nat%list.

(** The steps of the [try] block up to the reject of the
    plateau-jump-plateau rule (lines 275-300). *)
Definition sitesUpToReject : list Site := WindowSlice :: map ReadWindow (seq 0 19).

(** ** Concrete inputs *)

Definition scanOf (v l : Z) : ScanData := mkScan v l 0 0 0 false.

(** A transition between consecutive scans of a series. *)
Definition transitionOf (platform : string) (series : list ScanData) (i : nat)
    (notes : bool) : Props :=
  mkProps (nth (i - 1) series (scanOf 0 0)) (nth i series (scanOf 0 0)) platform
          (Some (Z.of_nat i)) (Some series) notes.

(** A Snapchat scan pair with 30000 views, no comments and no shares. *)
Definition snapchatQuiet : Props :=
  transitionOf "snapchat" [scanOf 30000 0; scanOf 30000 0] 1 false.

(** Views [0, 20000] and [0, 19999]. *)
Definition jump20000 : Props :=
  transitionOf "facebook" [scanOf 0 0; scanOf 20000 0] 1 false.
Definition jump19999 : Props :=
  transitionOf "facebook" [scanOf 0 0; scanOf 19999 0] 1 false.

(** Views 1000 -> 2100 with likes 50 -> 60: likes are exactly 1.2 times
    the previous likes. *)
Definition likesBoundary : Props :=
  transitionOf "tiktok" [scanOf 1000 50; scanOf 2100 60] 1 false.

(** The same transition with likes 50 -> 59, just below 1.2 times. *)
Definition likesBelowBoundary : Props :=
  transitionOf "tiktok" [scanOf 1000 50; scanOf 2100 59] 1 false.

(** Likes [100, 0, 120] with views roughly flat. *)
Definition glitchSeries : list ScanData :=
  [scanOf 5000 100; scanOf 5010 0; scanOf 5020 120].

(** Views [1000, 1010, 995, 1600, 1605, 1590], and the same window with
    the jump reduced to +100. *)
Definition plateauSeries : list ScanData :=
  map (fun v => scanOf v 100) [1000; 1010; 995; 1600; 1605; 1590].
Definition smallJumpSeries : list ScanData :=
  map (fun v => scanOf v 100) [1000; 1010; 995; 1095; 1100; 1085].

(** A TikTok scan pair at 6000 views without saves. *)
Definition tiktokNoSaves : Props :=
  mkProps (mkScan 6000 600 0 5 10 false) (mkScan 6000 600 0 5 10 false)
          "tiktok" None None false.

(** Five scans with 2000 views and no likes, then one scan with likes. *)
Definition zeroLikesSeries : list ScanData :=
  [scanOf 2000 0; scanOf 2000 0; scanOf 2000 0; scanOf 2000 0; scanOf 2000 0;
   scanOf 2000 7].

(** Scan objects whose [views] accessor raises on every read. *)
Definition brokenViews : Faults :=
  fun site =>
    match site with
    | WindowSlice => None
    | _ => Some "views is unavailable"
    end.

(** One step of the [try] block raises. *)
Definition raisesAt (n : nat) : Faults :=
  fun site =>
    match site with
    | ReadWindow k => if (k =? n)%nat then Some "views is unavailable" else None
    | _ => None
    end.

(** ** Auxiliary definitions for the further properties *)

(** The same input with the [logNotes] option set to [b]. *)
Definition withLogNotes (b : bool) (P : Props) : Props :=
  mkProps (prevScan P) (currentScan P) (platform P) (scanIndex P) (allScans P) b.

(** The pair of the current boundary, without bridging. *)
Definition rawPair (P : Props) (key : MetricKey) : EffectivePair :=
  mkPair (metric key (prevScan P)) (metric key (currentScan P))
         (views (prevScan P)) (views (currentScan P)) false.

(** Comments [30, 0, 40] with flat views. *)
Definition commentGlitchSeries : list ScanData :=
  [mkScan 5000 100 0 0 30 false; mkScan 5010 101 0 0 0 false;
   mkScan 5020 102 0 0 40 false].

(** Shares and saves [12, 0, 15] with flat views. *)
Definition shareGlitchSeries : list ScanData :=
  [mkScan 20000 100 12 12 3 false; mkScan 20010 101 0 0 3 false;
   mkScan 20020 102 15 15 3 false].

(** The rules that are guarded by the glitch flag of a metric alone. *)
Definition guardedBy (key : MetricKey) : list Rule :=
  match key with
  | Likes => [ViewsGrewLikesFrozen; LikesSpikeViewsFlat; ZeroLikes; LikeRatioCollapse]
  | Comments => [MassiveCommentDrop; CommentJumpViewsFlat; CommentInjection]
  | Saves => [SavesZeroToX; TikTokZeroSaves]
  | Shares => [SharesZeroToX; TikTokZeroShares]
  end.

(** A block that writes nothing to the console. *)
Definition Silent (f : St.t -> St.t) : Prop :=
  forall st, St.console (f st) = St.console st.

(** The blocks before and after the note block. *)
Definition rulesBeforeNotes (P : Props) (st : St.t) : St.t :=
  st |> earlyViewJump P |> likesAnomalies P |> sharesSavesGrowth P
     |> sharesZeroToX P |> savesZeroToX P |> tiktokZeroSaves P
     |> tiktokZeroShares P |> zeroLikes P |> snapchatUltraLowEngagement P.

Definition rulesAfterNotes (P : Props) (st : St.t) : St.t :=
  st |> likeRatioCollapse P |> massiveCommentDrop P
     |> commentJumpViewsFlat P |> commentInjection P
     |> plateauPatternDetection P.

(** Views [1000, 1010, 1400, 2000, 2005, 1990]: a small step, then a
    bigger one. *)
Definition stepSeries : list ScanData :=
  map (fun v => scanOf v 100) [1000; 1010; 1400; 2000; 2005; 1990].

(** Three scans with 6000 views and no comments between two scans with
    comments. *)
Definition zeroCommentsSeries : list ScanData :=
  [mkScan 6000 10 0 0 4 false; mkScan 6000 10 0 0 0 false;
   mkScan 6100 10 0 0 0 false; mkScan 6200 10 0 0 0 false;
   mkScan 6300 10 0 0 9 false].

(** Three Snapchat scans above 20000 views without comments or shares. *)
Definition ultraLowSeries : list ScanData :=
  [mkScan 30000 0 0 0 0 false; mkScan 31000 0 0 1 0 false;
   mkScan 32000 0 0 0 0 false].

(** A summary line whose scan numbers are moved by [k]. *)
Definition shiftLine (line : Z -> Z -> Z -> string) (k : Z) : Z -> Z -> Z -> string :=
  fun a b n => line (a + k) (b + k) n.

(** What the runner's loop computes at transition [j] of the valid scans. *)
Definition runnerResponse (platform : string) (valid : list ScanData)
    (notes : bool) (j : nat) : BotDetectorAlgoResponse :=
  RunDetect.detectBotAlgo (transitionOf platform valid j notes).

Definition pairReasons (platform : string) (valid : list ScanData)
    (notes : bool) (j : nat) : list string :=
  reasonsOf (bottedReason (runnerResponse platform valid notes j)).

Definition pairFlagged (platform : string) (valid : list ScanData)
    (notes : bool) (j : nat) : list string :=
  if shouldReject (runnerResponse platform valid notes j)
     && (0 <? List.length (pairReasons platform valid notes j))%nat
  then ["Scan " ++ showZ (Z.of_nat j) ++ ": Anomalie : "
          ++ join "; " (pairReasons platform valid notes j)]
  else [].

(** The platform tag the drivers hand to the engine. *)
Definition engineTag (platform : string) : string :=
  if (platform =? "youtube-short")%string then "youtube" else platform.

(** What the scan-time driver and the report compute at transition [j]. *)
Definition engineResponse (platform : string) (scans : list ScanData)
    (notes : bool) (j : nat) : BotDetectorAlgoResponse :=
  detectBotAlgo (transitionOf (engineTag platform) scans j notes).

(** The note the scan-time driver appends for transition [j]. *)
Definition appendNote (now : Z -> string) (r : BotDetectorAlgoResponse) (j : nat)
    (internalNotes : string) : string :=
  if nonEmpty (trim (bottedReason r)) then
    internalNotes
      ++ (if nonEmpty internalNotes then nl ++ nl else "") ++ " " ++ now (Z.of_nat j)
      ++ " shouldReject: " ++ showBool (shouldReject r)
      ++ " bottedReason: " ++ bottedReason r
      ++ " between scans " ++ showZ (Z.of_nat j) ++ " and "
      ++ showZ (Z.of_nat j + 1) ++ " "
  else internalNotes.

(** A database with a three-scan Snapchat series and a two-scan
    YouTube series. *)
Definition storedScans (table : ScanTable) : list ScanData :=
  match table with
  | PostScansSnapchat => [scanOf 30000 0; scanOf 30000 0; scanOf 30000 0]
  | PostScansTube => [scanOf 0 0; scanOf 25000 900]
  | _ => []
  end.

(** The reasons in a trace, in order. *)
Definition messages (evs : list (Rule * option string)) : list string :=
  flat_map (fun e => match snd e with Some m => [m] | None => [] end) evs.

(** A line that [split] and [trim] leave as it is: it has no line feed
    and neither starts nor ends with white space. *)
Fixpoint noNewline (s : string) : bool :=
  match s with
  | EmptyString => true
  | String c rest => negb (Ascii.eqb c (ascii_of_nat 10)) && noNewline rest
  end.

Definition startsVisibly (s : string) : bool :=
  match s with
  | EmptyString => false
  | String c _ => negb (isSpace c)
  end.

Fixpoint endsVisibly (s : string) : bool :=
  match s with
  | EmptyString => false
  | String c EmptyString => negb (isSpace c)
  | String _ rest => endsVisibly rest
  end.

Definition clean (s : string) : bool :=
  startsVisibly s && endsVisibly s && noNewline s.

Definition CleanTrace (evs : list (Rule * option string)) : Prop :=
  Forall (fun m => clean m = true) (messages evs).

Definition CleanBlock (f : St.t -> St.t) : Prop :=
  forall st, CleanTrace (St.fired st) -> CleanTrace (St.fired (f st)).

(** * Properties *)

(** ** Arithmetic and text lemmas *)

Lemma Qltb_lt (x y : Q) : (x <? y)%Q = true <-> (x < y)%Q.
Proof.
  unfold Qltb. rewrite negb_true_iff. split; intro H.
  - apply Qnot_le_lt. intro H'. apply Qle_bool_iff in H'. congruence.
  - destruct (Qle_bool y x) eqn:E; auto.
    apply Qle_bool_iff in E. apply Qle_not_lt in E. contradiction.
Qed.

Lemma Qleb_le (x y : Q) : (x <=? y)%Q = true <-> (x <= y)%Q.
Proof. apply Qle_bool_iff. Qed.

Lemma append_nil_r (s : string) : s ++ "" = s.
Proof. induction s; simpl; congruence. Qed.

Lemma append_assoc (a b c : string) : (a ++ b) ++ c = a ++ b ++ c.
Proof. induction a; simpl; congruence. Qed.

Lemma nl_append_nonempty (s : string) : nl ++ s <> "".
Proof. discriminate. Qed.

Lemma render_app (a b : list (Rule * option string)) :
  render (a ++ b) = render a ++ render b.
Proof.
  induction a as [|[r [m|]] a IH]; simpl; auto.
  rewrite IH, !append_assoc. reflexivity.
Qed.

Lemma render_empty_iff (evs : list (Rule * option string)) :
  render evs = "" <-> forall e, In e evs -> snd e = None.
Proof.
  induction evs as [|[r [m|]] evs IH]; simpl.
  - split; [intros _ e [] | reflexivity].
  - split; [discriminate|]. intro H. specialize (H (r, Some m) (or_introl eq_refl)).
    discriminate.
  - rewrite IH. split.
    + intros H e [<-|He]; auto.
    + intros H e He. apply H. now right.
Qed.

(** ** The state algebra *)

Lemma st_app_init_r (st : St.t) : st_app st St.init = st.
Proof.
  destruct st. unfold st_app. simpl.
  now rewrite ?orb_false_r, ?append_nil_r, ?app_nil_r.
Qed.

Lemma st_app_init_l (st : St.t) : st_app St.init st = st.
Proof. destruct st. reflexivity. Qed.

Lemma st_app_assoc (a b c : St.t) : st_app (st_app a b) c = st_app a (st_app b c).
Proof.
  unfold st_app. simpl. now rewrite orb_assoc, append_assoc, <- !app_assoc.
Qed.

Lemma Appending_id : Appending (fun st => st).
Proof. intro st. now rewrite st_app_init_r. Qed.

Lemma Appending_flag r msg : Appending (flag r msg).
Proof.
  intro st. unfold flag, mark, setReject, appendReason, st_app. simpl.
  now rewrite ?orb_true_r, ?app_nil_r.
Qed.

Lemma Appending_flagSilently r : Appending (flagSilently r).
Proof.
  intro st. unfold flagSilently, mark, setReject, st_app. simpl.
  now rewrite ?orb_true_r, ?append_nil_r, ?app_nil_r.
Qed.

Lemma Appending_consoleLog s : Appending (consoleLog s).
Proof.
  intro st. unfold consoleLog, st_app. simpl.
  now rewrite ?orb_false_r, ?append_nil_r, ?app_nil_r.
Qed.

Lemma Appending_comp f g :
  Appending f -> Appending g -> Appending (fun st => g (f st)).
Proof.
  intros Hf Hg st. rewrite Hg, Hf, (Hg (f St.init)). apply st_app_assoc.
Qed.

Lemma Appending_if (b : bool) f g :
  Appending f -> Appending g -> Appending (fun st => if b then f st else g st).
Proof. intros Hf Hg st. destruct b; [apply Hf | apply Hg]. Qed.

Lemma Coherent_init : Coherent St.init.
Proof. split; reflexivity. Qed.

Lemma Coherent_app a b : Coherent a -> Coherent b -> Coherent (st_app a b).
Proof.
  intros [Ha1 Ha2] [Hb1 Hb2]. split; simpl.
  - now rewrite render_app, Ha1, Hb1.
  - rewrite Ha2, Hb2. destruct (St.fired a), (St.fired b); reflexivity.
Qed.

Lemma Coherent_flag r msg : Coherent (flag r msg St.init).
Proof. split; simpl; now rewrite ?append_nil_r. Qed.

Lemma Coherent_flagSilently r : Coherent (flagSilently r St.init).
Proof. split; reflexivity. Qed.

Lemma Coherent_consoleLog s : Coherent (consoleLog s St.init).
Proof. split; reflexivity. Qed.

(** ** Blocks *)

Lemma Block_id rs : Block rs (fun st => st).
Proof.
  split; [apply Appending_id|]. split; [apply Coherent_init|].
  intros r m [].
Qed.

Lemma Block_flag rs r msg : In r rs -> Block rs (flag r msg).
Proof.
  intro Hr. split; [apply Appending_flag|]. split; [apply Coherent_flag|].
  simpl. intros r' m [H|[]]. inversion H; subst. split; [assumption|discriminate].
Qed.

Lemma Block_flagSilently rs :
  In SnapchatUltraLowEngagement rs -> Block rs (flagSilently SnapchatUltraLowEngagement).
Proof.
  intro Hr. split; [apply Appending_flagSilently|].
  split; [apply Coherent_flagSilently|].
  simpl. intros r' m [H|[]]. inversion H; subst. split; [assumption|reflexivity].
Qed.

Lemma Block_consoleLog rs s : Block rs (consoleLog s).
Proof.
  split; [apply Appending_consoleLog|]. split; [apply Coherent_consoleLog|].
  intros r m [].
Qed.

Lemma Block_comp rs (f g : St.t -> St.t) :
  Block rs f -> Block rs g -> Block rs (fun st => g (f st)).
Proof.
  intros (Af & Cf & Tf) (Ag & Cg & Tg).
  split; [now apply Appending_comp|]. rewrite Ag. split.
  - now apply Coherent_app.
  - simpl. intros r m H. apply in_app_or in H. destruct H; auto.
Qed.

Lemma Block_if rs (b : bool) (f g : St.t -> St.t) :
  Block rs f -> Block rs g -> Block rs (fun st => if b then f st else g st).
Proof. intros Hf Hg. destruct b; [exact Hf | exact Hg]. Qed.

Lemma Block_weaken rs rs' f : incl rs rs' -> Block rs f -> Block rs' f.
Proof.
  intros Hi (A & C & T). split; [exact A|]. split; [exact C|].
  intros r m H. destruct (T r m H). auto.
Qed.

Lemma Block_ext rs (f g : St.t -> St.t) :
  (forall st, f st = g st) -> Block rs g -> Block rs f.
Proof.
  intros E (A & C & T). split; [|split].
  - intro st. now rewrite !E.
  - now rewrite E.
  - intros r m. rewrite E. apply T.
Qed.

(** Decomposes a block written with [if], [flag] and [consoleLog]. *)
Ltac block_basic :=
  match goal with
  | |- Block _ (fun st => st) => apply Block_id
  | |- Block ?rs (fun st => if ?b then @?f st else @?g st) =>
      apply (Block_if rs b f g)
  | |- Block ?rs (fun st => flag ?r ?m (@?f st)) =>
      apply (Block_comp rs f (flag r m)); [ | apply Block_flag; simpl; tauto ]
  | |- Block ?rs (fun st => flagSilently ?r (@?f st)) =>
      apply (Block_comp rs f (flagSilently r));
      [ | apply Block_flagSilently; simpl; tauto ]
  | |- Block ?rs (fun st => consoleLog ?s (@?f st)) =>
      apply (Block_comp rs f (consoleLog s)); [ | apply Block_consoleLog ]
  end.

Lemma Block_checkAnomaly rs P name c p vg th :
  In MetricAppeared rs -> In MetricGrewQuickly rs ->
  Block rs (checkAnomaly P name c p vg th).
Proof.
  intros H1 H2. unfold checkAnomaly. cbv beta zeta. repeat block_basic.
Qed.

Ltac block :=
  cbv beta zeta;
  repeat
    first
      [ block_basic
      | match goal with
        | |- Block ?rs (fun st => checkAnomaly ?P ?n ?c ?p ?vg ?th (@?f st)) =>
            apply (Block_comp rs f (checkAnomaly P n c p vg th));
            [ | apply Block_checkAnomaly; simpl; tauto ]
        end ].

Lemma Block_earlyViewJump P : Block [EarlyViewJump] (earlyViewJump P).
Proof. unfold earlyViewJump. block. Qed.

Lemma Block_likesAnomalies P :
  Block [ViewsDoubledLikesFlat; ViewsGrewLikesFrozen; LikesSpikeViewsFlat]
        (likesAnomalies P).
Proof. unfold likesAnomalies. block. Qed.

Lemma Block_sharesSavesGrowth P :
  Block [MetricAppeared; MetricGrewQuickly] (sharesSavesGrowth P).
Proof. unfold sharesSavesGrowth. block. Qed.

Lemma Block_sharesZeroToX P : Block [SharesZeroToX] (sharesZeroToX P).
Proof. unfold sharesZeroToX. block. Qed.

Lemma Block_savesZeroToX P : Block [SavesZeroToX] (savesZeroToX P).
Proof. unfold savesZeroToX. block. Qed.

Lemma Block_tiktokZeroSaves P : Block [TikTokZeroSaves] (tiktokZeroSaves P).
Proof. unfold tiktokZeroSaves. block. Qed.

Lemma Block_tiktokZeroShares P : Block [TikTokZeroShares] (tiktokZeroShares P).
Proof. unfold tiktokZeroShares. block. Qed.

Lemma Block_zeroLikes P : Block [ZeroLikes] (zeroLikes P).
Proof. unfold zeroLikes. block. Qed.

Lemma Block_snapchatUltraLowEngagement P :
  Block [SnapchatUltraLowEngagement] (snapchatUltraLowEngagement P).
Proof. unfold snapchatUltraLowEngagement. block. Qed.

Lemma Block_commentNotes P : Block [] (commentNotes P).
Proof. unfold commentNotes. block. Qed.

Lemma Block_likeRatioCollapse P : Block [LikeRatioCollapse] (likeRatioCollapse P).
Proof. unfold likeRatioCollapse. block. Qed.

Lemma Block_massiveCommentDrop P : Block [MassiveCommentDrop] (massiveCommentDrop P).
Proof. unfold massiveCommentDrop. block. Qed.

Lemma Block_commentJumpViewsFlat P :
  Block [CommentJumpViewsFlat] (commentJumpViewsFlat P).
Proof. unfold commentJumpViewsFlat. block. Qed.

Lemma Block_commentInjection P : Block [CommentInjection] (commentInjection P).
Proof. unfold commentInjection. block. Qed.

Lemma Block_windowRules scans :
  Block [PlateauJumpPlateau; SmallPlateauStep] (windowRules scans).
Proof. unfold windowRules. block. Qed.

(** ** The window block over plain records *)

Lemma plateauBody_noFaults (scans : list ScanData) (st : St.t) :
  plateauBody noFaults scans st = (windowRules scans st, Normal tt).
Proof.
  unfold plateauBody, windowRules, plateauJumpPlateauGuard, smallPlateauStepGuard.
  cbv beta zeta.
  destruct (nth_error scans 0) as [a0|], (nth_error scans 1) as [a1|],
           (nth_error scans 2) as [a2|], (nth_error scans 3) as [a3|],
           (nth_error scans 4) as [a4|], (nth_error scans 5) as [a5|];
    cbv [truthy andb orb slotViews readViews readViewsOr0 step noFaults
         bind ret when exec];
    repeat
      (match goal with
       | |- context [if isPlateau ?a ?b then _ else _] => destruct (isPlateau a b)
       | |- context [if (?a >=? ?b)%Z then _ else _] => destruct (a >=? b)%Z
       | |- context [if (?a >? ?b)%Z then _ else _] => destruct (a >? b)%Z
       | |- context [if (?a <=? ?b)%Z then _ else _] => destruct (a <=? b)%Z
       | |- context [if (?a <=? ?b)%Q then _ else _] => destruct (a <=? b)%Q
       end;
       cbv [truthy andb orb slotViews readViews readViewsOr0 step noFaults
            bind ret when exec]);
    reflexivity.
Qed.

Lemma plateauPatternDetection_eq (P : Props) (st : St.t) :
  plateauPatternDetection P st =
  match allScans P, scanIndex P with
  | Some l, Some i =>
      if negb (platform P =? "youtube")%string && (Z.of_nat (List.length l) >=? 6)
      then windowRules (window l i) st
      else st
  | _, _ => st
  end.
Proof.
  unfold plateauPatternDetection, plateauPatternDetectionM.
  destruct (allScans P) as [l|]; [|reflexivity].
  destruct (scanIndex P) as [i|]; [|reflexivity].
  destruct (negb (platform P =? "youtube")%string && (Z.of_nat (List.length l) >=? 6));
    [|reflexivity].
  unfold when, tryCatch, windowBlock, bind, step.
  change (noFaults WindowSlice) with (@None string). unfold ret.
  now rewrite plateauBody_noFaults.
Qed.

Lemma Block_plateauPatternDetection P :
  Block [PlateauJumpPlateau; SmallPlateauStep] (plateauPatternDetection P).
Proof.
  eapply Block_ext; [apply plateauPatternDetection_eq|].
  destruct (allScans P) as [l|]; [|apply Block_id].
  destruct (scanIndex P) as [i|]; [|apply Block_id].
  apply (Block_if _ _ (windowRules (window l i)) (fun st => st)).
  - apply Block_windowRules.
  - apply Block_id.
Qed.

(** ** The whole rule pipeline *)

Lemma Block_allRules rs f : Block rs f -> Block allRules f.
Proof.
  apply Block_weaken. intros r _. destruct r; simpl; tauto.
Qed.

Create HintDb blocks.
#[local] Hint Resolve Block_earlyViewJump Block_likesAnomalies Block_sharesSavesGrowth
  Block_sharesZeroToX Block_savesZeroToX Block_tiktokZeroSaves Block_tiktokZeroShares
  Block_zeroLikes Block_snapchatUltraLowEngagement Block_commentNotes
  Block_likeRatioCollapse Block_massiveCommentDrop Block_commentJumpViewsFlat
  Block_commentInjection Block_plateauPatternDetection : blocks.

(** Splits a pipeline [fun st => g (... (f st))] into its blocks. *)
Ltac pipeline :=
  repeat
    match goal with
    | |- Block _ (fun st => st) => apply Block_id
    | |- Block ?rs (fun st => ?g (@?f st)) =>
        apply (Block_comp rs f g);
        [ | eapply Block_allRules; solve [eauto with blocks] ]
    end.

Lemma Block_runRules (P : Props) :
  Block allRules
    (fun st =>
       st |> earlyViewJump P |> likesAnomalies P |> sharesSavesGrowth P
          |> sharesZeroToX P |> savesZeroToX P |> tiktokZeroSaves P
          |> tiktokZeroShares P |> zeroLikes P |> snapchatUltraLowEngagement P
          |> commentNotes P |> likeRatioCollapse P |> massiveCommentDrop P
          |> commentJumpViewsFlat P |> commentInjection P
          |> plateauPatternDetection P).
Proof. pipeline. Qed.

Lemma Block_RunDetect_runRules (P : Props) :
  Block allRules
    (fun st =>
       st |> likesAnomalies P |> sharesSavesGrowth P
          |> sharesZeroToX P |> savesZeroToX P
          |> zeroLikes P |> snapchatUltraLowEngagement P
          |> commentNotes P |> likeRatioCollapse P |> massiveCommentDrop P
          |> commentJumpViewsFlat P |> commentInjection P
          |> plateauPatternDetection P).
Proof. pipeline. Qed.

Lemma RunDetect_runRules_coherent (P : Props) : Coherent (RunDetect.runRules P).
Proof. exact (proj1 (proj2 (Block_RunDetect_runRules P))). Qed.

Lemma runRules_coherent (P : Props) : Coherent (runRules P).
Proof. exact (proj1 (proj2 (Block_runRules P))). Qed.

Lemma runRules_silent (P : Props) (r : Rule) :
  In (r, None) (St.fired (runRules P)) -> r = SnapchatUltraLowEngagement.
Proof.
  intro H. destruct (proj2 (proj2 (Block_runRules P)) r None H) as [_ Hs]. now apply Hs.
Qed.

(** The sites a block executes when started from the empty state. *)
Lemma fired_block rs f st :
  Block rs f -> St.fired (f st) = (St.fired st ++ St.fired (f St.init))%list.
Proof. intros (A & _). now rewrite A. Qed.

Lemma fired_runRules (P : Props) :
  St.fired (runRules P) =
   (St.fired (earlyViewJump P St.init)
    ++ St.fired (likesAnomalies P St.init)
    ++ St.fired (sharesSavesGrowth P St.init)
    ++ St.fired (sharesZeroToX P St.init)
    ++ St.fired (savesZeroToX P St.init)
    ++ St.fired (tiktokZeroSaves P St.init)
    ++ St.fired (tiktokZeroShares P St.init)
    ++ St.fired (zeroLikes P St.init)
    ++ St.fired (snapchatUltraLowEngagement P St.init)
    ++ St.fired (commentNotes P St.init)
    ++ St.fired (likeRatioCollapse P St.init)
    ++ St.fired (massiveCommentDrop P St.init)
    ++ St.fired (commentJumpViewsFlat P St.init)
    ++ St.fired (commentInjection P St.init)
    ++ St.fired (plateauPatternDetection P St.init))%list.
Proof.
  unfold runRules, transitionRules.
  rewrite (fired_block _ _ _ (Block_plateauPatternDetection P)).
  rewrite (fired_block _ _ _ (Block_commentInjection P)).
  rewrite (fired_block _ _ _ (Block_commentJumpViewsFlat P)).
  rewrite (fired_block _ _ _ (Block_massiveCommentDrop P)).
  rewrite (fired_block _ _ _ (Block_likeRatioCollapse P)).
  rewrite (fired_block _ _ _ (Block_commentNotes P)).
  rewrite (fired_block _ _ _ (Block_snapchatUltraLowEngagement P)).
  rewrite (fired_block _ _ _ (Block_zeroLikes P)).
  rewrite (fired_block _ _ _ (Block_tiktokZeroShares P)).
  rewrite (fired_block _ _ _ (Block_tiktokZeroSaves P)).
  rewrite (fired_block _ _ _ (Block_savesZeroToX P)).
  rewrite (fired_block _ _ _ (Block_sharesZeroToX P)).
  rewrite (fired_block _ _ _ (Block_sharesSavesGrowth P)).
  rewrite (fired_block _ _ _ (Block_likesAnomalies P)).
  now rewrite <- !app_assoc.
Qed.

(** A site outside a block's rule list is not executed by the block. *)
Lemma not_fired_block rs f r m :
  Block rs f -> ~ In r rs -> ~ In (r, m) (St.fired (f St.init)).
Proof. intros (_ & _ & T) Hn H. apply Hn. now apply (T r m). Qed.

(** Which block can execute a given site. *)
Ltac skip_block B :=
  match goal with
  | H : In (?r, ?m) (St.fired _) |- _ =>
      exfalso; revert H; apply (not_fired_block _ _ r m B); simpl;
      intuition discriminate
  end.

Lemma not_fires_block rs f r :
  Block rs f -> ~ In r rs -> ~ In r (map fst (St.fired (f St.init))).
Proof.
  intros B Hn H. apply in_map_iff in H. destruct H as ([r' m] & E & H).
  simpl in E. subst r'. now apply (not_fired_block rs f r m B).
Qed.

Lemma firedRules_blocks (P : Props) (r : Rule) :
  In r (firedRules P) <->
     In r (map fst (St.fired (earlyViewJump P St.init)))
  \/ In r (map fst (St.fired (likesAnomalies P St.init)))
  \/ In r (map fst (St.fired (sharesSavesGrowth P St.init)))
  \/ In r (map fst (St.fired (sharesZeroToX P St.init)))
  \/ In r (map fst (St.fired (savesZeroToX P St.init)))
  \/ In r (map fst (St.fired (tiktokZeroSaves P St.init)))
  \/ In r (map fst (St.fired (tiktokZeroShares P St.init)))
  \/ In r (map fst (St.fired (zeroLikes P St.init)))
  \/ In r (map fst (St.fired (snapchatUltraLowEngagement P St.init)))
  \/ In r (map fst (St.fired (commentNotes P St.init)))
  \/ In r (map fst (St.fired (likeRatioCollapse P St.init)))
  \/ In r (map fst (St.fired (massiveCommentDrop P St.init)))
  \/ In r (map fst (St.fired (commentJumpViewsFlat P St.init)))
  \/ In r (map fst (St.fired (commentInjection P St.init)))
  \/ In r (map fst (St.fired (plateauPatternDetection P St.init))).
Proof.
  unfold firedRules. rewrite fired_runRules, !map_app, !in_app_iff. reflexivity.
Qed.

(** Discards the blocks that cannot execute the site at hand. *)
Ltac other_blocks P :=
  repeat
    match goal with
    | H : _ \/ _ |- _ => destruct H as [H|H]
    | H : In ?r (map fst (St.fired (?f P St.init))) |- _ =>
        exfalso; revert H;
        first
          [ apply (not_fires_block _ _ r (Block_earlyViewJump P))
          | apply (not_fires_block _ _ r (Block_likesAnomalies P))
          | apply (not_fires_block _ _ r (Block_sharesSavesGrowth P))
          | apply (not_fires_block _ _ r (Block_sharesZeroToX P))
          | apply (not_fires_block _ _ r (Block_savesZeroToX P))
          | apply (not_fires_block _ _ r (Block_tiktokZeroSaves P))
          | apply (not_fires_block _ _ r (Block_tiktokZeroShares P))
          | apply (not_fires_block _ _ r (Block_zeroLikes P))
          | apply (not_fires_block _ _ r (Block_snapchatUltraLowEngagement P))
          | apply (not_fires_block _ _ r (Block_commentNotes P))
          | apply (not_fires_block _ _ r (Block_likeRatioCollapse P))
          | apply (not_fires_block _ _ r (Block_massiveCommentDrop P))
          | apply (not_fires_block _ _ r (Block_commentJumpViewsFlat P))
          | apply (not_fires_block _ _ r (Block_commentInjection P))
          | apply (not_fires_block _ _ r (Block_plateauPatternDetection P)) ];
        simpl; solve [intuition discriminate]
    end.

Lemma fires_earlyViewJump (P : Props) :
  In EarlyViewJump (firedRules P)
  <-> In EarlyViewJump (map fst (St.fired (earlyViewJump P St.init))).
Proof.
  rewrite firedRules_blocks. split; [intro H | tauto].
  destruct H as [H|H]; [exact H|]. other_blocks P.
Qed.

Lemma fires_likesAnomalies (P : Props) (r : Rule) :
  In r [ViewsDoubledLikesFlat; ViewsGrewLikesFrozen; LikesSpikeViewsFlat] ->
  (In r (firedRules P) <-> In r (map fst (St.fired (likesAnomalies P St.init)))).
Proof.
  intro Hr. rewrite firedRules_blocks. split; [intro H | tauto].
  simpl in Hr. destruct Hr as [<-|[<-|[<-|[]]]]; other_blocks P; exact H.
Qed.

Lemma fires_zeroLikes (P : Props) :
  In ZeroLikes (firedRules P) <-> In ZeroLikes (map fst (St.fired (zeroLikes P St.init))).
Proof.
  rewrite firedRules_blocks. split; [intro H | tauto]. other_blocks P; exact H.
Qed.

Lemma fires_plateauPatternDetection (P : Props) (r : Rule) (m : option string) :
  In r [PlateauJumpPlateau; SmallPlateauStep] ->
  (In (r, m) (St.fired (runRules P))
   <-> In (r, m) (St.fired (plateauPatternDetection P St.init))).
Proof.
  intro Hr. rewrite fired_runRules, !in_app_iff. split; [intro H | tauto].
  simpl in Hr.
  assert (Hskip : forall rs f, Block rs f -> ~ In r rs ->
                    In (r, m) (St.fired (f St.init)) -> False)
    by (intros rs f B Hn; exact (not_fired_block rs f r m B Hn)).
  repeat (destruct H as [H|H];
          [ exfalso; revert H;
            first
              [ apply (Hskip _ _ (Block_earlyViewJump P))
              | apply (Hskip _ _ (Block_likesAnomalies P))
              | apply (Hskip _ _ (Block_sharesSavesGrowth P))
              | apply (Hskip _ _ (Block_sharesZeroToX P))
              | apply (Hskip _ _ (Block_savesZeroToX P))
              | apply (Hskip _ _ (Block_tiktokZeroSaves P))
              | apply (Hskip _ _ (Block_tiktokZeroShares P))
              | apply (Hskip _ _ (Block_zeroLikes P))
              | apply (Hskip _ _ (Block_snapchatUltraLowEngagement P))
              | apply (Hskip _ _ (Block_commentNotes P))
              | apply (Hskip _ _ (Block_likeRatioCollapse P))
              | apply (Hskip _ _ (Block_massiveCommentDrop P))
              | apply (Hskip _ _ (Block_commentJumpViewsFlat P))
              | apply (Hskip _ _ (Block_commentInjection P)) ];
            simpl; destruct Hr as [<-|[<-|[]]]; intuition discriminate
          | ]).
  exact H.
Qed.

(** The response in terms of the trace. *)
Lemma response_trace (P : Props) :
  bottedReason (detectBotAlgo P) = render (St.fired (runRules P))
  /\ shouldReject (detectBotAlgo P)
     = negb (match St.fired (runRules P) with [] => true | _ => false end).
Proof. exact (runRules_coherent P). Qed.

Lemma fired_rejects (P : Props) (r : Rule) :
  In r (firedRules P) -> shouldReject (detectBotAlgo P) = true.
Proof.
  unfold firedRules. intro H. rewrite (proj2 (response_trace P)).
  destruct (St.fired (runRules P)); [destruct H | reflexivity].
Qed.

(** ** Reasons and the reject flag *)

(** C1 (as stated, refuted): on a Snapchat scan with more than 20000
    views, no comments and at most one share, [detectBotAlgo] rejects
    and returns an empty [bottedReason]. *)
Lemma snapchat_rejects_without_reason :
  shouldReject (detectBotAlgo snapchatQuiet) = true
  /\ bottedReason (detectBotAlgo snapchatQuiet) = "".
Proof. vm_compute. split; reflexivity. Qed.

(** C1 (amended): for every input, [bottedReason] is the concatenation,
    in rule order, of one newline-prefixed fragment per executed reject
    site that carries a message; it is empty exactly when no such site
    was executed; the only site without a message is the Snapchat
    ultra-low-engagement rule; and [shouldReject] is true exactly when
    some site, with or without a message, was executed. *)
Theorem bottedReason_renders_fired_rules (P : Props) :
  bottedReason (detectBotAlgo P) = render (St.fired (runRules P))
  /\ (bottedReason (detectBotAlgo P) = ""
      <-> forall r m, In (r, m) (St.fired (runRules P)) -> m = None)
  /\ (forall r, In (r, None) (St.fired (runRules P)) -> r = SnapchatUltraLowEngagement)
  /\ (shouldReject (detectBotAlgo P) = true <-> St.fired (runRules P) <> []).
Proof.
  destruct (response_trace P) as [Hr Hs]. repeat split.
  - exact Hr.
  - rewrite Hr, render_empty_iff. intros H r m Hin. exact (H (r, m) Hin).
  - rewrite Hr, render_empty_iff. intros H [r m] Hin. exact (H r m Hin).
  - apply runRules_silent.
  - rewrite Hs. destruct (St.fired (runRules P)); simpl; [discriminate|]. discriminate.
  - rewrite Hs. destruct (St.fired (runRules P)); simpl; [congruence|reflexivity].
Qed.

(** C10: for every input, a non-empty [bottedReason] implies that
    [shouldReject] is true. *)
Theorem nonempty_reason_implies_reject (P : Props) :
  bottedReason (detectBotAlgo P) <> "" -> shouldReject (detectBotAlgo P) = true.
Proof.
  destruct (response_trace P) as [Hr Hs]. rewrite Hr, Hs.
  destruct (St.fired (runRules P)); simpl; [congruence|reflexivity].
Qed.

Lemma nonempty_reason_implies_reject_witness :
  bottedReason (detectBotAlgo jump20000) <> ""
  /\ shouldReject (detectBotAlgo jump20000) = true.
Proof.
  split.
  - vm_compute. discriminate.
  - apply (nonempty_reason_implies_reject jump20000). vm_compute. discriminate.
Defined.

(** ** Early view jump *)

Lemma earlyViewJump_init (P : Props) (i : Z) :
  scanIndex P = Some i -> 1 <= i -> i - leadingZeroCount P < 4 ->
  earlyViewJump P St.init =
    if views (currentScan P) - views (prevScan P) >=? 20000
    then flag EarlyViewJump "early 20k+ view jump within first 5 scans" St.init
    else St.init.
Proof.
  intros Hi H1 H4. unfold earlyViewJump, matureScan. rewrite Hi.
  replace (i >=? 1) with true by (symmetry; apply Z.geb_le; lia).
  replace (i - leadingZeroCount P <? 4) with true by (symmetry; apply Z.ltb_lt; lia).
  reflexivity.
Qed.

(** C5: on a mature transition [i] with [i - leadingZeroCount < 4], the
    early-view-jump rule fires exactly when
    [views[i] - views[i-1] >= 20000]; when it fires, [shouldReject] is
    set and [bottedReason] starts with the fragment
    "early 20k+ view jump within first 5 scans". *)
Theorem earlyViewJump_threshold (P : Props) (i : Z) :
  scanIndex P = Some i -> 1 <= i -> i - leadingZeroCount P < 4 ->
  (In EarlyViewJump (firedRules P)
   <-> views (currentScan P) - views (prevScan P) >= 20000)
  /\ (views (currentScan P) - views (prevScan P) >= 20000 ->
      shouldReject (detectBotAlgo P) = true
      /\ exists rest,
           bottedReason (detectBotAlgo P)
           = nl ++ "early 20k+ view jump within first 5 scans" ++ rest).
Proof.
  intros Hi H1 H4.
  pose proof (earlyViewJump_init P i Hi H1 H4) as E.
  assert (Hiff : In EarlyViewJump (firedRules P)
                 <-> views (currentScan P) - views (prevScan P) >= 20000).
  { rewrite fires_earlyViewJump, E.
    destruct (views (currentScan P) - views (prevScan P) >=? 20000) eqn:G; simpl.
    - apply Z.geb_le in G. split; [lia | auto].
    - split; [tauto|]. intro H. apply Z.ge_le in H. apply Z.geb_le in H. congruence. }
  split; [exact Hiff|]. intro Hge. split.
  - apply (fired_rejects P EarlyViewJump). now apply Hiff.
  - rewrite (proj1 (response_trace P)), fired_runRules, render_app, E.
    replace (views (currentScan P) - views (prevScan P) >=? 20000) with true
      by (symmetry; apply Z.geb_le; lia).
    simpl. eexists. reflexivity.
Qed.

Lemma earlyViewJump_threshold_witness :
  (In EarlyViewJump (firedRules jump20000)
   /\ shouldReject (detectBotAlgo jump20000) = true)
  /\ ~ In EarlyViewJump (firedRules jump19999).
Proof.
  split.
  - destruct (earlyViewJump_threshold jump20000 1) as [Hiff Hrej];
      [reflexivity | lia | vm_compute; reflexivity |].
    split.
    + apply Hiff. vm_compute. discriminate.
    + apply Hrej. vm_compute. discriminate.
  - destruct (earlyViewJump_threshold jump19999 1) as [Hiff _];
      [reflexivity | lia | vm_compute; reflexivity |].
    intro H. apply Hiff in H. vm_compute in H. now apply H.
Defined.

(** ** Views doubled, likes flat *)

Lemma likesAnomalies_viewsDoubled (P : Props) :
  platform P <> "youtube" -> platform P <> "snapchat" ->
  let L := getEffectivePair P Likes in
  In ViewsDoubledLikesFlat (map fst (St.fired (likesAnomalies P St.init)))
  <-> ((currViews L >? 1000) && (currViews L >? prevViews L * 2)
       && (curr L <? prev L * 1.2)%Q = true).
Proof.
  intros Hy Hs L. unfold likesAnomalies.
  apply String.eqb_neq in Hy. apply String.eqb_neq in Hs. rewrite Hy, Hs.
  cbv beta zeta. fold L. simpl negb. simpl andb.
  destruct ((currViews L >? 1000) && (currViews L >? prevViews L * 2)
            && (curr L <? prev L * 1.2)%Q);
    repeat match goal with
           | |- context [if ?b then _ else _] => destruct b
           end;
    simpl; intuition discriminate.
Qed.

(** C2 (as stated, refuted): with views 1000 -> 2100 and likes 50 -> 60
    on TikTok, the views more than double above 1000 and the likes are
    exactly 1.2 times the previous likes, yet the rule does not fire
    and the transition is not rejected. *)
Lemma viewsDoubled_boundary_does_not_fire :
  let L := getEffectivePair likesBoundary Likes in
  (currViews L > 1000 /\ currViews L > 2 * prevViews L
   /\ (inject_Z (curr L) == inject_Z (prev L) * 1.2)%Q)
  /\ ~ In ViewsDoubledLikesFlat (firedRules likesBoundary)
  /\ shouldReject (detectBotAlgo likesBoundary) = false.
Proof.
  vm_compute. repeat split; try reflexivity. intros [].
Qed.

(** C2 (amended): on a platform other than youtube and snapchat, the
    "views doubled, likes flat" rule fires, and rejects, exactly when
    the bridged likes pair satisfies [currViews > 1000],
    [currViews > 2 * prevViews] and [curr < 1.2 * prev], strictly. *)
Theorem viewsDoubledLikesFlat_strict (P : Props) :
  platform P <> "youtube" -> platform P <> "snapchat" ->
  let L := getEffectivePair P Likes in
  (In ViewsDoubledLikesFlat (firedRules P)
   <-> currViews L > 1000 /\ currViews L > 2 * prevViews L
       /\ (inject_Z (curr L) < inject_Z (prev L) * 1.2)%Q)
  /\ (In ViewsDoubledLikesFlat (firedRules P) -> shouldReject (detectBotAlgo P) = true).
Proof.
  intros Hy Hs L. split; [|apply fired_rejects].
  rewrite (fires_likesAnomalies P ViewsDoubledLikesFlat) by (simpl; tauto).
  rewrite (likesAnomalies_viewsDoubled P Hy Hs). fold L.
  rewrite !andb_true_iff, Qltb_lt, !Z.gtb_lt. intuition lia.
Qed.

Lemma viewsDoubledLikesFlat_strict_witness :
  In ViewsDoubledLikesFlat (firedRules likesBelowBoundary)
  /\ ~ In ViewsDoubledLikesFlat (firedRules likesBoundary).
Proof.
  assert (Hy : "tiktok" <> "youtube") by discriminate.
  assert (Hs : "tiktok" <> "snapchat") by discriminate.
  split.
  - apply (proj1 (viewsDoubledLikesFlat_strict likesBelowBoundary Hy Hs)).
    vm_compute. repeat split; reflexivity.
  - intro H.
    apply (proj1 (viewsDoubledLikesFlat_strict likesBoundary Hy Hs)) in H.
    destruct H as (_ & _ & H). vm_compute in H. discriminate.
Defined.

(** ** Glitch suppression and bridging *)

(** C3: for a series whose likes are [100, 0, 120], at transition index
    1 with the full series as [allScans]: [glitchLikes] holds, neither
    the "zero likes" rule nor the "views grew but <2 likes change" rule
    fires, and [getEffectivePair('likes')] is the bridged pair
    [prev = 100], [curr = 120]. *)
Theorem glitch_suppresses_and_bridges
    (s0 s1 s2 : ScanData) (platformTag : string) (notes : bool) :
  likes s0 = 100 -> likes s1 = 0 -> likes s2 = 120 ->
  let P := mkProps s0 s1 platformTag (Some 1) (Some [s0; s1; s2]) notes in
  glitchLikes P = true
  /\ ~ In ZeroLikes (firedRules P)
  /\ ~ In ViewsGrewLikesFrozen (firedRules P)
  /\ getEffectivePair P Likes = mkPair 100 120 (views s0) (views s2) true.
Proof.
  intros H0 H1 H2 P.
  assert (G : glitchLikes P = true).
  { unfold glitchLikes, glitch, nextScan, hasNext, P. simpl. now rewrite H0, H1, H2. }
  split; [exact G|]. split; [|split].
  - rewrite fires_zeroLikes. unfold zeroLikes. rewrite G.
    rewrite andb_false_r. simpl. tauto.
  - rewrite (fires_likesAnomalies P ViewsGrewLikesFrozen) by (simpl; tauto).
    unfold likesAnomalies. rewrite G. cbv beta zeta.
    rewrite !andb_false_r. simpl andb.
    repeat match goal with
           | |- context [if ?b then _ else _] => destruct b
           end;
      simpl; intuition discriminate.
  - unfold getEffectivePair, nextScan, hasNext, P. simpl. now rewrite H0, H1, H2.
Qed.

Lemma glitch_suppresses_and_bridges_witness :
  let P := transitionOf "instagram" glitchSeries 1 false in
  glitchLikes P = true
  /\ ~ In ZeroLikes (firedRules P)
  /\ ~ In ViewsGrewLikesFrozen (firedRules P)
  /\ getEffectivePair P Likes = mkPair 100 120 5000 5020 true.
Proof.
  exact (glitch_suppresses_and_bridges
           (scanOf 5000 100) (scanOf 5010 0) (scanOf 5020 120) "instagram" false
           eq_refl eq_refl eq_refl).
Defined.

(** ** Plateau, jump, plateau *)

Lemma orElse_0 (x : Z) : orElse x 0 = x.
Proof. unfold orElse. destruct (x =? 0) eqn:E; [apply Z.eqb_eq in E; lia | reflexivity]. Qed.

Lemma max_orElse_1 (x : Z) : Z.max (orElse x 1) 1 = Z.max x 1.
Proof. unfold orElse. destruct (x =? 0) eqn:E; [apply Z.eqb_eq in E; lia | reflexivity]. Qed.

Lemma window_firstn_skipn (l : list ScanData) (i : Z) :
  window l i =
  firstn 6 (skipn (Z.to_nat (Z.max 0 (Z.min (i - 3) (Z.of_nat (List.length l) - 6)))) l).
Proof.
  unfold window, windowStart, slice. cbv zeta.
  set (start := Z.max 0 (Z.min (i - 3) (Z.of_nat (List.length l) - 6))).
  rewrite firstn_skipn_comm. f_equal. f_equal. lia.
Qed.

Lemma window_length (l : list ScanData) (i : Z) :
  (6 <= List.length l)%nat -> List.length (window l i) = 6%nat.
Proof.
  intro H. rewrite window_firstn_skipn, length_firstn, length_skipn. lia.
Qed.

Lemma fired_windowRules (scans : list ScanData) :
  let v k := slotViews (nth_error scans k) in
  St.fired (windowRules scans St.init) =
    ((if plateauJumpPlateauGuard scans
      then [(PlateauJumpPlateau,
             Some (plateauMessage (v 0%nat) (v 1%nat) (v 2%nat)
                                  (v 3%nat) (v 4%nat) (v 5%nat)))]
      else [])
     ++ (if smallPlateauStepGuard scans
         then [(SmallPlateauStep,
                Some (stepMessage (v 2%nat - v 1%nat) (v 3%nat - v 2%nat)
                        (v 0%nat) (v 1%nat) (v 2%nat) (v 3%nat) (v 4%nat) (v 5%nat)))]
         else []))%list.
Proof.
  unfold windowRules. cbv zeta.
  destruct (plateauJumpPlateauGuard scans), (smallPlateauStepGuard scans); reflexivity.
Qed.

Lemma plateauJumpPlateauGuard_six (a0 a1 a2 a3 a4 a5 : ScanData) :
  plateauJumpPlateauGuard [a0; a1; a2; a3; a4; a5] = true
  <-> Z.abs (views a0 - views a2) <= 30
      /\ views a3 - views a2 >= 500
      /\ Z.abs (views a3 - views a4) <= 30
      /\ Z.abs (views a4 - views a5) <= 30
      /\ (Z.abs (views a5 - views a3) <= 30
          \/ (inject_Z (Z.abs (views a5 - views a3)) / inject_Z (Z.max (views a3) 1)
              <= 0.1)%Q).
Proof.
  unfold plateauJumpPlateauGuard, isPlateau. cbv zeta. simpl nth_error.
  cbn [truthy slotViews andb]. rewrite !orElse_0, max_orElse_1.
  rewrite !andb_true_iff, orb_true_iff, !Z.leb_le, Z.geb_le, Qleb_le.
  intuition lia.
Qed.

Lemma render_in (evs : list (Rule * option string)) (r : Rule) (msg : string) :
  In (r, Some msg) evs ->
  exists before after, render evs = before ++ nl ++ msg ++ after.
Proof.
  induction evs as [|[r' m'] evs IH]; simpl; [intros []|].
  intros [E|H].
  - inversion E; subst. exists "", (render evs). reflexivity.
  - destruct (IH H) as (b & a & E). destruct m' as [m'|].
    + exists (nl ++ m' ++ b), a. rewrite E, !append_assoc. reflexivity.
    + exists b, a. exact E.
Qed.

(** C6: on a platform other than youtube, for a series of at least 6
    scans, let [w0..w5] be the views of the 6 scans starting at
    [max(0, min(scanIndex - 3, length - 6))].  The plateau-jump-plateau
    rule fires exactly when [|w0-w2| <= 30], [w3-w2 >= 500],
    [|w3-w4| <= 30], [|w4-w5| <= 30] and
    ([|w5-w3| <= 30] or [|w5-w3| / max(w3,1) <= 0.1]); when it fires,
    the transition is rejected and [bottedReason] contains the fragment
    "suspicious plateau → jump → plateau pattern (views: w0 → w1 → w2 →
    w3 → w4 → w5)" with the six values in decimal. *)
Theorem plateauJumpPlateau_exact
    (P : Props) (l : list ScanData) (i w0 w1 w2 w3 w4 w5 : Z) :
  platform P <> "youtube" ->
  allScans P = Some l ->
  (6 <= List.length l)%nat ->
  scanIndex P = Some i ->
  map views
      (firstn 6 (skipn (Z.to_nat (Z.max 0 (Z.min (i - 3) (Z.of_nat (List.length l) - 6)))) l))
    = [w0; w1; w2; w3; w4; w5] ->
  (In PlateauJumpPlateau (firedRules P)
   <-> Z.abs (w0 - w2) <= 30
       /\ w3 - w2 >= 500
       /\ Z.abs (w3 - w4) <= 30
       /\ Z.abs (w4 - w5) <= 30
       /\ (Z.abs (w5 - w3) <= 30
           \/ (inject_Z (Z.abs (w5 - w3)) / inject_Z (Z.max w3 1) <= 0.1)%Q))
  /\ (In PlateauJumpPlateau (firedRules P) ->
      shouldReject (detectBotAlgo P) = true
      /\ exists before after,
           bottedReason (detectBotAlgo P)
           = before ++ nl
               ++ ("suspicious plateau → jump → plateau pattern (views: "
                     ++ showZ w0 ++ " → " ++ showZ w1 ++ " → " ++ showZ w2 ++ " → "
                     ++ showZ w3 ++ " → " ++ showZ w4 ++ " → " ++ showZ w5 ++ ")")
               ++ after).
Proof.
  intros Hy Hl Hlen Hi Hw. rewrite <- window_firstn_skipn in Hw.
  destruct (window l i) as [|a0 [|a1 [|a2 [|a3 [|a4 [|a5 [|a6 rest]]]]]]] eqn:W;
    try discriminate Hw.
  simpl in Hw. inversion Hw; subst w0 w1 w2 w3 w4 w5; clear Hw.
  assert (E : St.fired (plateauPatternDetection P St.init)
              = St.fired (windowRules [a0; a1; a2; a3; a4; a5] St.init)).
  { rewrite plateauPatternDetection_eq, Hl, Hi, W.
    apply String.eqb_neq in Hy. rewrite Hy.
    replace (Z.of_nat (List.length l) >=? 6) with true
      by (symmetry; apply Z.geb_le; lia).
    reflexivity. }
  assert (F : forall m,
            In (PlateauJumpPlateau, m) (St.fired (runRules P))
            <-> plateauJumpPlateauGuard [a0; a1; a2; a3; a4; a5] = true
                /\ m = Some (plateauMessage (views a0) (views a1) (views a2)
                                            (views a3) (views a4) (views a5))).
  { intro m.
    rewrite (fires_plateauPatternDetection P PlateauJumpPlateau m) by (simpl; tauto).
    rewrite E, fired_windowRules. cbv zeta. simpl nth_error. cbn [slotViews].
    rewrite !orElse_0.
    destruct (plateauJumpPlateauGuard [a0; a1; a2; a3; a4; a5]),
             (smallPlateauStepGuard [a0; a1; a2; a3; a4; a5]);
      simpl; split; intro H; intuition (try discriminate; try congruence). }
  assert (G : In PlateauJumpPlateau (firedRules P)
              <-> plateauJumpPlateauGuard [a0; a1; a2; a3; a4; a5] = true).
  { unfold firedRules. rewrite in_map_iff. split.
    - intros ([r m] & Er & H). simpl in Er. subst r. now apply F in H.
    - intro H. eexists (_, _). split; [reflexivity|]. apply F. split; [exact H|reflexivity]. }
  split.
  - rewrite G. apply plateauJumpPlateauGuard_six.
  - intro H. split; [now apply (fired_rejects P PlateauJumpPlateau)|].
    rewrite (proj1 (response_trace P)). apply (render_in _ PlateauJumpPlateau).
    apply F. split; [now apply G | reflexivity].
Qed.

Lemma plateauJumpPlateau_exact_witness :
  (In PlateauJumpPlateau (firedRules (transitionOf "instagram" plateauSeries 3 false))
   /\ shouldReject (detectBotAlgo (transitionOf "instagram" plateauSeries 3 false)) = true
   /\ exists before after,
        bottedReason (detectBotAlgo (transitionOf "instagram" plateauSeries 3 false))
        = before ++ nl
            ++ "suspicious plateau → jump → plateau pattern (views: 1000 → 1010 → 995 → 1600 → 1605 → 1590)"
            ++ after)
  /\ ~ In PlateauJumpPlateau (firedRules (transitionOf "instagram" smallJumpSeries 3 false)).
Proof.
  assert (Hy : "instagram" <> "youtube") by discriminate.
  split.
  - assert (H : In PlateauJumpPlateau
                  (firedRules (transitionOf "instagram" plateauSeries 3 false))).
    { apply (proj1 (plateauJumpPlateau_exact
                      (transitionOf "instagram" plateauSeries 3 false) plateauSeries 3
                      1000 1010 995 1600 1605 1590
                      Hy eq_refl (le_n 6) eq_refl eq_refl)).
      lia. }
    split; [exact H|].
    exact (proj2 (plateauJumpPlateau_exact
                    (transitionOf "instagram" plateauSeries 3 false) plateauSeries 3
                    1000 1010 995 1600 1605 1590
                    Hy eq_refl (le_n 6) eq_refl eq_refl) H).
  - intro H.
    apply (proj1 (plateauJumpPlateau_exact
                    (transitionOf "instagram" smallJumpSeries 3 false) smallJumpSeries 3
                    1000 1010 995 1095 1100 1085
                    Hy eq_refl (le_n 6) eq_refl eq_refl)) in H.
    lia.
Defined.

(** ** The two copies of [detectBotAlgo] *)

Lemma fires_tiktokZeroSaves (P : Props) :
  In TikTokZeroSaves (firedRules P)
  <-> In TikTokZeroSaves (map fst (St.fired (tiktokZeroSaves P St.init))).
Proof.
  rewrite firedRules_blocks. split; [intro H | tauto]. other_blocks P; exact H.
Qed.

Lemma fires_tiktokZeroShares (P : Props) :
  In TikTokZeroShares (firedRules P)
  <-> In TikTokZeroShares (map fst (St.fired (tiktokZeroShares P St.init))).
Proof.
  rewrite firedRules_blocks. split; [intro H | tauto]. other_blocks P; exact H.
Qed.

Lemma earlyViewJump_idle (P : Props) (st : St.t) :
  ~ In EarlyViewJump (firedRules P) -> earlyViewJump P st = st.
Proof.
  rewrite fires_earlyViewJump. unfold earlyViewJump. cbv zeta.
  repeat match goal with
         | |- context [if ?b then _ else _] => destruct b
         end; simpl; tauto.
Qed.

Lemma tiktokZeroSaves_idle (P : Props) (st : St.t) :
  ~ In TikTokZeroSaves (firedRules P) -> tiktokZeroSaves P st = st.
Proof.
  rewrite fires_tiktokZeroSaves. unfold tiktokZeroSaves.
  repeat match goal with
         | |- context [if ?b then _ else _] => destruct b
         end; simpl; tauto.
Qed.

Lemma tiktokZeroShares_idle (P : Props) (st : St.t) :
  ~ In TikTokZeroShares (firedRules P) -> tiktokZeroShares P st = st.
Proof.
  rewrite fires_tiktokZeroShares. unfold tiktokZeroShares.
  repeat match goal with
         | |- context [if ?b then _ else _] => destruct b
         end; simpl; tauto.
Qed.

(** C4 (as stated, refuted): on a TikTok scan with 6000 views and no
    saves the engine copy rejects with "zero saves at 5k+ views
    (TikTok)" and the runner's copy returns a clean response. *)
Lemma copies_differ_on_tiktok_zero_saves :
  detectBotAlgo tiktokNoSaves <> RunDetect.detectBotAlgo tiktokNoSaves
  /\ shouldReject (detectBotAlgo tiktokNoSaves) = true
  /\ shouldReject (RunDetect.detectBotAlgo tiktokNoSaves) = false.
Proof. vm_compute. repeat split; discriminate. Qed.

(** C4 (amended): the engine copy and the runner's copy return equal
    responses on every input on which none of the three rules that only
    the engine copy has (early 20k view jump, TikTok zero saves, TikTok
    zero shares) fires. *)
Theorem copies_agree_without_engine_only_rules (P : Props) :
  ~ In EarlyViewJump (firedRules P) ->
  ~ In TikTokZeroSaves (firedRules P) ->
  ~ In TikTokZeroShares (firedRules P) ->
  detectBotAlgo P = RunDetect.detectBotAlgo P.
Proof.
  intros He Hsv Hsh.
  unfold detectBotAlgo, RunDetect.detectBotAlgo, runRules, RunDetect.runRules,
    transitionRules.
  rewrite (earlyViewJump_idle P _ He), (tiktokZeroShares_idle P _ Hsh),
    (tiktokZeroSaves_idle P _ Hsv).
  reflexivity.
Qed.

Lemma copies_agree_without_engine_only_rules_witness :
  detectBotAlgo likesBoundary = RunDetect.detectBotAlgo likesBoundary.
Proof.
  apply (copies_agree_without_engine_only_rules likesBoundary);
    vm_compute; intros [].
Defined.

(** ** Run summaries *)

Section RunLoop.
Variable cond : ScanData -> bool.
Variable line : Z -> Z -> Z -> string.
Variable minRun : Z.

Lemma runLoop_outside (pre rest : list ScanData) (i : Z) (msgs : list string) :
  Forall (fun s => cond s = false) pre ->
  runLoop cond line minRun (pre ++ rest) i None msgs
  = runLoop cond line minRun rest (i + Z.of_nat (List.length pre)) None msgs.
Proof.
  intro H. revert i. induction H as [|s pre Hs _ IH]; intro i; simpl.
  - f_equal. lia.
  - rewrite Hs, IH. f_equal. lia.
Qed.

Lemma runLoop_inside (run rest : list ScanData) (i st : Z) (msgs : list string) :
  Forall (fun s => cond s = true) run ->
  runLoop cond line minRun (run ++ rest) i (Some st) msgs
  = runLoop cond line minRun rest (i + Z.of_nat (List.length run)) (Some st) msgs.
Proof.
  intro H. revert i. induction H as [|s run Hs _ IH]; intro i; simpl.
  - f_equal. lia.
  - rewrite Hs, IH. f_equal. lia.
Qed.

Lemma summarizeRuns_single_run (pre run post : list ScanData) :
  Forall (fun s => cond s = false) pre ->
  Forall (fun s => cond s = true) run ->
  run <> [] ->
  Forall (fun s => cond s = false) post ->
  let a := Z.of_nat (List.length pre) in
  let n := Z.of_nat (List.length run) in
  summarizeRuns cond line minRun (pre ++ run ++ post)%list
  = if n >=? minRun then [line (a + 1) (a + n) n] else [].
Proof.
  intros Hpre Hrun Hne Hpost a n. unfold summarizeRuns.
  rewrite (runLoop_outside pre _ 0 [] Hpre).
  destruct run as [|r run]; [congruence|]. inversion Hrun as [|? ? Hr Hrun']; subst.
  simpl app. cbn [runLoop]. rewrite Hr.
  rewrite (runLoop_inside run post _ _ [] Hrun').
  change (0 + Z.of_nat (List.length pre)) with a.
  assert (Hn : n = 1 + Z.of_nat (List.length run)) by (unfold n; simpl List.length; lia).
  destruct post as [|p post].
  - simpl runLoop. rewrite app_nil_r, length_app. simpl List.length.
    replace (Z.of_nat (List.length pre + S (List.length run))) with (a + n)
      by (unfold a; lia).
    replace (a + n - a) with n by lia.
    destruct (n >=? minRun); reflexivity.
  - inversion Hpost as [|? ? Hp Hpost']; subst. cbn [runLoop]. rewrite Hp.
    rewrite <- (app_nil_r post), (runLoop_outside post [] _ _ Hpost'). simpl runLoop.
    replace (a + 1 + Z.of_nat (List.length run) - a) with n by lia.
    replace (a + 1 + Z.of_nat (List.length run)) with (a + n) by lia.
    destruct (n >=? minRun); reflexivity.
Qed.

End RunLoop.

(** C8: for a series with exactly one maximal run of scans with
    [views > 1000] and [likes = 0], [summarizeZeroLikes] (minViews 1000,
    minRun 5) returns exactly one line "Scans a–b: zero likes across N
    scans ..." covering the whole run when the run has at least 5 scans,
    whether or not the run reaches the end of the series, and no line
    when the run is shorter. *)
Theorem summarizeZeroLikes_single_run
    (pre run post : list ScanData) (platformTag : string) :
  Forall (fun s => zeroLike 1000 s = false) pre ->
  Forall (fun s => zeroLike 1000 s = true) run ->
  run <> [] ->
  Forall (fun s => zeroLike 1000 s = false) post ->
  let a := Z.of_nat (List.length pre) in
  let n := Z.of_nat (List.length run) in
  summarizeZeroLikes (pre ++ run ++ post)%list platformTag 1000 5
  = if n >=? 5
    then ["Scans " ++ showZ (a + 1) ++ "–" ++ showZ (a + n)
            ++ ": zero likes across " ++ showZ n ++ " scans (may be hidden likes)"]
    else [].
Proof.
  intros Hpre Hrun Hne Hpost. unfold summarizeZeroLikes.
  apply (summarizeRuns_single_run (zeroLike 1000) zeroLikesLine 5); assumption.
Qed.

Lemma summarizeZeroLikes_single_run_witness :
  summarizeZeroLikes zeroLikesSeries "tiktok" 1000 5
  = ["Scans 1–5: zero likes across 5 scans (may be hidden likes)"].
Proof.
  apply (summarizeZeroLikes_single_run
           [] (firstn 5 zeroLikesSeries) (skipn 5 zeroLikesSeries) "tiktok").
  - constructor.
  - repeat constructor.
  - discriminate.
  - repeat constructor.
Defined.

(** ** Series too short to evaluate *)

Lemma summarizeRuns_one cond line minRun (s : ScanData) :
  2 <= minRun -> summarizeRuns cond line minRun [s] = [].
Proof.
  intro H. unfold summarizeRuns. simpl. destruct (cond s); simpl; [|reflexivity].
  replace (1 >=? minRun) with false
    by (symmetry; rewrite Z.geb_leb; apply Z.leb_gt; lia).
  reflexivity.
Qed.

(** The scan-time driver returns no verdict, and stores no notes, for a
    series of fewer than 2 scans. *)
Lemma detectBotDuringScan_short_series
    (sub : Submission.t) (findAll : ScanTable -> list ScanData) (now : Z -> string)
    (table : ScanTable) :
  scanTable (Submission.platform sub) = Some table ->
  (List.length (findAll table) < 2)%nat ->
  detectBotDuringScan (Some sub) findAll now = Normal (mkDuringScan None None).
Proof.
  intros Ht Hlen. unfold detectBotDuringScan. rewrite Ht.
  replace (Z.of_nat (List.length (findAll table)) <? 2) with true
    by (symmetry; apply Z.ltb_lt; lia).
  reflexivity.
Qed.

(** The runner raises "No scans found." when no scan is valid. *)
Lemma analyzeUrl_no_valid_scan (url platformTag : string) (scans : list ScanData)
    (notes : bool) :
  filter (fun s => negb (missing s)) scans = [] ->
  analyzeUrl url platformTag scans notes = Thrown "No scans found.".
Proof. intro H. unfold analyzeUrl. now rewrite H. Qed.

(** C7 (the code departs from the claim): on a series with exactly one
    valid scan, [analyzeUrl] completes with an empty [flagged] list and
    [runOnce] prints "No anomalies detected", the very line it prints
    for a series that was evaluated and found clean. *)
Theorem analyzeUrl_single_scan_reports_no_anomalies
    (url platformTag : string) (v l sv sh c : Z) (notes : bool) :
  exists result,
    analyzeUrl url platformTag [mkScan v l sv sh c false] notes = Normal result
    /\ Analysis.flagged result = []
    /\ Analysis.perScan result = []
    /\ runOnceLine result = "url1: ✅ No anomalies detected".
Proof.
  unfold analyzeUrl. cbn [filter missing negb pairwiseChecks].
  unfold summarizeZeroLikes, summarizeUltraLowEngagement.
  rewrite summarizeRuns_one by lia.
  destruct (includes ["tiktok"; "instagram"; "youtube"] platformTag);
    destruct (platformTag =? "snapchat")%string; cbn [negb];
    rewrite ?summarizeRuns_one by lia;
    eexists; repeat split; reflexivity.
Qed.

(** A two-scan series that is evaluated and found clean prints the same
    line as the one-scan series. *)
Lemma clean_series_prints_the_same_line :
  exists one two,
    analyzeUrl "u" "tiktok" [scanOf 2000 100] false = Normal one
    /\ analyzeUrl "u" "tiktok" [scanOf 2000 100; scanOf 2100 110] false = Normal two
    /\ Analysis.perScan one = []
    /\ Analysis.perScan two = [(1, [])]
    /\ runOnceLine one = runOnceLine two.
Proof. vm_compute. do 2 eexists. repeat split; reflexivity. Qed.

(** ** Errors inside the window block *)

Lemma firstFault_app (faults : Faults) (a b : list Site) :
  firstFault faults (a ++ b)
  = match firstFault faults a with
    | Some e => Some e
    | None => firstFault faults b
    end.
Proof.
  induction a as [|s a IH]; simpl; [reflexivity|].
  destruct (faults s); [reflexivity | exact IH].
Qed.

Ltac run_body :=
  cbv [readViews readViewsOr0 step bind ret when exec throw];
  cbn [truthy andb orb firstFault map seq app nth_error slotViews].

Ltac finish_body :=
  repeat match goal with
         | |- context [isPlateau ?a ?b] => destruct (isPlateau a b)
         | |- context [(?a >=? ?b)%Z] => destruct (a >=? b)%Z
         | |- context [(?a >? ?b)%Z] => destruct (a >? b)%Z
         end;
  reflexivity.

Ltac next_site faults n :=
  destruct (faults (ReadWindow n)); run_body; [reflexivity|].

Lemma plateauBody_six (faults : Faults) (a0 a1 a2 a3 a4 a5 : ScanData) (st : St.t) :
  let scans := [a0; a1; a2; a3; a4; a5] in
  plateauBody faults scans st
  = match firstFault faults (guardReads scans) with
    | Some e => (st, Thrown e)
    | None =>
        if plateauJumpPlateauGuard scans then
          match firstFault faults (map ReadWindow (seq 13 6)) with
          | Some e => (st, Thrown e)
          | None =>
              match firstFault faults (map ReadWindow (seq 19 6)) with
              | Some e =>
                  (flag PlateauJumpPlateau
                        (plateauMessage (orElse (views a0) 0) (orElse (views a1) 0)
                           (orElse (views a2) 0) (orElse (views a3) 0)
                           (orElse (views a4) 0) (orElse (views a5) 0)) st,
                   Thrown e)
              | None => (windowRules scans st, Normal tt)
              end
          end
        else
          match firstFault faults (map ReadWindow (seq 19 6)) with
          | Some e => (st, Thrown e)
          | None => (windowRules scans st, Normal tt)
          end
    end.
Proof.
  cbv zeta.
  unfold plateauBody, windowRules, plateauJumpPlateauGuard, smallPlateauStepGuard,
    guardReads.
  cbv beta zeta. run_body.
  next_site faults 0%nat. next_site faults 1%nat. next_site faults 2%nat.
  next_site faults 3%nat. next_site faults 4%nat. next_site faults 5%nat.
  destruct (isPlateau (orElse (views a3) 0) (orElse (views a4) 0)) eqn:E34; run_body.
  - next_site faults 6%nat. next_site faults 7%nat. next_site faults 8%nat.
    next_site faults 9%nat. next_site faults 10%nat. next_site faults 11%nat.
    next_site faults 12%nat.
    match goal with
    | |- context [if ?g then (fun st0 : St.t => _) else _] => destruct g
    end; run_body.
    + next_site faults 13%nat. next_site faults 14%nat. next_site faults 15%nat.
      next_site faults 16%nat. next_site faults 17%nat. next_site faults 18%nat.
      next_site faults 19%nat. next_site faults 20%nat. next_site faults 21%nat.
      next_site faults 22%nat. next_site faults 23%nat. next_site faults 24%nat.
      rewrite ?E34. finish_body.
    + next_site faults 19%nat. next_site faults 20%nat. next_site faults 21%nat.
      next_site faults 22%nat. next_site faults 23%nat. next_site faults 24%nat.
      rewrite ?E34. finish_body.
  - next_site faults 8%nat.
    next_site faults 9%nat. next_site faults 10%nat. next_site faults 11%nat.
    next_site faults 12%nat.
    rewrite !andb_false_r. run_body.
    next_site faults 19%nat. next_site faults 20%nat. next_site faults 21%nat.
    next_site faults 22%nat. next_site faults 23%nat. next_site faults 24%nat.
    rewrite ?E34, ?andb_false_r. run_body.
    finish_body.
Qed.

Lemma plateauPatternDetectionM_normal (faults : Faults) (P : Props) (st : St.t) :
  snd (plateauPatternDetectionM faults P st) = Normal tt.
Proof.
  unfold plateauPatternDetectionM.
  destruct (allScans P) as [l|]; [|reflexivity].
  destruct (scanIndex P) as [i|]; [|reflexivity].
  unfold when, tryCatch, exec, ret.
  destruct (negb (platform P =? "youtube")%string && (Z.of_nat (List.length l) >=? 6));
    [|reflexivity].
  destruct (windowBlock faults l i st) as [st' [[]|e]]; reflexivity.
Qed.

Lemma detectBotAlgoWith_noFaults (P : Props) :
  detectBotAlgoWith noFaults P = Normal (detectBotAlgo P).
Proof.
  unfold detectBotAlgoWith, detectBotAlgo, runRules, plateauPatternDetection.
  assert (E : firstFault noFaults (readsBeforeWindow P) = None).
  { induction (readsBeforeWindow P) as [|s sites IH]; [reflexivity | exact IH]. }
  rewrite E.
  pose proof (plateauPatternDetectionM_normal noFaults P (transitionRules P)) as H.
  destruct (plateauPatternDetectionM noFaults P (transitionRules P)) as [st c].
  simpl in *. now subst c.
Qed.

Lemma plateauGuard_consecutive (a0 a1 a2 a3 a4 a5 : ScanData) :
  plateauJumpPlateauGuard [a0; a1; a2; a3; a4; a5] = true ->
  isPlateau (orElse (views a3) 0) (orElse (views a4) 0) = true.
Proof.
  unfold plateauJumpPlateauGuard. cbv zeta. simpl nth_error. cbn [truthy slotViews andb].
  rewrite !andb_true_iff. tauto.
Qed.

(** What the [try] block leaves behind when it raises, for a window of
    six scans. *)
Lemma windowBlock_raises (faults : Faults) (l : list ScanData) (i : Z)
    (a0 a1 a2 a3 a4 a5 : ScanData) (st st' : St.t) (e : string) :
  window l i = [a0; a1; a2; a3; a4; a5] ->
  windowBlock faults l i st = (st', Thrown e) ->
  st' = if plateauJumpPlateauGuard [a0; a1; a2; a3; a4; a5]
           && match firstFault faults sitesUpToReject with
              | None => true
              | Some _ => false
              end
        then flag PlateauJumpPlateau
                  (plateauMessage (views a0) (views a1) (views a2)
                                  (views a3) (views a4) (views a5)) st
        else st.
Proof.
  intros W. unfold windowBlock, bind, step, sitesUpToReject.
  cbn [firstFault]. destruct (faults WindowSlice) as [e0|].
  { unfold throw. intro H. inversion H. now rewrite andb_false_r. }
  unfold ret. rewrite W, plateauBody_six. cbv zeta.
  rewrite !orElse_0.
  destruct (plateauJumpPlateauGuard [a0; a1; a2; a3; a4; a5]) eqn:G.
  - pose proof (plateauGuard_consecutive _ _ _ _ _ _ G) as E34.
    rewrite !orElse_0 in E34.
    unfold guardReads. cbv zeta. simpl nth_error. cbn [slotViews].
    rewrite !orElse_0, E34. cbn [app].
    replace (map ReadWindow (seq 0 19))
      with (map ReadWindow [0; 1; 2; 3; 4; 5; 6; 7; 8; 9; 10; 11; 12]%nat
              ++ map ReadWindow (seq 13 6))%list by reflexivity.
    rewrite firstFault_app.
    destruct (firstFault faults
                (map ReadWindow [0; 1; 2; 3; 4; 5; 6; 7; 8; 9; 10; 11; 12]%nat))
      as [e1|] eqn:F1.
    + intro H. inversion H. reflexivity.
    + destruct (firstFault faults (map ReadWindow (seq 13 6))) as [e2|].
      * intro H. inversion H. reflexivity.
      * destruct (firstFault faults (map ReadWindow (seq 19 6))) as [e3|].
        -- intro H. inversion H. reflexivity.
        -- discriminate.
  - cbn [andb].
    destruct (firstFault faults (guardReads [a0; a1; a2; a3; a4; a5])) as [e1|].
    + intro H. now inversion H.
    + destruct (firstFault faults (map ReadWindow (seq 19 6))) as [e3|].
      * intro H. now inversion H.
      * discriminate.
Qed.

(** A scan object whose accessor raises on every read never reaches the
    [try] block: the destructuring at line 33 raises first. *)
Lemma broken_accessor_reaches_the_caller (P : Props) :
  detectBotAlgoWith brokenViews P = Thrown "views is unavailable".
Proof. reflexivity. Qed.

(** C9 (as stated, refuted): on the plateau series at index 3, let the
    read of [scans[0]?.views] at line 304 raise, every earlier step
    succeeding.  The evaluation of the window raises and the error is
    caught, but the plateau-jump-plateau rule has already run lines
    299-300: the response carries its reason and the reject flag, where
    the rules before the window give no reason and no reject. *)
Lemma window_error_after_plateau_reject :
  let P := transitionOf "instagram" plateauSeries 3 false in
  firstFault (raisesAt 19) (readsBeforeWindow P) = None
  /\ snd (windowBlock (raisesAt 19) plateauSeries 3 (transitionRules P))
     = Thrown "views is unavailable"
  /\ respond (transitionRules P) = mkResponse false ""
  /\ detectBotAlgoWith (raisesAt 19) P
     = Normal (mkResponse true
                 (nl ++ "suspicious plateau → jump → plateau pattern (views: 1000 → 1010 → 995 → 1600 → 1605 → 1590)")).
Proof. vm_compute. repeat split; reflexivity. Qed.

(** C9 (amended): a step that raises outside the [try] block ends the
    call with its error; otherwise [detectBotAlgo] returns a response,
    whatever raises inside the block, and with plain records the
    response is the one of [detectBotAlgo].  When the evaluation of the
    window raises, the error is logged and the statements run before it
    stay in effect: if the plateau-jump-plateau rule holds on the window
    and no step up to its reject (lines 275-300) raises, the response is
    the one of the rules before the window plus that rule's reason and
    the reject flag; in every other case it is the response of the rules
    before the window alone.  The small-plateau-step rule adds nothing
    when the block raises. *)
Theorem window_errors_are_caught (faults : Faults) (P : Props) :
  (forall e, firstFault faults (readsBeforeWindow P) = Some e ->
             detectBotAlgoWith faults P = Thrown e)
  /\ (firstFault faults (readsBeforeWindow P) = None ->
      exists response, detectBotAlgoWith faults P = Normal response)
  /\ detectBotAlgoWith noFaults P = Normal (detectBotAlgo P)
  /\ (forall l i w0 w1 w2 w3 w4 w5 st' e,
        platform P <> "youtube" ->
        allScans P = Some l ->
        (6 <= List.length l)%nat ->
        scanIndex P = Some i ->
        map views (window l i) = [w0; w1; w2; w3; w4; w5] ->
        firstFault faults (readsBeforeWindow P) = None ->
        windowBlock faults l i (transitionRules P) = (st', Thrown e) ->
        let before := respond (transitionRules P) in
        let plateauRejected :=
          (Z.abs (w0 - w2) <= 30 /\ w3 - w2 >= 500
           /\ Z.abs (w3 - w4) <= 30 /\ Z.abs (w4 - w5) <= 30
           /\ (Z.abs (w5 - w3) <= 30
               \/ (inject_Z (Z.abs (w5 - w3)) / inject_Z (Z.max w3 1) <= 0.1)%Q))
          /\ firstFault faults sitesUpToReject = None in
        plateauPatternDetectionM faults P (transitionRules P)
        = (consoleLog ("Error in plateau detection: " ++ e) st', Normal tt)
        /\ (plateauRejected ->
            detectBotAlgoWith faults P
            = Normal (mkResponse true
                        (bottedReason before ++ nl
                           ++ "suspicious plateau → jump → plateau pattern (views: "
                           ++ showZ w0 ++ " → " ++ showZ w1 ++ " → " ++ showZ w2
                           ++ " → " ++ showZ w3 ++ " → " ++ showZ w4 ++ " → "
                           ++ showZ w5 ++ ")")))
        /\ (~ plateauRejected -> detectBotAlgoWith faults P = Normal before)).
Proof.
  split; [|split; [|split]].
  - intros e H. unfold detectBotAlgoWith. now rewrite H.
  - intro H. unfold detectBotAlgoWith. rewrite H.
    pose proof (plateauPatternDetectionM_normal faults P (transitionRules P)) as N.
    destruct (plateauPatternDetectionM faults P (transitionRules P)) as [st c].
    simpl in N. subst c. now eexists.
  - apply detectBotAlgoWith_noFaults.
  - intros l i w0 w1 w2 w3 w4 w5 st' e Hy Hl Hlen Hi Hw Hpre Hraise before rejected.
    destruct (window l i) as [|a0 [|a1 [|a2 [|a3 [|a4 [|a5 [|a6 rest]]]]]]] eqn:W;
      try discriminate Hw.
    simpl in Hw. inversion Hw; subst w0 w1 w2 w3 w4 w5; clear Hw.
    assert (E : plateauPatternDetectionM faults P (transitionRules P)
                = (consoleLog ("Error in plateau detection: " ++ e) st', Normal tt)).
    { unfold plateauPatternDetectionM. rewrite Hl, Hi.
      apply String.eqb_neq in Hy. rewrite Hy.
      replace (Z.of_nat (List.length l) >=? 6) with true
        by (symmetry; apply Z.geb_le; lia).
      unfold when, tryCatch. cbn [negb andb]. rewrite Hraise. reflexivity. }
    split; [exact E|].
    assert (R : detectBotAlgoWith faults P = Normal (respond st')).
    { unfold detectBotAlgoWith. rewrite Hpre, E. reflexivity. }
    pose proof (windowBlock_raises faults l i a0 a1 a2 a3 a4 a5 _ st' e W Hraise) as S.
    pose proof (plateauJumpPlateauGuard_six a0 a1 a2 a3 a4 a5) as G.
    split.
    + intros [Hp Hf]. rewrite R, S.
      rewrite (proj2 G Hp), Hf. reflexivity.
    + intro Hn. rewrite R, S.
      destruct (plateauJumpPlateauGuard [a0; a1; a2; a3; a4; a5]) eqn:Eg;
        [|reflexivity].
      destruct (firstFault faults sitesUpToReject) eqn:Ef; [reflexivity|].
      exfalso. apply Hn. split; [now apply G | reflexivity].
Qed.

Lemma window_errors_are_caught_witness :
  let P := transitionOf "instagram" plateauSeries 3 false in
  (firstFault (raisesAt 7) (readsBeforeWindow P) = None
   /\ windowBlock (raisesAt 7) plateauSeries 3 (transitionRules P)
      = (transitionRules P, Thrown "views is unavailable")
   /\ detectBotAlgoWith (raisesAt 7) P = Normal (mkResponse false ""))
  /\ (firstFault (raisesAt 19) (readsBeforeWindow P) = None
      /\ snd (windowBlock (raisesAt 19) plateauSeries 3 (transitionRules P))
         = Thrown "views is unavailable"
      /\ detectBotAlgoWith (raisesAt 19) P
         = Normal (mkResponse true
                     (nl ++ "suspicious plateau → jump → plateau pattern (views: 1000 → 1010 → 995 → 1600 → 1605 → 1590)"))).
Proof.
  intro P.
  assert (Hy : platform P <> "youtube") by discriminate.
  split.
  - assert (Hpre : firstFault (raisesAt 7) (readsBeforeWindow P) = None) by reflexivity.
    assert (Hraise : windowBlock (raisesAt 7) plateauSeries 3 (transitionRules P)
                     = (transitionRules P, Thrown "views is unavailable"))
      by (vm_compute; reflexivity).
    split; [exact Hpre|]. split; [exact Hraise|].
    refine (proj2 (proj2 (proj2 (proj2 (proj2 (window_errors_are_caught (raisesAt 7) P)))
                            plateauSeries 3 1000 1010 995 1600 1605 1590 _ _
                            Hy eq_refl (le_n 6) eq_refl eq_refl Hpre Hraise)) _).
    intros [_ H]. discriminate H.
  - assert (Hpre : firstFault (raisesAt 19) (readsBeforeWindow P) = None)
      by reflexivity.
    assert (Hraise : windowBlock (raisesAt 19) plateauSeries 3 (transitionRules P)
                     = (fst (windowBlock (raisesAt 19) plateauSeries 3
                               (transitionRules P)),
                        Thrown "views is unavailable"))
      by (vm_compute; reflexivity).
    split; [exact Hpre|]. split; [now rewrite Hraise|].
    refine (proj1 (proj2 (proj2 (proj2 (proj2 (window_errors_are_caught (raisesAt 19) P)))
                            plateauSeries 3 1000 1010 995 1600 1605 1590 _ _
                            Hy eq_refl (le_n 6) eq_refl eq_refl Hpre Hraise)) _).
    split; [|reflexivity].
    repeat split; simpl; first [lia | (left; lia)].
Defined.

(** * Further properties of the rule engine *)

(** ** From the trace to the response *)

Lemma fired_runRules_in (P : Props) (e : Rule * option string) :
  In e (St.fired (runRules P)) <->
     In e (St.fired (earlyViewJump P St.init))
  \/ In e (St.fired (likesAnomalies P St.init))
  \/ In e (St.fired (sharesSavesGrowth P St.init))
  \/ In e (St.fired (sharesZeroToX P St.init))
  \/ In e (St.fired (savesZeroToX P St.init))
  \/ In e (St.fired (tiktokZeroSaves P St.init))
  \/ In e (St.fired (tiktokZeroShares P St.init))
  \/ In e (St.fired (zeroLikes P St.init))
  \/ In e (St.fired (snapchatUltraLowEngagement P St.init))
  \/ In e (St.fired (commentNotes P St.init))
  \/ In e (St.fired (likeRatioCollapse P St.init))
  \/ In e (St.fired (massiveCommentDrop P St.init))
  \/ In e (St.fired (commentJumpViewsFlat P St.init))
  \/ In e (St.fired (commentInjection P St.init))
  \/ In e (St.fired (plateauPatternDetection P St.init)).
Proof. rewrite fired_runRules, !in_app_iff. reflexivity. Qed.

(** A site executed with a message rejects and leaves its fragment in
    [bottedReason]. *)
Lemma fragment_in_response (P : Props) (r : Rule) (msg : string) :
  In (r, Some msg) (St.fired (runRules P)) ->
  shouldReject (detectBotAlgo P) = true
  /\ exists before after,
       bottedReason (detectBotAlgo P) = before ++ nl ++ msg ++ after.
Proof.
  intro H. split.
  - apply (fired_rejects P r). unfold firedRules. apply in_map_iff.
    exists (r, Some msg). split; [reflexivity | exact H].
  - rewrite (proj1 (response_trace P)). now apply (render_in _ r).
Qed.

(** ** Bridging happens only across a glitch *)

Lemma toNum_pos_truthy (key : MetricKey) (o : option ScanData) :
  (toNum (option_map (metric key) o) >? 0) = true -> truthy o = true.
Proof. destruct o; [reflexivity | discriminate]. Qed.

(** X1: whenever [getEffectivePair] bridges a metric, the glitch flag
    of that metric is set; so with the glitch flag clear the effective
    pair is the pair of the two scans at hand, unbridged. *)
Theorem bridging_only_across_glitch (P : Props) (key : MetricKey) :
  (bridged (getEffectivePair P key) = true -> glitch key P = true)
  /\ (glitch key P = false -> getEffectivePair P key = rawPair P key).
Proof.
  assert (B : bridged (getEffectivePair P key) = true -> glitch key P = true).
  { unfold getEffectivePair, glitch. cbv zeta.
    destruct (hasNext P && isZeroish (Some (metric key (currentScan P)))
              && (toNum (Some (metric key (prevScan P))) >? 0)
              && (toNum (option_map (metric key) (nextScan P)) >? 0)) eqn:E;
      [|discriminate].
    intros _. apply andb_true_iff in E. destruct E as [E E4].
    apply andb_true_iff in E. destruct E as [E E3].
    apply andb_true_iff in E. destruct E as [_ E2].
    simpl in E3. rewrite E2, E3, E4, (toNum_pos_truthy key _ E4). reflexivity. }
  split; [exact B|].
  intro G. unfold rawPair.
  destruct (bridged (getEffectivePair P key)) eqn:Eb.
  - rewrite (B eq_refl) in G. discriminate.
  - revert Eb. unfold getEffectivePair. cbv zeta.
    destruct (hasNext P && isZeroish (Some (metric key (currentScan P)))
              && (toNum (Some (metric key (prevScan P))) >? 0)
              && (toNum (option_map (metric key) (nextScan P)) >? 0));
      [discriminate | reflexivity].
Qed.

Lemma bridging_only_across_glitch_witness :
  let P := transitionOf "instagram" glitchSeries 1 false in
  bridged (getEffectivePair P Likes) = true /\ glitch Likes P = true.
Proof.
  intro P. split; [reflexivity|].
  apply (proj1 (bridging_only_across_glitch P Likes)). reflexivity.
Defined.

Lemma no_glitch_raw_pair (P : Props) (key : MetricKey) :
  glitch key P = false -> getEffectivePair P key = rawPair P key.
Proof.
  intro G. unfold rawPair.
  destruct (getEffectivePair P key) eqn:E. revert E.
  unfold getEffectivePair, glitch in *. cbv zeta in *.
  destruct (hasNext P && isZeroish (Some (metric key (currentScan P)))
            && (toNum (Some (metric key (prevScan P))) >? 0)
            && (toNum (option_map (metric key) (nextScan P)) >? 0)) eqn:C.
  - apply andb_true_iff in C. destruct C as [C C4].
    apply andb_true_iff in C. destruct C as [C C3].
    apply andb_true_iff in C. destruct C as [_ C2].
    simpl in C3. rewrite C2, C3, C4, (toNum_pos_truthy key _ C4) in G. discriminate.
  - intro E. inversion E. reflexivity.
Qed.

(** ** Rules that live in a block of their own *)

(** Only the block of a site can execute it. *)
Ltac own_block P :=
  let m := fresh "m" in
  let H := fresh "H" in
  intro m; rewrite fired_runRules_in; split; [intro H | tauto];
  repeat (destruct H as [H|H]); try exact H; exfalso; revert H;
  first
    [ apply (not_fired_block _ _ _ m (Block_earlyViewJump P))
    | apply (not_fired_block _ _ _ m (Block_likesAnomalies P))
    | apply (not_fired_block _ _ _ m (Block_sharesSavesGrowth P))
    | apply (not_fired_block _ _ _ m (Block_sharesZeroToX P))
    | apply (not_fired_block _ _ _ m (Block_savesZeroToX P))
    | apply (not_fired_block _ _ _ m (Block_tiktokZeroSaves P))
    | apply (not_fired_block _ _ _ m (Block_tiktokZeroShares P))
    | apply (not_fired_block _ _ _ m (Block_zeroLikes P))
    | apply (not_fired_block _ _ _ m (Block_snapchatUltraLowEngagement P))
    | apply (not_fired_block _ _ _ m (Block_commentNotes P))
    | apply (not_fired_block _ _ _ m (Block_likeRatioCollapse P))
    | apply (not_fired_block _ _ _ m (Block_massiveCommentDrop P))
    | apply (not_fired_block _ _ _ m (Block_commentJumpViewsFlat P))
    | apply (not_fired_block _ _ _ m (Block_commentInjection P))
    | apply (not_fired_block _ _ _ m (Block_plateauPatternDetection P)) ];
  simpl; intuition discriminate.

(** A site with a block of its own, executed under the guard [g]. *)
Lemma guarded_site (P : Props) (r : Rule) (o : option string) (g : bool)
    (own : list (Rule * option string)) :
  (forall m, In (r, m) (St.fired (runRules P)) <-> In (r, m) own) ->
  own = (if g then [(r, o)] else []) ->
  (In r (firedRules P) <-> g = true)
  /\ (g = true -> In (r, o) (St.fired (runRules P))).
Proof.
  intros Hown ->. split; [split|].
  - unfold firedRules. rewrite in_map_iff. intros ([r' m] & E & H).
    simpl in E. subst r'. apply Hown in H. destruct g; [reflexivity | destruct H].
  - intros ->. unfold firedRules. apply in_map_iff. exists (r, o).
    split; [reflexivity|]. apply Hown. now left.
  - intros ->. apply Hown. now left.
Qed.

Lemma tiktokZeroSaves_fired (P : Props) :
  St.fired (tiktokZeroSaves P St.init) =
  if (platform P =? "tiktok")%string && (views (currentScan P) >=? 5000)
     && (saves (currentScan P) =? 0) && negb (glitchSaves P)
  then [(TikTokZeroSaves, Some "zero saves at 5k+ views (TikTok)")] else [].
Proof.
  unfold tiktokZeroSaves.
  destruct ((platform P =? "tiktok")%string && (views (currentScan P) >=? 5000)
            && (saves (currentScan P) =? 0) && negb (glitchSaves P)); reflexivity.
Qed.

Lemma tiktokZeroShares_fired (P : Props) :
  St.fired (tiktokZeroShares P St.init) =
  if (platform P =? "tiktok")%string && (views (currentScan P) >=? 10000)
     && (shares (currentScan P) =? 0) && negb (glitchShares P)
  then [(TikTokZeroShares, Some "zero shares at 10k+ views (TikTok)")] else [].
Proof.
  unfold tiktokZeroShares.
  destruct ((platform P =? "tiktok")%string && (views (currentScan P) >=? 10000)
            && (shares (currentScan P) =? 0) && negb (glitchShares P)); reflexivity.
Qed.

(** X2: the TikTok zero-saves rule fires exactly on platform tiktok
    with [views >= 5000], [saves = 0] and no saves glitch, whatever the
    scan index; it then rejects with the fragment "zero saves at 5k+
    views (TikTok)".  With 4999 views it does not fire. *)
Theorem tiktokZeroSaves_exact (P : Props) :
  (In TikTokZeroSaves (firedRules P)
   <-> platform P = "tiktok" /\ views (currentScan P) >= 5000
       /\ saves (currentScan P) = 0 /\ glitchSaves P = false)
  /\ (In TikTokZeroSaves (firedRules P) ->
      shouldReject (detectBotAlgo P) = true
      /\ exists before after,
           bottedReason (detectBotAlgo P)
           = before ++ nl ++ "zero saves at 5k+ views (TikTok)" ++ after).
Proof.
  assert (Hown : forall m, In (TikTokZeroSaves, m) (St.fired (runRules P))
                           <-> In (TikTokZeroSaves, m)
                                  (St.fired (tiktokZeroSaves P St.init)))
    by own_block P.
  destruct (guarded_site P _ _ _ _ Hown (tiktokZeroSaves_fired P)) as [G F].
  split.
  - rewrite G, !andb_true_iff, String.eqb_eq, Z.geb_le, Z.eqb_eq, negb_true_iff.
    intuition lia.
  - intro H. apply G in H. now apply (fragment_in_response P TikTokZeroSaves), F.
Qed.

Lemma tiktokZeroSaves_exact_witness :
  In TikTokZeroSaves (firedRules tiktokNoSaves)
  /\ shouldReject (detectBotAlgo tiktokNoSaves) = true.
Proof.
  assert (H : In TikTokZeroSaves (firedRules tiktokNoSaves)).
  { apply (proj1 (tiktokZeroSaves_exact tiktokNoSaves)).
    repeat split; try reflexivity. simpl. lia. }
  split; [exact H|].
  exact (proj1 (proj2 (tiktokZeroSaves_exact tiktokNoSaves) H)).
Defined.

(** X3: the TikTok zero-shares rule fires exactly on platform tiktok
    with [views >= 10000], [shares = 0] and no shares glitch; it then
    rejects with the fragment "zero shares at 10k+ views (TikTok)". *)
Theorem tiktokZeroShares_exact (P : Props) :
  (In TikTokZeroShares (firedRules P)
   <-> platform P = "tiktok" /\ views (currentScan P) >= 10000
       /\ shares (currentScan P) = 0 /\ glitchShares P = false)
  /\ (In TikTokZeroShares (firedRules P) ->
      shouldReject (detectBotAlgo P) = true
      /\ exists before after,
           bottedReason (detectBotAlgo P)
           = before ++ nl ++ "zero shares at 10k+ views (TikTok)" ++ after).
Proof.
  assert (Hown : forall m, In (TikTokZeroShares, m) (St.fired (runRules P))
                           <-> In (TikTokZeroShares, m)
                                  (St.fired (tiktokZeroShares P St.init)))
    by own_block P.
  destruct (guarded_site P _ _ _ _ Hown (tiktokZeroShares_fired P)) as [G F].
  split.
  - rewrite G, !andb_true_iff, String.eqb_eq, Z.geb_le, Z.eqb_eq, negb_true_iff.
    intuition lia.
  - intro H. apply G in H. now apply (fragment_in_response P TikTokZeroShares), F.
Qed.

Lemma tiktokZeroShares_exact_witness :
  let P := mkProps (mkScan 12000 600 30 0 10 false) (mkScan 12000 600 30 0 10 false)
                   "tiktok" None None false in
  In TikTokZeroShares (firedRules P) /\ shouldReject (detectBotAlgo P) = true.
Proof.
  intro P.
  assert (H : In TikTokZeroShares (firedRules P)).
  { apply (proj1 (tiktokZeroShares_exact P)).
    repeat split; try reflexivity. simpl. lia. }
  split; [exact H|].
  exact (proj1 (proj2 (tiktokZeroShares_exact P) H)).
Defined.

Lemma Qdiv_lt_Z (a b k : Z) :
  0 < b -> (inject_Z a / inject_Z b < inject_Z k)%Q <-> a < k * b.
Proof.
  intro Hb. destruct b as [|p|p]; try lia.
  unfold Qlt, Qdiv, Qmult, Qinv, inject_Z. simpl. lia.
Qed.

Lemma Qdiv_ge_Z (a b k : Z) :
  0 < b -> (inject_Z k <= inject_Z a / inject_Z b)%Q <-> k * b <= a.
Proof.
  intro Hb. destruct b as [|p|p]; try lia.
  unfold Qle, Qdiv, Qmult, Qinv, inject_Z. simpl. lia.
Qed.

Lemma zeroLikes_fired (P : Props) :
  St.fired (zeroLikes P St.init) =
  if matureScan P && negb (glitchLikes P) && (views (currentScan P) >? 1000)
     && (likes (currentScan P) =? 0)
     && includes ["tiktok"; "instagram"; "youtube"] (platform P)
  then [(ZeroLikes, Some "zero likes")] else [].
Proof.
  unfold zeroLikes. destruct (matureScan P); [|reflexivity].
  destruct (glitchLikes P) eqn:G; [reflexivity|].
  cbv zeta. unfold glitchLikes in G. rewrite (no_glitch_raw_pair P Likes G).
  cbn [negb andb rawPair currViews curr metric].
  destruct ((views (currentScan P) >? 1000) && (likes (currentScan P) =? 0)
            && includes ["tiktok"; "instagram"; "youtube"] (platform P)); reflexivity.
Qed.

(** X4: the zero-likes rule fires exactly on a mature transition without
    a likes glitch, on tiktok, instagram or youtube, when the current
    scan itself has more than 1000 views and no likes; it then rejects
    with the fragment "zero likes". *)
Theorem zeroLikes_exact (P : Props) :
  (In ZeroLikes (firedRules P)
   <-> matureScan P = true /\ glitchLikes P = false
       /\ views (currentScan P) > 1000 /\ likes (currentScan P) = 0
       /\ (platform P = "tiktok" \/ platform P = "instagram"
           \/ platform P = "youtube"))
  /\ (In ZeroLikes (firedRules P) ->
      shouldReject (detectBotAlgo P) = true
      /\ exists before after,
           bottedReason (detectBotAlgo P) = before ++ nl ++ "zero likes" ++ after).
Proof.
  assert (Hown : forall m, In (ZeroLikes, m) (St.fired (runRules P))
                           <-> In (ZeroLikes, m) (St.fired (zeroLikes P St.init)))
    by own_block P.
  destruct (guarded_site P _ _ _ _ Hown (zeroLikes_fired P)) as [G F].
  split.
  - rewrite G, !andb_true_iff, negb_true_iff, Z.gtb_lt, Z.eqb_eq.
    unfold includes. cbn [existsb]. rewrite !orb_true_iff, !String.eqb_eq.
    intuition (try lia; try discriminate).
  - intro H. apply G in H. now apply (fragment_in_response P ZeroLikes), F.
Qed.

Lemma zeroLikes_exact_witness :
  let P := transitionOf "instagram" zeroLikesSeries 1 false in
  In ZeroLikes (firedRules P) /\ shouldReject (detectBotAlgo P) = true.
Proof.
  intro P.
  assert (H : In ZeroLikes (firedRules P)).
  { apply (proj1 (zeroLikes_exact P)).
    repeat split; try reflexivity; try (simpl; lia). right; left; reflexivity. }
  split; [exact H|].
  exact (proj1 (proj2 (zeroLikes_exact P) H)).
Defined.

Lemma snapchatUltraLowEngagement_fired (P : Props) :
  St.fired (snapchatUltraLowEngagement P St.init) =
  if (platform P =? "snapchat")%string && (views (currentScan P) >? 20000)
     && (comments (currentScan P) =? 0) && (shares (currentScan P) <=? 1)
  then [(SnapchatUltraLowEngagement, None)] else [].
Proof.
  unfold snapchatUltraLowEngagement.
  destruct ((platform P =? "snapchat")%string && (views (currentScan P) >? 20000)
            && (comments (currentScan P) =? 0) && (shares (currentScan P) <=? 1));
    reflexivity.
Qed.

(** X5: the Snapchat ultra-low-engagement rule fires exactly on platform
    snapchat with [views > 20000], [comments = 0] and [shares <= 1],
    whatever the scan index and the glitch flags; it then rejects. *)
Theorem snapchatUltraLowEngagement_exact (P : Props) :
  (In SnapchatUltraLowEngagement (firedRules P)
   <-> platform P = "snapchat" /\ views (currentScan P) > 20000
       /\ comments (currentScan P) = 0 /\ shares (currentScan P) <= 1)
  /\ (In SnapchatUltraLowEngagement (firedRules P) ->
      shouldReject (detectBotAlgo P) = true).
Proof.
  assert (Hown : forall m, In (SnapchatUltraLowEngagement, m) (St.fired (runRules P))
                           <-> In (SnapchatUltraLowEngagement, m)
                                  (St.fired (snapchatUltraLowEngagement P St.init)))
    by own_block P.
  destruct (guarded_site P _ _ _ _ Hown (snapchatUltraLowEngagement_fired P)) as [G F].
  split; [|apply fired_rejects].
  rewrite G, !andb_true_iff, String.eqb_eq, Z.gtb_lt, Z.eqb_eq, Z.leb_le.
  intuition lia.
Qed.

Lemma snapchatUltraLowEngagement_exact_witness :
  In SnapchatUltraLowEngagement (firedRules snapchatQuiet)
  /\ shouldReject (detectBotAlgo snapchatQuiet) = true.
Proof.
  assert (H : In SnapchatUltraLowEngagement (firedRules snapchatQuiet)).
  { apply (proj1 (snapchatUltraLowEngagement_exact snapchatQuiet)).
    repeat split; try reflexivity; simpl; lia. }
  split; [exact H|].
  exact (proj2 (snapchatUltraLowEngagement_exact snapchatQuiet) H).
Defined.

Lemma massiveCommentDrop_fired (P : Props) :
  St.fired (massiveCommentDrop P St.init) =
  if matureScan P && negb (glitchComments P) && (comments (prevScan P) >=? 20)
     && (comments (prevScan P) - comments (currentScan P) >=? 10)
  then [(MassiveCommentDrop,
         Some ("massive comment drop (-"
                 ++ showZ (comments (prevScan P) - comments (currentScan P)) ++ ")"))]
  else [].
Proof.
  unfold massiveCommentDrop. destruct (matureScan P); [|reflexivity].
  destruct (glitchComments P) eqn:G; [reflexivity|].
  cbv zeta. unfold glitchComments in G. rewrite (no_glitch_raw_pair P Comments G).
  cbn [negb andb rawPair prev curr metric].
  destruct (comments (prevScan P) >=? 20); [|reflexivity].
  destruct (comments (prevScan P) - comments (currentScan P) >=? 10); reflexivity.
Qed.

(** X6: the massive-comment-drop rule fires exactly on a mature
    transition without a comments glitch whose previous scan has at
    least 20 comments and whose comments fall by at least 10; it then
    rejects with the fragment "massive comment drop (-d)", [d] being
    the fall. *)
Theorem massiveCommentDrop_exact (P : Props) :
  (In MassiveCommentDrop (firedRules P)
   <-> matureScan P = true /\ glitchComments P = false
       /\ comments (prevScan P) >= 20
       /\ comments (prevScan P) - comments (currentScan P) >= 10)
  /\ (In MassiveCommentDrop (firedRules P) ->
      shouldReject (detectBotAlgo P) = true
      /\ exists before after,
           bottedReason (detectBotAlgo P)
           = before ++ nl
               ++ ("massive comment drop (-"
                     ++ showZ (comments (prevScan P) - comments (currentScan P)) ++ ")")
               ++ after).
Proof.
  assert (Hown : forall m, In (MassiveCommentDrop, m) (St.fired (runRules P))
                           <-> In (MassiveCommentDrop, m)
                                  (St.fired (massiveCommentDrop P St.init)))
    by own_block P.
  destruct (guarded_site P _ _ _ _ Hown (massiveCommentDrop_fired P)) as [G F].
  split.
  - rewrite G, !andb_true_iff, negb_true_iff, !Z.geb_le. intuition lia.
  - intro H. apply G in H. now apply (fragment_in_response P MassiveCommentDrop), F.
Qed.

Lemma massiveCommentDrop_exact_witness :
  let P := transitionOf "tiktok" [mkScan 5000 100 0 0 30 false;
                                  mkScan 5400 110 0 0 5 false] 1 false in
  In MassiveCommentDrop (firedRules P) /\ shouldReject (detectBotAlgo P) = true.
Proof.
  intro P.
  assert (H : In MassiveCommentDrop (firedRules P)).
  { apply (proj1 (massiveCommentDrop_exact P)).
    repeat split; try reflexivity; simpl; lia. }
  split; [exact H|].
  exact (proj1 (proj2 (massiveCommentDrop_exact P) H)).
Defined.

Lemma commentJumpViewsFlat_fired (P : Props) :
  St.fired (commentJumpViewsFlat P St.init) =
  if negb (platform P =? "youtube")%string && matureScan P && negb (glitchComments P)
     && (Z.abs (views (currentScan P) - views (prevScan P)) <=? 30)
     && (comments (currentScan P) - comments (prevScan P) >=? 10)
  then [(CommentJumpViewsFlat,
         Some ("comments jumped by "
                 ++ showZ (comments (currentScan P) - comments (prevScan P))
                 ++ " with minimal view change (+"
                 ++ showZ (Z.abs (views (currentScan P) - views (prevScan P))) ++ ")"))]
  else [].
Proof.
  unfold commentJumpViewsFlat. destruct (negb (platform P =? "youtube")%string);
    [|reflexivity].
  destruct (matureScan P); [|reflexivity].
  destruct (glitchComments P) eqn:G; [reflexivity|].
  cbv zeta. unfold glitchComments in G. rewrite (no_glitch_raw_pair P Comments G).
  cbn [negb andb rawPair prev curr prevViews currViews metric].
  destruct ((Z.abs (views (currentScan P) - views (prevScan P)) <=? 30)
            && (comments (currentScan P) - comments (prevScan P) >=? 10)); reflexivity.
Qed.

(** X7: the comment-jump rule fires exactly on a mature transition of a
    platform other than youtube, without a comments glitch, whose views
    move by at most 30 while the comments grow by at least 10. *)
Theorem commentJumpViewsFlat_exact (P : Props) :
  (In CommentJumpViewsFlat (firedRules P)
   <-> platform P <> "youtube" /\ matureScan P = true /\ glitchComments P = false
       /\ Z.abs (views (currentScan P) - views (prevScan P)) <= 30
       /\ comments (currentScan P) - comments (prevScan P) >= 10)
  /\ (In CommentJumpViewsFlat (firedRules P) -> shouldReject (detectBotAlgo P) = true).
Proof.
  assert (Hown : forall m, In (CommentJumpViewsFlat, m) (St.fired (runRules P))
                           <-> In (CommentJumpViewsFlat, m)
                                  (St.fired (commentJumpViewsFlat P St.init)))
    by own_block P.
  destruct (guarded_site P _ _ _ _ Hown (commentJumpViewsFlat_fired P)) as [G F].
  split; [|apply fired_rejects].
  rewrite G, !andb_true_iff, !negb_true_iff, String.eqb_neq, Z.leb_le, Z.geb_le.
  intuition lia.
Qed.

Lemma commentJumpViewsFlat_exact_witness :
  let P := transitionOf "tiktok" [mkScan 5000 100 0 0 3 false;
                                  mkScan 5010 100 0 0 20 false] 1 false in
  In CommentJumpViewsFlat (firedRules P) /\ shouldReject (detectBotAlgo P) = true.
Proof.
  intro P.
  assert (H : In CommentJumpViewsFlat (firedRules P)).
  { apply (proj1 (commentJumpViewsFlat_exact P)).
    repeat split; try reflexivity; try discriminate; simpl; lia. }
  split; [exact H|].
  exact (proj2 (commentJumpViewsFlat_exact P) H).
Defined.

Lemma commentInjection_fired (P : Props) :
  St.fired (commentInjection P St.init) =
  if matureScan P && negb (glitchComments P)
     && (views (currentScan P) <? 5 * Z.max (views (prevScan P)) 1)
     && (comments (currentScan P) >=? 50 * Z.max (comments (prevScan P)) 1)
  then
    [(CommentInjection,
      Some ("sus comment injection: views " ++ showZ (views (prevScan P)) ++ "→"
              ++ showZ (views (currentScan P)) ++ " ("
              ++ toFixedNumber (fdiv (ofZ (views (currentScan P)))
                                     (ofZ (Z.max (views (prevScan P)) 1))) 1
              ++ "x) but comments " ++ showZ (comments (prevScan P)) ++ "→"
              ++ showZ (comments (currentScan P)) ++ " ("
              ++ toFixedNumber (fdiv (ofZ (comments (currentScan P)))
                                     (ofZ (Z.max (comments (prevScan P)) 1))) 1
              ++ "x)"))]
  else [].
Proof.
  unfold commentInjection. cbv zeta.
  destruct (matureScan P); [|reflexivity].
  destruct (glitchComments P) eqn:G; [reflexivity|].
  unfold glitchComments in G. rewrite (no_glitch_raw_pair P Comments G).
  cbn [negb andb rawPair prev curr prevViews currViews metric].
  assert (E1 : (views (currentScan P) / Z.max (views (prevScan P)) 1 <? 5)%Q
               = (views (currentScan P) <? 5 * Z.max (views (prevScan P)) 1)).
  { apply eq_true_iff_eq. rewrite Qltb_lt, Z.ltb_lt.
    change 5%Q with (inject_Z 5). apply Qdiv_lt_Z. lia. }
  assert (E2 : (comments (currentScan P) / Z.max (comments (prevScan P)) 1 >=? 50)%Q
               = (comments (currentScan P) >=? 50 * Z.max (comments (prevScan P)) 1)).
  { apply eq_true_iff_eq. rewrite Qleb_le, Z.geb_le.
    change 50%Q with (inject_Z 50). apply Qdiv_ge_Z. lia. }
  rewrite E1, E2.
  destruct ((views (currentScan P) <? 5 * Z.max (views (prevScan P)) 1)
            && (comments (currentScan P) >=? 50 * Z.max (comments (prevScan P)) 1));
    reflexivity.
Qed.

(** X8: the comment-injection rule fires exactly on a mature transition
    without a comments glitch whose views grow less than fivefold
    ([views < 5 * max(prevViews, 1)]) while the comments grow at least
    fiftyfold ([comments >= 50 * max(prevComments, 1)]); on every
    platform, youtube included. *)
Theorem commentInjection_exact (P : Props) :
  (In CommentInjection (firedRules P)
   <-> matureScan P = true /\ glitchComments P = false
       /\ views (currentScan P) < 5 * Z.max (views (prevScan P)) 1
       /\ comments (currentScan P) >= 50 * Z.max (comments (prevScan P)) 1)
  /\ (In CommentInjection (firedRules P) -> shouldReject (detectBotAlgo P) = true).
Proof.
  assert (Hown : forall m, In (CommentInjection, m) (St.fired (runRules P))
                           <-> In (CommentInjection, m)
                                  (St.fired (commentInjection P St.init)))
    by own_block P.
  destruct (guarded_site P _ _ _ _ Hown (commentInjection_fired P)) as [G F].
  split; [|apply fired_rejects].
  rewrite G, !andb_true_iff, negb_true_iff, Z.ltb_lt, Z.geb_le. intuition lia.
Qed.

Lemma commentInjection_exact_witness :
  let P := transitionOf "youtube" [mkScan 5000 100 0 0 1 false;
                                   mkScan 9000 180 0 0 60 false] 1 false in
  In CommentInjection (firedRules P) /\ shouldReject (detectBotAlgo P) = true.
Proof.
  intro P.
  assert (H : In CommentInjection (firedRules P)).
  { apply (proj1 (commentInjection_exact P)).
    repeat split; try reflexivity; simpl; lia. }
  split; [exact H|].
  exact (proj2 (commentInjection_exact P) H).
Defined.

(** ** Glitches switch rules off *)

Lemma fires_block_tags rs f r :
  Block rs f -> In r (map fst (St.fired (f St.init))) -> In r rs.
Proof.
  intros (_ & _ & T) H. apply in_map_iff in H. destruct H as ([r' m] & E & H).
  simpl in E. subst r'. now apply (T r m).
Qed.

Lemma likesAnomalies_glitch (P : Props) (r : Rule) :
  glitchLikes P = true ->
  In r (map fst (St.fired (likesAnomalies P St.init))) -> r = ViewsDoubledLikesFlat.
Proof.
  intros G. unfold likesAnomalies. rewrite G. cbv beta zeta.
  rewrite !andb_false_r. simpl andb.
  repeat match goal with
         | |- context [if ?b then _ else _] => destruct b
         end;
    simpl; intuition congruence.
Qed.

Lemma sharesZeroToX_glitch (P : Props) :
  glitchShares P = true -> sharesZeroToX P St.init = St.init.
Proof. intro G. unfold sharesZeroToX. rewrite G, andb_false_r. reflexivity. Qed.

Lemma savesZeroToX_glitch (P : Props) :
  glitchSaves P = true -> savesZeroToX P St.init = St.init.
Proof. intro G. unfold savesZeroToX. rewrite G, andb_false_r. reflexivity. Qed.

Lemma likeRatioCollapse_glitch (P : Props) :
  glitchLikes P = true -> likeRatioCollapse P St.init = St.init.
Proof.
  intro G. unfold likeRatioCollapse. rewrite G. cbv zeta. cbn [negb andb].
  destruct (negb (platform P =? "youtube")%string
            && negb (platform P =? "snapchat")%string
            && (views (prevScan P) >=? 100) && matureScan P); reflexivity.
Qed.

(** X9: a glitch on a metric switches off, on that transition, every
    rule guarded by the glitch flag of the metric: for likes the
    "views grew, likes frozen", "likes spike", "zero likes" and
    "like-ratio collapse" rules; for comments the three comment rules;
    for saves and shares the 0-to-X rule and the TikTok zero rule. *)
Theorem glitch_switches_rules_off (P : Props) (key : MetricKey) (r : Rule) :
  glitch key P = true -> In r (guardedBy key) -> ~ In r (firedRules P).
Proof.
  intros G Hr Hf. apply firedRules_blocks in Hf.
  destruct key; simpl in Hr.
  - (* likes *)
    assert (Hl : forall r', In r' (map fst (St.fired (likesAnomalies P St.init))) ->
                            r' = ViewsDoubledLikesFlat)
      by (intro r'; now apply likesAnomalies_glitch).
    assert (Hz : St.fired (zeroLikes P St.init) = []).
    { rewrite zeroLikes_fired. unfold glitchLikes. rewrite G.
      now rewrite andb_false_r. }
    assert (Hc : St.fired (likeRatioCollapse P St.init) = [])
      by (now rewrite likeRatioCollapse_glitch).
    rewrite Hz, Hc in Hf.
    destruct Hr as [<-|[<-|[<-|[<-|[]]]]]; other_blocks P;
      try (apply Hl in Hf; discriminate); try (destruct Hf).
  - (* comments *)
    assert (H1 : St.fired (massiveCommentDrop P St.init) = []).
    { rewrite massiveCommentDrop_fired. unfold glitchComments. rewrite G.
      now rewrite andb_false_r. }
    assert (H2 : St.fired (commentJumpViewsFlat P St.init) = []).
    { rewrite commentJumpViewsFlat_fired. unfold glitchComments. rewrite G.
      now rewrite andb_false_r. }
    assert (H3 : St.fired (commentInjection P St.init) = []).
    { rewrite commentInjection_fired. unfold glitchComments. rewrite G.
      now rewrite andb_false_r. }
    rewrite H1, H2, H3 in Hf.
    destruct Hr as [<-|[<-|[<-|[]]]]; other_blocks P; destruct Hf.
  - (* saves *)
    assert (H1 : St.fired (savesZeroToX P St.init) = [])
      by (now rewrite savesZeroToX_glitch).
    assert (H2 : St.fired (tiktokZeroSaves P St.init) = []).
    { rewrite tiktokZeroSaves_fired. unfold glitchSaves. rewrite G.
      now rewrite andb_false_r. }
    rewrite H1, H2 in Hf.
    destruct Hr as [<-|[<-|[]]]; other_blocks P; destruct Hf.
  - (* shares *)
    assert (H1 : St.fired (sharesZeroToX P St.init) = [])
      by (now rewrite sharesZeroToX_glitch).
    assert (H2 : St.fired (tiktokZeroShares P St.init) = []).
    { rewrite tiktokZeroShares_fired. unfold glitchShares. rewrite G.
      now rewrite andb_false_r. }
    rewrite H1, H2 in Hf.
    destruct Hr as [<-|[<-|[]]]; other_blocks P; destruct Hf.
Qed.

Lemma glitch_switches_rules_off_witness :
  (glitch Comments (transitionOf "tiktok" commentGlitchSeries 1 false) = true
   /\ ~ In MassiveCommentDrop
          (firedRules (transitionOf "tiktok" commentGlitchSeries 1 false)))
  /\ (glitch Shares (transitionOf "tiktok" shareGlitchSeries 1 false) = true
      /\ ~ In TikTokZeroShares
             (firedRules (transitionOf "tiktok" shareGlitchSeries 1 false))).
Proof.
  split; split; try reflexivity.
  - apply (glitch_switches_rules_off
             (transitionOf "tiktok" commentGlitchSeries 1 false) Comments).
    + reflexivity.
    + simpl. tauto.
  - apply (glitch_switches_rules_off
             (transitionOf "tiktok" shareGlitchSeries 1 false) Shares).
    + reflexivity.
    + simpl. tauto.
Defined.

(** ** Platform and index gating *)

Lemma likesAnomalies_unliked (P : Props) :
  platform P = "youtube" \/ platform P = "snapchat" ->
  likesAnomalies P St.init = St.init.
Proof.
  intros [H|H]; unfold likesAnomalies; rewrite H; reflexivity.
Qed.

Lemma likeRatioCollapse_unliked (P : Props) :
  platform P = "youtube" \/ platform P = "snapchat" ->
  likeRatioCollapse P St.init = St.init.
Proof.
  intros [H|H]; unfold likeRatioCollapse; rewrite H; reflexivity.
Qed.

Lemma tiktok_blocks_idle (P : Props) :
  platform P <> "tiktok" ->
  tiktokZeroSaves P St.init = St.init /\ tiktokZeroShares P St.init = St.init.
Proof.
  intro H. apply String.eqb_neq in H.
  unfold tiktokZeroSaves, tiktokZeroShares. rewrite H. split; reflexivity.
Qed.

Lemma snapchat_block_idle (P : Props) :
  platform P <> "snapchat" -> snapchatUltraLowEngagement P St.init = St.init.
Proof.
  intro H. apply String.eqb_neq in H.
  unfold snapchatUltraLowEngagement. rewrite H. reflexivity.
Qed.

Lemma zeroLikes_idle (P : Props) :
  includes ["tiktok"; "instagram"; "youtube"] (platform P) = false ->
  St.fired (zeroLikes P St.init) = [].
Proof. intro H. rewrite zeroLikes_fired, H, andb_false_r. reflexivity. Qed.

Lemma plateauPatternDetection_idle (P : Props) :
  platform P = "youtube" \/ scanIndex P = None \/ allScans P = None
  \/ (exists l, allScans P = Some l /\ (List.length l < 6)%nat) ->
  plateauPatternDetection P St.init = St.init.
Proof.
  intro H. rewrite plateauPatternDetection_eq.
  destruct (allScans P) as [l|] eqn:El; [|reflexivity].
  destruct (scanIndex P) as [i|] eqn:Ei; [|reflexivity].
  destruct H as [H|[H|[H|(l' & H & Hlen)]]]; try discriminate.
  - rewrite H. reflexivity.
  - inversion H; subst l'.
    replace (Z.of_nat (List.length l) >=? 6) with false
      by (symmetry; rewrite Z.geb_leb; apply Z.leb_gt; lia).
    now rewrite andb_false_r.
Qed.

(** Reduces a hypothesis on the trace to the blocks that are not idle. *)
Ltac by_tags P :=
  match goal with
  | H : In ?r (map fst (St.fired (?f P St.init))) |- _ =>
      first
        [ apply (fires_block_tags _ _ r (Block_earlyViewJump P)) in H
        | apply (fires_block_tags _ _ r (Block_likesAnomalies P)) in H
        | apply (fires_block_tags _ _ r (Block_sharesSavesGrowth P)) in H
        | apply (fires_block_tags _ _ r (Block_sharesZeroToX P)) in H
        | apply (fires_block_tags _ _ r (Block_savesZeroToX P)) in H
        | apply (fires_block_tags _ _ r (Block_tiktokZeroSaves P)) in H
        | apply (fires_block_tags _ _ r (Block_tiktokZeroShares P)) in H
        | apply (fires_block_tags _ _ r (Block_zeroLikes P)) in H
        | apply (fires_block_tags _ _ r (Block_snapchatUltraLowEngagement P)) in H
        | apply (fires_block_tags _ _ r (Block_commentNotes P)) in H
        | apply (fires_block_tags _ _ r (Block_likeRatioCollapse P)) in H
        | apply (fires_block_tags _ _ r (Block_massiveCommentDrop P)) in H
        | apply (fires_block_tags _ _ r (Block_commentJumpViewsFlat P)) in H
        | apply (fires_block_tags _ _ r (Block_commentInjection P)) in H
        | apply (fires_block_tags _ _ r (Block_plateauPatternDetection P)) in H ];
      simpl in H |- *; tauto
  end.

(** X10: on youtube only the early view jump, the shares and saves
    rules, the zero-likes rule, the massive comment drop and the comment
    injection can fire: no likes-ratio rule, no comment-jump rule, no
    window rule. *)
Theorem youtube_rules (P : Props) (r : Rule) :
  platform P = "youtube" ->
  In r (firedRules P) ->
  In r [EarlyViewJump; MetricAppeared; MetricGrewQuickly; SharesZeroToX;
        SavesZeroToX; ZeroLikes; MassiveCommentDrop; CommentInjection].
Proof.
  intros Hp H. apply firedRules_blocks in H.
  assert (Ht : platform P <> "tiktok") by (rewrite Hp; discriminate).
  assert (Hs : platform P <> "snapchat") by (rewrite Hp; discriminate).
  rewrite (likesAnomalies_unliked P (or_introl Hp)),
    (likeRatioCollapse_unliked P (or_introl Hp)),
    (proj1 (tiktok_blocks_idle P Ht)), (proj2 (tiktok_blocks_idle P Ht)),
    (snapchat_block_idle P Hs),
    (plateauPatternDetection_idle P (or_introl Hp)) in H.
  assert (Hc : St.fired (commentJumpViewsFlat P St.init) = []).
  { rewrite commentJumpViewsFlat_fired, Hp. reflexivity. }
  rewrite Hc in H. simpl in H.
  repeat (destruct H as [H|H]); try contradiction; by_tags P.
Qed.

Lemma youtube_rules_witness :
  let P := transitionOf "youtube" [scanOf 0 0; scanOf 20000 500] 1 false in
  platform P = "youtube" /\ In EarlyViewJump (firedRules P)
  /\ In EarlyViewJump
        [EarlyViewJump; MetricAppeared; MetricGrewQuickly; SharesZeroToX;
         SavesZeroToX; ZeroLikes; MassiveCommentDrop; CommentInjection].
Proof.
  intro P.
  assert (Hp : platform P = "youtube") by reflexivity.
  assert (Hf : In EarlyViewJump (firedRules P)) by (vm_compute; tauto).
  split; [exact Hp|]. split; [exact Hf|].
  exact (youtube_rules P EarlyViewJump Hp Hf).
Defined.

(** X11: on snapchat no rule on likes can fire (views doubled, views
    grew, likes spike, zero likes, like-ratio collapse), nor a TikTok
    rule. *)
Theorem snapchat_rules (P : Props) (r : Rule) :
  platform P = "snapchat" ->
  In r (firedRules P) ->
  In r [EarlyViewJump; MetricAppeared; MetricGrewQuickly; SharesZeroToX;
        SavesZeroToX; SnapchatUltraLowEngagement; MassiveCommentDrop;
        CommentJumpViewsFlat; CommentInjection; PlateauJumpPlateau;
        SmallPlateauStep].
Proof.
  intros Hp H. apply firedRules_blocks in H.
  assert (Ht : platform P <> "tiktok") by (rewrite Hp; discriminate).
  rewrite (likesAnomalies_unliked P (or_intror Hp)),
    (likeRatioCollapse_unliked P (or_intror Hp)),
    (proj1 (tiktok_blocks_idle P Ht)), (proj2 (tiktok_blocks_idle P Ht)) in H.
  assert (Hz : St.fired (zeroLikes P St.init) = []).
  { apply zeroLikes_idle. rewrite Hp. reflexivity. }
  rewrite Hz in H. simpl in H.
  repeat (destruct H as [H|H]); try contradiction; by_tags P.
Qed.

Lemma snapchat_rules_witness :
  platform snapchatQuiet = "snapchat"
  /\ In SnapchatUltraLowEngagement (firedRules snapchatQuiet)
  /\ In SnapchatUltraLowEngagement
        [EarlyViewJump; MetricAppeared; MetricGrewQuickly; SharesZeroToX;
         SavesZeroToX; SnapchatUltraLowEngagement; MassiveCommentDrop;
         CommentJumpViewsFlat; CommentInjection; PlateauJumpPlateau;
         SmallPlateauStep].
Proof.
  assert (Hp : platform snapchatQuiet = "snapchat") by reflexivity.
  assert (Hf : In SnapchatUltraLowEngagement (firedRules snapchatQuiet))
    by (vm_compute; tauto).
  split; [exact Hp|]. split; [exact Hf|].
  exact (snapchat_rules snapchatQuiet SnapchatUltraLowEngagement Hp Hf).
Defined.

Lemma likesAnomalies_immature (P : Props) (r : Rule) :
  matureScan P = false ->
  In r (map fst (St.fired (likesAnomalies P St.init))) -> r = ViewsDoubledLikesFlat.
Proof.
  intros G. unfold likesAnomalies. rewrite G. cbv beta zeta. simpl andb.
  repeat match goal with
         | |- context [if ?b then _ else _] => destruct b
         end;
    simpl; intuition congruence.
Qed.

(** X12: on a call that is not a mature transition (no [scanIndex], or
    an index below 1) only the rules that do not look at the index can
    fire: views doubled with likes flat, the two TikTok rules, the
    Snapchat rule and the two window rules; without a [scanIndex] the
    window rules cannot fire either. *)
Theorem immature_rules (P : Props) (r : Rule) :
  matureScan P = false ->
  In r (firedRules P) ->
  In r [ViewsDoubledLikesFlat; TikTokZeroSaves; TikTokZeroShares;
        SnapchatUltraLowEngagement; PlateauJumpPlateau; SmallPlateauStep]
  /\ (scanIndex P = None ->
      In r [ViewsDoubledLikesFlat; TikTokZeroSaves; TikTokZeroShares;
            SnapchatUltraLowEngagement]).
Proof.
  intros Hm H. apply firedRules_blocks in H.
  assert (E1 : earlyViewJump P St.init = St.init)
    by (unfold earlyViewJump; now rewrite Hm).
  assert (E2 : sharesSavesGrowth P St.init = St.init)
    by (unfold sharesSavesGrowth; now rewrite Hm).
  assert (E3 : sharesZeroToX P St.init = St.init)
    by (unfold sharesZeroToX; now rewrite Hm).
  assert (E4 : savesZeroToX P St.init = St.init)
    by (unfold savesZeroToX; now rewrite Hm).
  assert (E5 : St.fired (zeroLikes P St.init) = [])
    by (rewrite zeroLikes_fired; now rewrite Hm).
  assert (E6 : likeRatioCollapse P St.init = St.init)
    by (unfold likeRatioCollapse; now rewrite Hm, andb_false_r).
  assert (E7 : St.fired (massiveCommentDrop P St.init) = [])
    by (rewrite massiveCommentDrop_fired; now rewrite Hm).
  assert (E8 : St.fired (commentJumpViewsFlat P St.init) = [])
    by (rewrite commentJumpViewsFlat_fired; now rewrite Hm, andb_false_r).
  assert (E9 : St.fired (commentInjection P St.init) = [])
    by (rewrite commentInjection_fired; now rewrite Hm).
  rewrite E1, E2, E3, E4, E5, E6, E7, E8, E9 in H. simpl in H.
  split.
  - repeat (destruct H as [H|H]); try contradiction;
      try (apply (likesAnomalies_immature P r Hm) in H; subst r; simpl; tauto);
      by_tags P.
  - intro Hi.
    rewrite (plateauPatternDetection_idle P (or_intror (or_introl Hi))) in H.
    simpl in H.
    repeat (destruct H as [H|H]); try contradiction;
      try (apply (likesAnomalies_immature P r Hm) in H; subst r; simpl; tauto);
      by_tags P.
Qed.

Lemma immature_rules_witness :
  matureScan tiktokNoSaves = false
  /\ scanIndex tiktokNoSaves = None
  /\ In TikTokZeroSaves (firedRules tiktokNoSaves)
  /\ In TikTokZeroSaves
        [ViewsDoubledLikesFlat; TikTokZeroSaves; TikTokZeroShares;
         SnapchatUltraLowEngagement].
Proof.
  assert (Hm : matureScan tiktokNoSaves = false) by reflexivity.
  assert (Hi : scanIndex tiktokNoSaves = None) by reflexivity.
  assert (Hf : In TikTokZeroSaves (firedRules tiktokNoSaves)) by (vm_compute; tauto).
  split; [exact Hm|]. split; [exact Hi|]. split; [exact Hf|].
  exact (proj2 (immature_rules tiktokNoSaves TikTokZeroSaves Hm Hf) Hi).
Defined.

(** ** The [logNotes] option *)

Lemma Silent_id : Silent (fun st => st).
Proof. intro st. reflexivity. Qed.

Lemma Silent_flag r msg : Silent (flag r msg).
Proof. intro st. reflexivity. Qed.

Lemma Silent_flagSilently r : Silent (flagSilently r).
Proof. intro st. reflexivity. Qed.

Lemma Silent_comp (f g : St.t -> St.t) :
  Silent f -> Silent g -> Silent (fun st => g (f st)).
Proof. intros Hf Hg st. now rewrite Hg, Hf. Qed.

Lemma Silent_if (b : bool) (f g : St.t -> St.t) :
  Silent f -> Silent g -> Silent (fun st => if b then f st else g st).
Proof. intros Hf Hg st. destruct b; [apply Hf | apply Hg]. Qed.

Ltac silent_basic :=
  match goal with
  | |- Silent (fun st => st) => apply Silent_id
  | |- Silent (fun st => if ?b then @?f st else @?g st) => apply (Silent_if b f g)
  | |- Silent (fun st => flag ?r ?m (@?f st)) =>
      apply (Silent_comp f (flag r m)); [ | apply Silent_flag ]
  | |- Silent (fun st => flagSilently ?r (@?f st)) =>
      apply (Silent_comp f (flagSilently r)); [ | apply Silent_flagSilently ]
  end.

Lemma Silent_checkAnomaly P name c p vg th : Silent (checkAnomaly P name c p vg th).
Proof. unfold checkAnomaly. cbv beta zeta. repeat silent_basic. Qed.

Ltac silent :=
  cbv beta zeta;
  repeat
    first
      [ silent_basic
      | match goal with
        | |- Silent (fun st => checkAnomaly ?P ?n ?c ?p ?vg ?th (@?f st)) =>
            apply (Silent_comp f (checkAnomaly P n c p vg th));
            [ | apply Silent_checkAnomaly ]
        end ].

Lemma Silent_plateauPatternDetection P : Silent (plateauPatternDetection P).
Proof.
  intro st. rewrite plateauPatternDetection_eq.
  destruct (allScans P) as [l|]; [|reflexivity].
  destruct (scanIndex P) as [i|]; [|reflexivity].
  destruct (negb (platform P =? "youtube")%string && (Z.of_nat (List.length l) >=? 6));
    [|reflexivity].
  revert st. change (Silent (windowRules (window l i))). unfold windowRules. silent.
Qed.

Lemma Silent_earlyViewJump P : Silent (earlyViewJump P).
Proof. unfold earlyViewJump. silent. Qed.

Lemma Silent_likesAnomalies P : Silent (likesAnomalies P).
Proof. unfold likesAnomalies. silent. Qed.

Lemma Silent_sharesSavesGrowth P : Silent (sharesSavesGrowth P).
Proof. unfold sharesSavesGrowth. silent. Qed.

Lemma Silent_sharesZeroToX P : Silent (sharesZeroToX P).
Proof. unfold sharesZeroToX. silent. Qed.

Lemma Silent_savesZeroToX P : Silent (savesZeroToX P).
Proof. unfold savesZeroToX. silent. Qed.

Lemma Silent_tiktokZeroSaves P : Silent (tiktokZeroSaves P).
Proof. unfold tiktokZeroSaves. silent. Qed.

Lemma Silent_tiktokZeroShares P : Silent (tiktokZeroShares P).
Proof. unfold tiktokZeroShares. silent. Qed.

Lemma Silent_zeroLikes P : Silent (zeroLikes P).
Proof. unfold zeroLikes. silent. Qed.

Lemma Silent_snapchatUltraLowEngagement P : Silent (snapchatUltraLowEngagement P).
Proof. unfold snapchatUltraLowEngagement. silent. Qed.

Lemma Silent_likeRatioCollapse P : Silent (likeRatioCollapse P).
Proof. unfold likeRatioCollapse. silent. Qed.

Lemma Silent_massiveCommentDrop P : Silent (massiveCommentDrop P).
Proof. unfold massiveCommentDrop. silent. Qed.

Lemma Silent_commentJumpViewsFlat P : Silent (commentJumpViewsFlat P).
Proof. unfold commentJumpViewsFlat. silent. Qed.

Lemma Silent_commentInjection P : Silent (commentInjection P).
Proof. unfold commentInjection. silent. Qed.

Create HintDb silence.
#[local] Hint Resolve Silent_earlyViewJump Silent_likesAnomalies
  Silent_sharesSavesGrowth Silent_sharesZeroToX Silent_savesZeroToX
  Silent_tiktokZeroSaves Silent_tiktokZeroShares Silent_zeroLikes
  Silent_snapchatUltraLowEngagement Silent_likeRatioCollapse
  Silent_massiveCommentDrop Silent_commentJumpViewsFlat Silent_commentInjection
  Silent_plateauPatternDetection : silence.

Ltac silent_pipeline :=
  repeat
    match goal with
    | |- Silent (fun st => st) => apply Silent_id
    | |- Silent (fun st => ?g (@?f st)) =>
        apply (Silent_comp f g); [ | solve [eauto with silence] ]
    end.

Lemma Silent_rulesBeforeNotes P : Silent (rulesBeforeNotes P).
Proof. unfold rulesBeforeNotes. silent_pipeline. Qed.

Lemma Silent_rulesAfterNotes P : Silent (rulesAfterNotes P).
Proof. unfold rulesAfterNotes. silent_pipeline. Qed.

Lemma Block_rulesAfterNotes P : Block allRules (rulesAfterNotes P).
Proof. unfold rulesAfterNotes. pipeline. Qed.

Lemma runRules_split (P : Props) :
  runRules P = rulesAfterNotes P (commentNotes P (rulesBeforeNotes P St.init)).
Proof. reflexivity. Qed.

(** The note block leaves everything but the console alone. *)
Lemma commentNotes_keeps (P : Props) (st : St.t) :
  St.shouldReject (commentNotes P st) = St.shouldReject st
  /\ St.bottedReason (commentNotes P st) = St.bottedReason st
  /\ St.fired (commentNotes P st) = St.fired st.
Proof.
  unfold commentNotes. cbv zeta.
  repeat match goal with
         | |- context [if ?b then _ else _] => destruct b
         end; repeat split; reflexivity.
Qed.

Lemma commentNotes_console (P : Props) (st : St.t) :
  logNotes P = false \/ views (currentScan P) <= 5000 ->
  St.console (commentNotes P st) = St.console st.
Proof.
  intro H. unfold commentNotes. cbv zeta.
  destruct (logNotes P && (views (currentScan P) >? 5000)) eqn:E; [|reflexivity].
  apply andb_true_iff in E. destruct E as [E1 E2]. apply Z.gtb_lt in E2.
  destruct H; [congruence | lia].
Qed.

Lemma respond_after_notes (P Q : Props) (st : St.t) :
  respond (rulesAfterNotes P (commentNotes Q st)) = respond (rulesAfterNotes P st).
Proof.
  destruct (Block_rulesAfterNotes P) as (A & _).
  rewrite (A (commentNotes Q st)), (A st).
  destruct (commentNotes_keeps Q st) as (H1 & H2 & _).
  unfold respond, st_app. simpl. now rewrite H1, H2.
Qed.

Lemma rulesBeforeNotes_ignore_logNotes (P : Props) (b : bool) :
  rulesBeforeNotes (withLogNotes b P) = rulesBeforeNotes P.
Proof.
  assert (E1 : earlyViewJump (withLogNotes b P) = earlyViewJump P)
    by (destruct P; reflexivity).
  assert (E2 : likesAnomalies (withLogNotes b P) = likesAnomalies P)
    by (destruct P; reflexivity).
  assert (E3 : sharesSavesGrowth (withLogNotes b P) = sharesSavesGrowth P)
    by (destruct P; reflexivity).
  assert (E4 : sharesZeroToX (withLogNotes b P) = sharesZeroToX P)
    by (destruct P; reflexivity).
  assert (E5 : savesZeroToX (withLogNotes b P) = savesZeroToX P)
    by (destruct P; reflexivity).
  assert (E6 : tiktokZeroSaves (withLogNotes b P) = tiktokZeroSaves P)
    by (destruct P; reflexivity).
  assert (E7 : tiktokZeroShares (withLogNotes b P) = tiktokZeroShares P)
    by (destruct P; reflexivity).
  assert (E8 : zeroLikes (withLogNotes b P) = zeroLikes P)
    by (destruct P; reflexivity).
  assert (E9 : snapchatUltraLowEngagement (withLogNotes b P)
               = snapchatUltraLowEngagement P)
    by (destruct P; reflexivity).
  unfold rulesBeforeNotes. now rewrite E1, E2, E3, E4, E5, E6, E7, E8, E9.
Qed.

Lemma rulesAfterNotes_ignore_logNotes (P : Props) (b : bool) :
  rulesAfterNotes (withLogNotes b P) = rulesAfterNotes P.
Proof.
  assert (E1 : likeRatioCollapse (withLogNotes b P) = likeRatioCollapse P)
    by (destruct P; reflexivity).
  assert (E2 : massiveCommentDrop (withLogNotes b P) = massiveCommentDrop P)
    by (destruct P; reflexivity).
  assert (E3 : commentJumpViewsFlat (withLogNotes b P) = commentJumpViewsFlat P)
    by (destruct P; reflexivity).
  assert (E4 : commentInjection (withLogNotes b P) = commentInjection P)
    by (destruct P; reflexivity).
  assert (E5 : plateauPatternDetection (withLogNotes b P) = plateauPatternDetection P)
    by (destruct P; reflexivity).
  unfold rulesAfterNotes. now rewrite E1, E2, E3, E4, E5.
Qed.

(** X13: the [logNotes] option never changes the response: with and
    without it [detectBotAlgo] returns the same [shouldReject] and
    [bottedReason].  It only adds console lines, and none at all when
    the option is off or the current scan has at most 5000 views. *)
Theorem logNotes_only_writes_to_the_console (P : Props) (b : bool) :
  detectBotAlgo (withLogNotes b P) = detectBotAlgo P
  /\ (logNotes P = false \/ views (currentScan P) <= 5000 ->
      St.console (runRules P) = []).
Proof.
  split.
  - unfold detectBotAlgo. rewrite !runRules_split.
    rewrite rulesBeforeNotes_ignore_logNotes, rulesAfterNotes_ignore_logNotes.
    now rewrite !respond_after_notes.
  - intro H. rewrite runRules_split, Silent_rulesAfterNotes,
      (commentNotes_console P _ H), Silent_rulesBeforeNotes.
    reflexivity.
Qed.

Lemma logNotes_only_writes_to_the_console_witness :
  let P := transitionOf "tiktok" [scanOf 1000 50; scanOf 2100 60] 1 true in
  views (currentScan P) <= 5000 /\ St.console (runRules P) = [].
Proof.
  intro P.
  assert (H : views (currentScan P) <= 5000) by (simpl; lia).
  split; [exact H|].
  exact (proj2 (logNotes_only_writes_to_the_console P true) (or_intror H)).
Defined.

(** ** The 0-to-X rules and the generic growth check *)

Lemma Qlt_times2 (a b : Z) : (a <? b * 2)%Q = (a <? b * 2).
Proof.
  apply eq_true_iff_eq. rewrite Qltb_lt, Z.ltb_lt.
  unfold Qlt, Qmult, inject_Z. simpl. lia.
Qed.

Lemma checkAnomaly_appeared (P : Props) (name : string) (c : Z) :
  c >= 10 -> views (currentScan P) < views (prevScan P) * 2 ->
  checkAnomaly P name c 0 2 10 St.init
  = flag MetricAppeared
         (name ++ " appeared (0→" ++ showZ c
            ++ ") without corresponding jump in views") St.init.
Proof.
  intros Hc Hv. unfold checkAnomaly. cbv zeta.
  rewrite Qlt_times2.
  replace (c >=? 10) with true by (symmetry; apply Z.geb_le; lia).
  replace (views (currentScan P) <? views (prevScan P) * 2) with true
    by (symmetry; apply Z.ltb_lt; lia).
  reflexivity.
Qed.

Lemma sharesZeroToX_fired (P : Props) :
  St.fired (sharesZeroToX P St.init) =
  if matureScan P && negb (glitchShares P) && (shares (prevScan P) =? 0)
     && (shares (currentScan P) >=? 10)
     && (views (currentScan P) <? views (prevScan P) * 2)
  then [(SharesZeroToX,
         Some "shares appeared (0→X) without corresponding jump in views")]
  else [].
Proof.
  unfold sharesZeroToX. cbv zeta. destruct (matureScan P); [|reflexivity].
  destruct (glitchShares P) eqn:G; [reflexivity|].
  unfold glitchShares in G. rewrite (no_glitch_raw_pair P Shares G).
  cbn [negb andb rawPair bridged].
  destruct (shares (prevScan P) =? 0); [|reflexivity].
  destruct (shares (currentScan P) >=? 10); [|reflexivity].
  destruct (views (currentScan P) <? views (prevScan P) * 2); reflexivity.
Qed.

Lemma savesZeroToX_fired (P : Props) :
  St.fired (savesZeroToX P St.init) =
  if matureScan P && negb (glitchSaves P) && (saves (prevScan P) =? 0)
     && (saves (currentScan P) >=? 10)
     && (views (currentScan P) <? views (prevScan P) * 2)
  then [(SavesZeroToX,
         Some "saves appeared (0→X) without corresponding jump in views")]
  else [].
Proof.
  unfold savesZeroToX. cbv zeta. destruct (matureScan P); [|reflexivity].
  destruct (glitchSaves P) eqn:G; [reflexivity|].
  unfold glitchSaves in G. rewrite (no_glitch_raw_pair P Saves G).
  cbn [negb andb rawPair bridged].
  destruct (saves (prevScan P) =? 0); [|reflexivity].
  destruct (saves (currentScan P) >=? 10); [|reflexivity].
  destruct (views (currentScan P) <? views (prevScan P) * 2); reflexivity.
Qed.

Lemma sharesSavesGrowth_shares_appeared (P : Props) :
  matureScan P = true -> glitchShares P = false ->
  shares (prevScan P) = 0 -> shares (currentScan P) >= 10 ->
  views (currentScan P) < views (prevScan P) * 2 ->
  In (MetricAppeared,
      Some ("shares appeared (0→" ++ showZ (shares (currentScan P))
              ++ ") without corresponding jump in views"))
     (St.fired (sharesSavesGrowth P St.init)).
Proof.
  intros Hm G Hp Hc Hv. unfold sharesSavesGrowth. rewrite Hm, G. cbv zeta.
  cbn [negb]. unfold glitchShares in G. rewrite (no_glitch_raw_pair P Shares G).
  cbn [rawPair prev curr metric]. rewrite Hp.
  rewrite (checkAnomaly_appeared P "shares" _ Hc Hv).
  set (e := (MetricAppeared, _)).
  assert (H1 : forall vg th st, In e (St.fired st) ->
                 In e (St.fired (checkAnomaly P "shares" (shares (currentScan P)) 0
                                   vg th st))).
  { intros vg th st H.
    rewrite (fired_block [MetricAppeared; MetricGrewQuickly] _ st)
      by (apply Block_checkAnomaly; simpl; tauto).
    apply in_or_app. now left. }
  assert (H2 : forall name c p vg th st, In e (St.fired st) ->
                 In e (St.fired (checkAnomaly P name c p vg th st))).
  { intros name c p vg th st H.
    rewrite (fired_block [MetricAppeared; MetricGrewQuickly] _ st)
      by (apply Block_checkAnomaly; simpl; tauto).
    apply in_or_app. now left. }
  destruct (negb (glitchSaves P)).
  - apply H2, H2, H1. simpl. now left.
  - apply H1. simpl. now left.
Qed.

Lemma sharesSavesGrowth_saves_appeared (P : Props) :
  matureScan P = true -> glitchSaves P = false ->
  saves (prevScan P) = 0 -> saves (currentScan P) >= 10 ->
  views (currentScan P) < views (prevScan P) * 2 ->
  In (MetricAppeared,
      Some ("saves appeared (0→" ++ showZ (saves (currentScan P))
              ++ ") without corresponding jump in views"))
     (St.fired (sharesSavesGrowth P St.init)).
Proof.
  intros Hm G Hp Hc Hv. unfold sharesSavesGrowth. rewrite Hm, G. cbv zeta.
  cbn [negb]. unfold glitchSaves in G. rewrite (no_glitch_raw_pair P Saves G).
  cbn [rawPair prev curr metric]. rewrite Hp.
  set (e := (MetricAppeared, _)).
  set (st1 := if negb (glitchShares P) then _ else St.init).
  rewrite (fired_block [MetricAppeared; MetricGrewQuickly]
             (checkAnomaly P "saves" (saves (currentScan P)) 0 1.2 3))
    by (apply Block_checkAnomaly; simpl; tauto).
  apply in_or_app. left.
  rewrite (fired_block [MetricAppeared; MetricGrewQuickly]
             (checkAnomaly P "saves" (saves (currentScan P)) 0 2 10))
    by (apply Block_checkAnomaly; simpl; tauto).
  apply in_or_app. right.
  rewrite (checkAnomaly_appeared P "saves" _ Hc Hv). simpl. now left.
Qed.

(** X14: the dedicated "shares appeared (0→X)" and "saves appeared
    (0→X)" rules never fire alone: whenever one fires, the generic
    growth check has fired on the same metric, so [bottedReason] also
    carries the fragment "<metric> appeared (0→n) without corresponding
    jump in views" with the current value [n]. *)
Theorem zero_to_x_rules_never_fire_alone (P : Props) :
  (In SharesZeroToX (firedRules P) ->
   In MetricAppeared (firedRules P)
   /\ exists before after,
        bottedReason (detectBotAlgo P)
        = before ++ nl
            ++ ("shares appeared (0→" ++ showZ (shares (currentScan P))
                  ++ ") without corresponding jump in views")
            ++ after)
  /\ (In SavesZeroToX (firedRules P) ->
      In MetricAppeared (firedRules P)
      /\ exists before after,
           bottedReason (detectBotAlgo P)
           = before ++ nl
               ++ ("saves appeared (0→" ++ showZ (saves (currentScan P))
                     ++ ") without corresponding jump in views")
               ++ after).
Proof.
  split.
  - intro H.
    assert (Hown : forall m, In (SharesZeroToX, m) (St.fired (runRules P))
                             <-> In (SharesZeroToX, m)
                                    (St.fired (sharesZeroToX P St.init)))
      by own_block P.
    destruct (guarded_site P _ _ _ _ Hown (sharesZeroToX_fired P)) as [G _].
    apply G in H. rewrite !andb_true_iff, negb_true_iff in H.
    destruct H as ((((Hm & Hg) & Hp) & Hc) & Hv).
    apply Z.eqb_eq in Hp. apply Z.geb_le in Hc. apply Z.ltb_lt in Hv.
    assert (Hin : In (MetricAppeared,
                      Some ("shares appeared (0→" ++ showZ (shares (currentScan P))
                              ++ ") without corresponding jump in views"))
                     (St.fired (runRules P))).
    { apply fired_runRules_in. right. right. left.
      apply sharesSavesGrowth_shares_appeared; auto; lia. }
    split.
    + unfold firedRules. apply in_map_iff. eexists. split; [|exact Hin]. reflexivity.
    + now apply (fragment_in_response P MetricAppeared).
  - intro H.
    assert (Hown : forall m, In (SavesZeroToX, m) (St.fired (runRules P))
                             <-> In (SavesZeroToX, m)
                                    (St.fired (savesZeroToX P St.init)))
      by own_block P.
    destruct (guarded_site P _ _ _ _ Hown (savesZeroToX_fired P)) as [G _].
    apply G in H. rewrite !andb_true_iff, negb_true_iff in H.
    destruct H as ((((Hm & Hg) & Hp) & Hc) & Hv).
    apply Z.eqb_eq in Hp. apply Z.geb_le in Hc. apply Z.ltb_lt in Hv.
    assert (Hin : In (MetricAppeared,
                      Some ("saves appeared (0→" ++ showZ (saves (currentScan P))
                              ++ ") without corresponding jump in views"))
                     (St.fired (runRules P))).
    { apply fired_runRules_in. right. right. left.
      apply sharesSavesGrowth_saves_appeared; auto; lia. }
    split.
    + unfold firedRules. apply in_map_iff. eexists. split; [|exact Hin]. reflexivity.
    + now apply (fragment_in_response P MetricAppeared).
Qed.

Lemma zero_to_x_rules_never_fire_alone_witness :
  let P := transitionOf "facebook"
             [mkScan 1000 5 0 0 0 false; mkScan 1100 6 0 25 0 false] 1 false in
  In SharesZeroToX (firedRules P) /\ In MetricAppeared (firedRules P).
Proof.
  intro P.
  assert (H : In SharesZeroToX (firedRules P)) by (vm_compute; tauto).
  split; [exact H|].
  exact (proj1 (proj1 (zero_to_x_rules_never_fire_alone P) H)).
Defined.

(** ** The window rules *)

Lemma smallPlateauStepGuard_six (a0 a1 a2 a3 a4 a5 : ScanData) :
  smallPlateauStepGuard [a0; a1; a2; a3; a4; a5] = true
  <-> Z.abs (views a0 - views a1) <= 30
      /\ views a2 - views a1 >= 300
      /\ views a3 - views a2 >= 500
      /\ views a3 - views a2 > views a2 - views a1
      /\ Z.abs (views a3 - views a4) <= 30
      /\ Z.abs (views a4 - views a5) <= 30.
Proof.
  unfold smallPlateauStepGuard, isPlateau. cbv zeta. simpl nth_error.
  cbn [slotViews]. rewrite !orElse_0.
  rewrite !andb_true_iff, !Z.leb_le, !Z.geb_le, Z.gtb_lt. intuition lia.
Qed.

(** X15: on a platform other than youtube, for a series of at least 6
    scans with window views [w0..w5], the small-plateau-step rule fires
    exactly when [|w0-w1| <= 30], [w2-w1 >= 300], [w3-w2 >= 500] with
    [w3-w2 > w2-w1], [|w3-w4| <= 30] and [|w4-w5| <= 30]; it then
    rejects and [bottedReason] carries the fragment "small plateau-step
    pattern: plateau → small jump (+a) → jump (+b) → plateau (views: w0
    → w1 → w2 → w3 → w4 → w5)" with [a = w2-w1], [b = w3-w2] and the six
    values in decimal. *)
Theorem smallPlateauStep_exact
    (P : Props) (l : list ScanData) (i w0 w1 w2 w3 w4 w5 : Z) :
  platform P <> "youtube" ->
  allScans P = Some l ->
  (6 <= List.length l)%nat ->
  scanIndex P = Some i ->
  map views (window l i) = [w0; w1; w2; w3; w4; w5] ->
  (In SmallPlateauStep (firedRules P)
   <-> Z.abs (w0 - w1) <= 30 /\ w2 - w1 >= 300 /\ w3 - w2 >= 500
       /\ w3 - w2 > w2 - w1 /\ Z.abs (w3 - w4) <= 30 /\ Z.abs (w4 - w5) <= 30)
  /\ (In SmallPlateauStep (firedRules P) ->
      shouldReject (detectBotAlgo P) = true
      /\ exists before after,
           bottedReason (detectBotAlgo P)
           = before ++ nl
               ++ ("small plateau-step pattern: plateau → small jump (+"
                     ++ showZ (w2 - w1) ++ ") → jump (+" ++ showZ (w3 - w2)
                     ++ ") → plateau (views: "
                     ++ showZ w0 ++ " → " ++ showZ w1 ++ " → " ++ showZ w2 ++ " → "
                     ++ showZ w3 ++ " → " ++ showZ w4 ++ " → " ++ showZ w5 ++ ")")
               ++ after).
Proof.
  intros Hy Hl Hlen Hi Hw.
  destruct (window l i) as [|a0 [|a1 [|a2 [|a3 [|a4 [|a5 [|a6 rest]]]]]]] eqn:W;
    try discriminate Hw.
  simpl in Hw. inversion Hw; subst w0 w1 w2 w3 w4 w5; clear Hw.
  assert (E : St.fired (plateauPatternDetection P St.init)
              = St.fired (windowRules [a0; a1; a2; a3; a4; a5] St.init)).
  { rewrite plateauPatternDetection_eq, Hl, Hi, W.
    apply String.eqb_neq in Hy. rewrite Hy.
    replace (Z.of_nat (List.length l) >=? 6) with true
      by (symmetry; apply Z.geb_le; lia).
    reflexivity. }
  assert (F : forall m,
            In (SmallPlateauStep, m) (St.fired (runRules P))
            <-> smallPlateauStepGuard [a0; a1; a2; a3; a4; a5] = true
                /\ m = Some (stepMessage (views a2 - views a1) (views a3 - views a2)
                               (views a0) (views a1) (views a2)
                               (views a3) (views a4) (views a5))).
  { intro m.
    rewrite (fires_plateauPatternDetection P SmallPlateauStep m) by (simpl; tauto).
    rewrite E, fired_windowRules. cbv zeta. simpl nth_error. cbn [slotViews].
    rewrite !orElse_0.
    destruct (plateauJumpPlateauGuard [a0; a1; a2; a3; a4; a5]),
             (smallPlateauStepGuard [a0; a1; a2; a3; a4; a5]);
      simpl; split; intro H; intuition (try discriminate; try congruence). }
  assert (G : In SmallPlateauStep (firedRules P)
              <-> smallPlateauStepGuard [a0; a1; a2; a3; a4; a5] = true).
  { unfold firedRules. rewrite in_map_iff. split.
    - intros ([r m] & Er & H). simpl in Er. subst r. now apply F in H.
    - intro H. eexists (_, _). split; [reflexivity|]. apply F.
      split; [exact H|reflexivity]. }
  split.
  - rewrite G. apply smallPlateauStepGuard_six.
  - intro H. apply (fragment_in_response P SmallPlateauStep).
    apply F. split; [now apply G | reflexivity].
Qed.

Lemma smallPlateauStep_exact_witness :
  (In SmallPlateauStep (firedRules (transitionOf "tiktok" stepSeries 3 false))
   /\ shouldReject (detectBotAlgo (transitionOf "tiktok" stepSeries 3 false)) = true
   /\ exists before after,
        bottedReason (detectBotAlgo (transitionOf "tiktok" stepSeries 3 false))
        = before ++ nl
            ++ "small plateau-step pattern: plateau → small jump (+390) → jump (+600) → plateau (views: 1000 → 1010 → 1400 → 2000 → 2005 → 1990)"
            ++ after)
  /\ ~ In SmallPlateauStep (firedRules (transitionOf "tiktok" plateauSeries 3 false)).
Proof.
  assert (Hy : "tiktok" <> "youtube") by discriminate.
  split.
  - assert (H : In SmallPlateauStep
                  (firedRules (transitionOf "tiktok" stepSeries 3 false))).
    { apply (proj1 (smallPlateauStep_exact
                      (transitionOf "tiktok" stepSeries 3 false) stepSeries 3
                      1000 1010 1400 2000 2005 1990
                      Hy eq_refl (le_n 6) eq_refl eq_refl)).
      lia. }
    split; [exact H|].
    exact (proj2 (smallPlateauStep_exact
                    (transitionOf "tiktok" stepSeries 3 false) stepSeries 3
                    1000 1010 1400 2000 2005 1990
                    Hy eq_refl (le_n 6) eq_refl eq_refl) H).
  - intro H.
    apply (proj1 (smallPlateauStep_exact
                    (transitionOf "tiktok" plateauSeries 3 false) plateauSeries 3
                    1000 1010 995 1600 1605 1590
                    Hy eq_refl (le_n 6) eq_refl eq_refl)) in H.
    lia.
Defined.

(** X16: for a series of at least 6 scans and a transition index [i]
    inside it, the window is a contiguous run of exactly 6 scans of the
    series that contains both scan [i-1] and scan [i]. *)
Theorem window_covers_the_transition (l : list ScanData) (i : Z) :
  (6 <= List.length l)%nat ->
  1 <= i < Z.of_nat (List.length l) ->
  let start := windowStart l i in
  List.length (window l i) = 6%nat
  /\ 0 <= start <= i - 1 /\ i <= start + 5
  /\ start + 6 <= Z.of_nat (List.length l)
  /\ (forall k, (k < 6)%nat ->
        nth_error (window l i) k = nth_error l (Z.to_nat start + k))
  /\ nth_error (window l i) (Z.to_nat (i - 1 - start)) = index l (i - 1)
  /\ nth_error (window l i) (Z.to_nat (i - start)) = index l i.
Proof.
  intros Hlen Hi start.
  assert (Hs : 0 <= start <= i - 1 /\ i <= start + 5
               /\ start + 6 <= Z.of_nat (List.length l))
    by (unfold start, windowStart; lia).
  assert (Hk : forall k, (k < 6)%nat ->
                 nth_error (window l i) k = nth_error l (Z.to_nat start + k)).
  { intros k Hk. rewrite window_firstn_skipn. fold (windowStart l i). fold start.
    rewrite nth_error_firstn.
    replace (k <? 6)%nat with true by (symmetry; apply Nat.ltb_lt; lia).
    apply nth_error_skipn. }
  split; [now apply window_length|].
  split; [tauto|]. split; [tauto|]. split; [tauto|]. split; [exact Hk|].
  unfold index.
  replace (i - 1 <? 0) with false by (symmetry; apply Z.ltb_ge; lia).
  replace (i <? 0) with false by (symmetry; apply Z.ltb_ge; lia).
  split.
  - rewrite Hk by lia. f_equal. lia.
  - rewrite Hk by lia. f_equal. lia.
Qed.

Lemma window_covers_the_transition_witness :
  List.length (window plateauSeries 3) = 6%nat
  /\ nth_error (window plateauSeries 3) (Z.to_nat (3 - windowStart plateauSeries 3))
     = index plateauSeries 3.
Proof.
  destruct (window_covers_the_transition plateauSeries 3 (le_n 6))
    as (H1 & _ & _ & _ & _ & _ & H2).
  - simpl. lia.
  - split; [exact H1 | exact H2].
Defined.

(** X17: the window rules need a platform other than youtube, a scan
    index and a series of at least 6 scans: otherwise neither the
    plateau-jump-plateau rule nor the small-plateau-step rule fires. *)
Theorem window_rules_need_six_scans (P : Props) (r : Rule) :
  platform P = "youtube" \/ scanIndex P = None \/ allScans P = None
  \/ (exists l, allScans P = Some l /\ (List.length l < 6)%nat) ->
  In r [PlateauJumpPlateau; SmallPlateauStep] ->
  ~ In r (firedRules P).
Proof.
  intros H Hr Hf. apply firedRules_blocks in Hf.
  rewrite (plateauPatternDetection_idle P H) in Hf. simpl in Hf, Hr.
  destruct Hr as [<-|[<-|[]]]; other_blocks P; destruct Hf.
Qed.

Lemma window_rules_need_six_scans_witness :
  let P := transitionOf "tiktok" (firstn 5 plateauSeries) 3 false in
  (exists l, allScans P = Some l /\ (List.length l < 6)%nat)
  /\ ~ In PlateauJumpPlateau (firedRules P).
Proof.
  intro P.
  assert (H : exists l, allScans P = Some l /\ (List.length l < 6)%nat).
  { exists (firstn 5 plateauSeries). split; [reflexivity | simpl; lia]. }
  split; [exact H|].
  apply (window_rules_need_six_scans P PlateauJumpPlateau).
  - right. right. right. exact H.
  - simpl. tauto.
Defined.

(** ** Leading zero-view scans *)

Lemma countLeadingZeros_spec (l : list ScanData) :
  let c := countLeadingZeros l in
  0 <= c <= Z.of_nat (List.length l)
  /\ (forall k s, (k < Z.to_nat c)%nat -> nth_error l k = Some s -> views s = 0)
  /\ (forall s, nth_error l (Z.to_nat c) = Some s -> views s <> 0).
Proof.
  induction l as [|a l IH]; cbn [countLeadingZeros List.length].
  - split; [simpl; lia|]. split.
    + intros k s Hk. simpl in Hk. lia.
    + intros s H. discriminate.
  - rewrite orElse_0. destruct IH as (Hb & Hz & Hn).
    destruct (views a =? 0) eqn:E.
    + apply Z.eqb_eq in E. split; [lia|]. split.
      * intros k s Hk Hs. destruct k as [|k]; simpl in Hs.
        -- inversion Hs; subst. exact E.
        -- apply (Hz k s); [lia | exact Hs].
      * intros s Hs.
        replace (Z.to_nat (1 + countLeadingZeros l))
          with (S (Z.to_nat (countLeadingZeros l))) in Hs by lia.
        simpl in Hs. now apply Hn.
    + apply Z.eqb_neq in E. split; [lia|]. split.
      * intros k s Hk. simpl in Hk. lia.
      * intros s Hs. simpl in Hs. inversion Hs; subst. exact E.
Qed.

(** X18: [leadingZeroCount] is the length of the longest prefix of
    [allScans] whose scans all have zero views: it lies between 0 and
    the length of the series, every scan before it has zero views and
    the scan at that position, if any, has views; without [allScans]
    it is 0. *)
Theorem leadingZeroCount_is_the_zero_prefix (P : Props) :
  (allScans P = None -> leadingZeroCount P = 0)
  /\ (forall l, allScans P = Some l ->
        0 <= leadingZeroCount P <= Z.of_nat (List.length l)
        /\ (forall k s, (k < Z.to_nat (leadingZeroCount P))%nat ->
              nth_error l k = Some s -> views s = 0)
        /\ (forall s, nth_error l (Z.to_nat (leadingZeroCount P)) = Some s ->
              views s <> 0)).
Proof.
  unfold leadingZeroCount. split.
  - intros ->. reflexivity.
  - intros l ->. apply countLeadingZeros_spec.
Qed.

Lemma leadingZeroCount_is_the_zero_prefix_witness :
  let P := transitionOf "tiktok" [scanOf 0 0; scanOf 0 0; scanOf 700 3] 2 false in
  leadingZeroCount P = 2 /\ 0 <= leadingZeroCount P <= 3.
Proof.
  intro P. split; [reflexivity|].
  exact (proj1 (proj2 (leadingZeroCount_is_the_zero_prefix P) _ eq_refl)).
Defined.

(** ** The runner's copy never rejects more than the engine *)

Lemma fired_RunDetect_runRules (P : Props) :
  St.fired (RunDetect.runRules P) =
   (St.fired (likesAnomalies P St.init)
    ++ St.fired (sharesSavesGrowth P St.init)
    ++ St.fired (sharesZeroToX P St.init)
    ++ St.fired (savesZeroToX P St.init)
    ++ St.fired (zeroLikes P St.init)
    ++ St.fired (snapchatUltraLowEngagement P St.init)
    ++ St.fired (commentNotes P St.init)
    ++ St.fired (likeRatioCollapse P St.init)
    ++ St.fired (massiveCommentDrop P St.init)
    ++ St.fired (commentJumpViewsFlat P St.init)
    ++ St.fired (commentInjection P St.init)
    ++ St.fired (plateauPatternDetection P St.init))%list.
Proof.
  unfold RunDetect.runRules.
  rewrite (fired_block _ _ _ (Block_plateauPatternDetection P)).
  rewrite (fired_block _ _ _ (Block_commentInjection P)).
  rewrite (fired_block _ _ _ (Block_commentJumpViewsFlat P)).
  rewrite (fired_block _ _ _ (Block_massiveCommentDrop P)).
  rewrite (fired_block _ _ _ (Block_likeRatioCollapse P)).
  rewrite (fired_block _ _ _ (Block_commentNotes P)).
  rewrite (fired_block _ _ _ (Block_snapchatUltraLowEngagement P)).
  rewrite (fired_block _ _ _ (Block_zeroLikes P)).
  rewrite (fired_block _ _ _ (Block_savesZeroToX P)).
  rewrite (fired_block _ _ _ (Block_sharesZeroToX P)).
  rewrite (fired_block _ _ _ (Block_sharesSavesGrowth P)).
  now rewrite <- !app_assoc.
Qed.

Lemma RunDetect_fired_in_engine (P : Props) (e : Rule * option string) :
  In e (St.fired (RunDetect.runRules P)) -> In e (St.fired (runRules P)).
Proof.
  rewrite fired_RunDetect_runRules, fired_runRules, !in_app_iff. tauto.
Qed.

(** X19: the runner's copy of [detectBotAlgo] never rejects a
    transition that the engine copy accepts, and every fragment of its
    [bottedReason] is a fragment of the engine's: when the runner's
    [bottedReason] is not empty, neither is the engine's. *)
Theorem runner_rejects_only_what_the_engine_rejects (P : Props) :
  (shouldReject (RunDetect.detectBotAlgo P) = true ->
   shouldReject (detectBotAlgo P) = true)
  /\ (bottedReason (RunDetect.detectBotAlgo P) <> "" ->
      bottedReason (detectBotAlgo P) <> "").
Proof.
  destruct (RunDetect_runRules_coherent P) as [Hr Hs].
  destruct (response_trace P) as [Er Es].
  unfold RunDetect.detectBotAlgo, respond. cbn [shouldReject bottedReason].
  split.
  - rewrite Hs, Es. intro H.
    destruct (St.fired (RunDetect.runRules P)) as [|e rest] eqn:F; [discriminate|].
    assert (Hin : In e (St.fired (runRules P))).
    { apply RunDetect_fired_in_engine. rewrite F. now left. }
    destruct (St.fired (runRules P)); [destruct Hin | reflexivity].
  - rewrite Hr, Er. intros H E. apply H. apply render_empty_iff.
    intros e He. apply (proj1 (render_empty_iff _) E).
    now apply RunDetect_fired_in_engine.
Qed.

Lemma runner_rejects_only_what_the_engine_rejects_witness :
  shouldReject (RunDetect.detectBotAlgo snapchatQuiet) = true
  /\ shouldReject (detectBotAlgo snapchatQuiet) = true.
Proof.
  assert (H : shouldReject (RunDetect.detectBotAlgo snapchatQuiet) = true)
    by reflexivity.
  split; [exact H|].
  exact (proj1 (runner_rejects_only_what_the_engine_rejects snapchatQuiet) H).
Defined.

(** * Further properties of the run summarizers *)

Lemma Forall_cond (cond : ScanData -> bool) (Q : ScanData -> Prop) (b : bool)
    (l : list ScanData) :
  (forall s, Q s -> cond s = b) -> Forall Q l -> Forall (fun s => cond s = b) l.
Proof. intros H F. eapply Forall_impl; [|exact F]. exact H. Qed.

(** X20: for a series with exactly one maximal run of scans with
    [views > 5000] and [comments = 0], [summarizeZeroComments]
    (minViews 5000, minRun 3) returns exactly one line covering the run
    when the run has at least 3 scans, and no line otherwise. *)
Theorem summarizeZeroComments_single_run
    (pre run post : list ScanData) (platformTag : string) :
  Forall (fun s => ~ (views s > 5000 /\ comments s = 0)) pre ->
  Forall (fun s => views s > 5000 /\ comments s = 0) run ->
  run <> [] ->
  Forall (fun s => ~ (views s > 5000 /\ comments s = 0)) post ->
  let a := Z.of_nat (List.length pre) in
  let n := Z.of_nat (List.length run) in
  summarizeZeroComments (pre ++ run ++ post)%list platformTag 5000 3
  = if n >=? 3
    then ["Scans " ++ showZ (a + 1) ++ "–" ++ showZ (a + n)
            ++ ": zero comments across " ++ showZ n
            ++ " scans (5K+ views with 0 comments)"]
    else [].
Proof.
  intros Hpre Hrun Hne Hpost. unfold summarizeZeroComments.
  assert (T : forall s, views s > 5000 /\ comments s = 0 ->
                (views s >? 5000) && (comments s =? 0) = true).
  { intros s [H1 H2]. apply andb_true_iff. split;
      [apply Z.gtb_lt; lia | apply Z.eqb_eq; exact H2]. }
  assert (F : forall s, ~ (views s > 5000 /\ comments s = 0) ->
                (views s >? 5000) && (comments s =? 0) = false).
  { intros s H. apply not_true_iff_false. intro E. apply H.
    apply andb_true_iff in E. destruct E as [E1 E2].
    apply Z.gtb_lt in E1. apply Z.eqb_eq in E2. split; [lia | exact E2]. }
  apply (summarizeRuns_single_run
           (fun s => (views s >? 5000) && (comments s =? 0)) zeroCommentsLine 3).
  - exact (Forall_cond _ _ false pre F Hpre).
  - exact (Forall_cond _ _ true run T Hrun).
  - exact Hne.
  - exact (Forall_cond _ _ false post F Hpost).
Qed.

Lemma summarizeZeroComments_single_run_witness :
  summarizeZeroComments zeroCommentsSeries "tiktok" 5000 3
  = ["Scans 2–4: zero comments across 3 scans (5K+ views with 0 comments)"].
Proof.
  apply (summarizeZeroComments_single_run
           (firstn 1 zeroCommentsSeries)
           (firstn 3 (skipn 1 zeroCommentsSeries))
           (skipn 4 zeroCommentsSeries) "tiktok").
  - repeat constructor. simpl. intros [_ H]. discriminate.
  - repeat constructor; simpl; lia.
  - discriminate.
  - repeat constructor. simpl. intros [_ H]. discriminate.
Defined.

(** X21: for a series with exactly one maximal run of scans with
    [views > 5000] and fewer than one comment per 100 views,
    [summarizeLowCommentRatio] (minViews 5000, minRun 3, threshold
    0.01) returns exactly one line covering the run when the run has at
    least 3 scans, and no line otherwise. *)
Theorem summarizeLowCommentRatio_single_run
    (pre run post : list ScanData) (platformTag : string) :
  Forall (fun s => ~ (views s > 5000 /\ 100 * comments s < views s)) pre ->
  Forall (fun s => views s > 5000 /\ 100 * comments s < views s) run ->
  run <> [] ->
  Forall (fun s => ~ (views s > 5000 /\ 100 * comments s < views s)) post ->
  let a := Z.of_nat (List.length pre) in
  let n := Z.of_nat (List.length run) in
  summarizeLowCommentRatio (pre ++ run ++ post)%list platformTag 5000 3 0.01
  = if n >=? 3
    then ["Scans " ++ showZ (a + 1) ++ "–" ++ showZ (a + n)
            ++ ": low comment ratio across " ++ showZ n
            ++ " scans (5K+ views with <1.00% comment ratio)"]
    else [].
Proof.
  intros Hpre Hrun Hne Hpost. unfold summarizeLowCommentRatio.
  assert (R : forall s, views s > 5000 ->
                (quotientLt (comments s) (views s) 0.01 = true
                 <-> 100 * comments s < views s)).
  { intros s Hv. unfold quotientLt.
    destruct (views s) as [|p|p] eqn:E; try lia.
    cbn [Z.eqb]. rewrite Qltb_lt.
    unfold Qlt, Qdiv, Qmult, Qinv, inject_Z. cbn -[Z.mul Pos.mul]. lia. }
  assert (T : forall s, views s > 5000 /\ 100 * comments s < views s ->
                (views s >? 5000) && quotientLt (comments s) (views s) 0.01 = true).
  { intros s [H1 H2]. apply andb_true_iff. split;
      [apply Z.gtb_lt; lia | now apply R]. }
  assert (F : forall s, ~ (views s > 5000 /\ 100 * comments s < views s) ->
                (views s >? 5000) && quotientLt (comments s) (views s) 0.01 = false).
  { intros s H. apply not_true_iff_false. intro E. apply H.
    apply andb_true_iff in E. destruct E as [E1 E2].
    apply Z.gtb_lt in E1. split; [lia|]. apply R; [lia | exact E2]. }
  rewrite (summarizeRuns_single_run
             (fun s => (views s >? 5000) && quotientLt (comments s) (views s) 0.01)
             (lowCommentRatioLine 0.01) 3 pre run post
             (Forall_cond _ _ false pre F Hpre) (Forall_cond _ _ true run T Hrun)
             Hne (Forall_cond _ _ false post F Hpost)).
  reflexivity.
Qed.

Lemma summarizeLowCommentRatio_single_run_witness :
  summarizeLowCommentRatio zeroCommentsSeries "tiktok" 5000 3 0.01
  = ["Scans 1–5: low comment ratio across 5 scans (5K+ views with <1.00% comment ratio)"].
Proof.
  apply (summarizeLowCommentRatio_single_run [] zeroCommentsSeries [] "tiktok").
  - constructor.
  - repeat constructor; simpl; lia.
  - discriminate.
  - constructor.
Defined.

(** X22: [summarizeUltraLowEngagement] returns nothing for a platform
    other than snapchat; on snapchat, for a series with exactly one
    maximal run of scans with [views > 20000], [comments = 0] and
    [shares <= 1], it returns (minViews 20000, minRun 3) exactly one
    line covering the run when the run has at least 3 scans, and no
    line otherwise. *)
Theorem summarizeUltraLowEngagement_single_run
    (pre run post : list ScanData) (platformTag : string) :
  (platformTag <> "snapchat" ->
   forall scans minViews minRun,
     summarizeUltraLowEngagement scans platformTag minViews minRun = [])
  /\ (Forall (fun s => ~ (views s > 20000 /\ comments s = 0 /\ shares s <= 1)) pre ->
      Forall (fun s => views s > 20000 /\ comments s = 0 /\ shares s <= 1) run ->
      run <> [] ->
      Forall (fun s => ~ (views s > 20000 /\ comments s = 0 /\ shares s <= 1)) post ->
      let a := Z.of_nat (List.length pre) in
      let n := Z.of_nat (List.length run) in
      summarizeUltraLowEngagement (pre ++ run ++ post)%list "snapchat" 20000 3
      = if n >=? 3
        then ["Scans " ++ showZ (a + 1) ++ "–" ++ showZ (a + n)
                ++ ": ultra-low engagement across " ++ showZ n
                ++ " scans (20K+ views with 0 comments and ≤1 shares)"]
        else []).
Proof.
  split.
  - intros Hp scans minViews minRun. unfold summarizeUltraLowEngagement.
    apply String.eqb_neq in Hp. now rewrite Hp.
  - intros Hpre Hrun Hne Hpost. unfold summarizeUltraLowEngagement. cbn [negb].
    change (negb ("snapchat" =? "snapchat")%string) with false. cbv iota.
    assert (T : forall s, views s > 20000 /\ comments s = 0 /\ shares s <= 1 ->
                  (views s >? 20000) && (comments s =? 0) && (shares s <=? 1) = true).
    { intros s (H1 & H2 & H3). rewrite !andb_true_iff, Z.gtb_lt, Z.eqb_eq, Z.leb_le.
      repeat split; lia. }
    assert (F : forall s, ~ (views s > 20000 /\ comments s = 0 /\ shares s <= 1) ->
                  (views s >? 20000) && (comments s =? 0) && (shares s <=? 1) = false).
    { intros s H. apply not_true_iff_false. intro E. apply H.
      rewrite !andb_true_iff, Z.gtb_lt, Z.eqb_eq, Z.leb_le in E.
      repeat split; lia. }
    apply (summarizeRuns_single_run
             (fun s => (views s >? 20000) && (comments s =? 0) && (shares s <=? 1))
             ultraLowEngagementLine 3).
    + exact (Forall_cond _ _ false pre F Hpre).
    + exact (Forall_cond _ _ true run T Hrun).
    + exact Hne.
    + exact (Forall_cond _ _ false post F Hpost).
Qed.

Lemma summarizeUltraLowEngagement_single_run_witness :
  summarizeUltraLowEngagement ultraLowSeries "tiktok" 20000 3 = []
  /\ summarizeUltraLowEngagement ultraLowSeries "snapchat" 20000 3
     = ["Scans 1–3: ultra-low engagement across 3 scans (20K+ views with 0 comments and ≤1 shares)"].
Proof.
  split.
  - apply (proj1 (summarizeUltraLowEngagement_single_run [] [] [] "tiktok")).
    discriminate.
  - apply (proj2 (summarizeUltraLowEngagement_single_run [] ultraLowSeries [] "tiktok")).
    + constructor.
    + repeat constructor; simpl; lia.
    + discriminate.
    + constructor.
Defined.

Section RunLoopCompose.
Variable cond : ScanData -> bool.
Variable minRun : Z.

Lemma runLoop_acc (line : Z -> Z -> Z -> string) (l : list ScanData) (i : Z)
    (start : option Z) (msgs : list string) :
  runLoop cond line minRun l i start msgs
  = (fst (runLoop cond line minRun l i start []),
     (msgs ++ snd (runLoop cond line minRun l i start []))%list).
Proof.
  revert i start msgs. induction l as [|s l IH]; intros i start msgs; cbn [runLoop].
  - simpl. now rewrite app_nil_r.
  - destruct (cond s).
    + apply IH.
    + destruct start as [st|]; [|apply IH].
      destruct (i - st >=? minRun); [|apply IH].
      rewrite (IH _ _ (msgs ++ _)%list), (IH _ _ ([] ++ _)%list).
      simpl. now rewrite <- app_assoc.
Qed.

Lemma runLoop_app (line : Z -> Z -> Z -> string) (l1 l2 : list ScanData) (i : Z)
    (start : option Z) (msgs : list string) :
  runLoop cond line minRun (l1 ++ l2) i start msgs
  = runLoop cond line minRun l2 (i + Z.of_nat (List.length l1))
      (fst (runLoop cond line minRun l1 i start msgs))
      (snd (runLoop cond line minRun l1 i start msgs)).
Proof.
  revert i start msgs. induction l1 as [|s l1 IH]; intros i start msgs.
  - simpl. f_equal. lia.
  - cbn [app runLoop List.length].
    replace (i + Z.of_nat (S (List.length l1))) with (i + 1 + Z.of_nat (List.length l1))
      by lia.
    destruct (cond s); [apply IH|].
    destruct start as [st|]; apply IH.
Qed.

Lemma runLoop_shift (line : Z -> Z -> Z -> string) (k : Z) (l : list ScanData)
    (i : Z) (start : option Z) :
  runLoop cond line minRun l (i + k) (option_map (fun x => x + k) start) []
  = (option_map (fun x => x + k)
       (fst (runLoop cond (shiftLine line k) minRun l i start [])),
     snd (runLoop cond (shiftLine line k) minRun l i start [])).
Proof.
  revert i start. induction l as [|s l IH]; intros i start; cbn [runLoop].
  - reflexivity.
  - replace (i + k + 1) with (i + 1 + k) by lia.
    destruct (cond s).
    + destruct start as [st|]; cbn [option_map].
      * apply (IH (i + 1) (Some st)).
      * apply (IH (i + 1) (Some i)).
    + destruct start as [st|]; cbn [option_map]; [|apply (IH (i + 1) None)].
      replace (i + k - (st + k)) with (i - st) by lia.
      destruct (i - st >=? minRun); [|apply (IH (i + 1) None)].
      rewrite runLoop_acc, (runLoop_acc (shiftLine line k)).
      pose proof (IH (i + 1) None) as H. cbn [option_map] in H. rewrite H.
      cbn [fst snd app]. unfold shiftLine at 3.
      replace (st + k + 1) with (st + 1 + k) by lia. reflexivity.
Qed.

(** X23: the four run summarizers treat a series scan by scan: when a
    scan that fails the condition separates two parts of a series, the
    summary of the whole is the summary of the first part followed by
    the summary of the second part, with the scan numbers of the second
    part moved by the length of the first part plus one.  Runs are thus
    reported independently, and a run that ends the first part is
    reported with the same line whether it is closed by the failing scan
    or by the end of the series. *)
Theorem summarizeRuns_split (line : Z -> Z -> Z -> string)
    (l1 l2 : list ScanData) (s : ScanData) :
  cond s = false ->
  summarizeRuns cond line minRun (l1 ++ s :: l2)%list
  = (summarizeRuns cond line minRun l1
     ++ summarizeRuns cond (shiftLine line (Z.of_nat (List.length l1) + 1)) minRun l2)%list.
Proof.
  intro Hs. unfold summarizeRuns.
  set (k := Z.of_nat (List.length l1) + 1).
  rewrite runLoop_app.
  destruct (runLoop cond line minRun l1 0 None []) as [st1 m1] eqn:E1.
  cbn [fst snd runLoop]. rewrite Hs.
  set (closed := match st1 with
                 | Some st =>
                     if Z.of_nat (List.length l1) - st >=? minRun
                     then (m1 ++ [line (st + 1) (Z.of_nat (List.length l1))
                                       (Z.of_nat (List.length l1) - st)])%list
                     else m1
                 | None => m1
                 end).
  assert (Hloop : (let '(start, msgs) :=
                     match st1 with
                     | Some st =>
                         runLoop cond line minRun l2 (0 + Z.of_nat (List.length l1) + 1) None
                           (if 0 + Z.of_nat (List.length l1) - st >=? minRun
                            then (m1 ++ [line (st + 1) (0 + Z.of_nat (List.length l1))
                                              (0 + Z.of_nat (List.length l1) - st)])%list
                            else m1)
                     | None =>
                         runLoop cond line minRun l2 (0 + Z.of_nat (List.length l1) + 1)
                           None m1
                     end in (start, msgs))
                  = runLoop cond line minRun l2 (0 + k) None closed).
  { unfold closed, k. destruct st1 as [st|]; simpl Z.add;
      match goal with |- (let '(a, b) := ?x in _) = _ => destruct x end; reflexivity. }
  match goal with
  | |- (let '(start, msgs) := ?x in _) = _ =>
      replace x with (runLoop cond line minRun l2 (0 + k) None closed)
  end.
  2:{ rewrite <- Hloop. destruct st1 as [st|];
        match goal with |- (let '(a, b) := ?x in _) = _ => destruct x end; reflexivity. }
  rewrite runLoop_acc.
  pose proof (runLoop_shift line k l2 0 None) as Hsh.
  cbn [option_map] in Hsh. rewrite Hsh. clear Hsh.
  destruct (runLoop cond (shiftLine line k) minRun l2 0 None []) as [st2 m2].
  cbn [fst snd option_map]. fold closed.
  rewrite length_app. cbn [List.length].
  destruct st2 as [st|]; cbn [option_map]; [|reflexivity].
  replace (Z.of_nat (List.length l1 + S (List.length l2)) - (st + k))
    with (Z.of_nat (List.length l2) - st) by (unfold k; lia).
  destruct (Z.of_nat (List.length l2) - st >=? minRun); [|reflexivity].
  rewrite <- app_assoc. unfold shiftLine.
  replace (st + k + 1) with (st + 1 + k) by lia.
  replace (Z.of_nat (List.length l1 + S (List.length l2)))
    with (Z.of_nat (List.length l2) + k) by (unfold k; lia).
  reflexivity.
Qed.

End RunLoopCompose.

Lemma summarizeRuns_split_witness :
  summarizeRuns (zeroLike 1000) zeroLikesLine 5 (zeroLikesSeries ++ zeroLikesSeries)%list
  = ["Scans 1–5: zero likes across 5 scans (may be hidden likes)";
     "Scans 7–11: zero likes across 5 scans (may be hidden likes)"].
Proof.
  exact (summarizeRuns_split (zeroLike 1000) 5 zeroLikesLine
           (firstn 5 zeroLikesSeries) zeroLikesSeries (scanOf 2000 7) eq_refl).
Defined.

(** * Reasons as lines *)

Lemma noNewline_app (a b : string) :
  noNewline (a ++ b) = noNewline a && noNewline b.
Proof.
  induction a as [|c a IH]; simpl; [reflexivity|].
  now rewrite IH, andb_assoc.
Qed.

Lemma noNewline_uint (d : Decimal.uint) :
  noNewline (NilEmpty.string_of_uint d) = true.
Proof. induction d; simpl; auto. Qed.

Lemma noNewline_showZ (z : Z) : noNewline (showZ z) = true.
Proof.
  unfold showZ, NilZero.string_of_int, NilZero.string_of_uint.
  destruct (Z.to_int z) as [d|d]; destruct d; simpl;
    rewrite ?noNewline_uint; reflexivity.
Qed.

Lemma noNewline_zeros (n : nat) : noNewline (zeros n) = true.
Proof. induction n; simpl; auto. Qed.

Lemma noNewline_substring (s : string) :
  noNewline s = true -> forall n m, noNewline (substring n m s) = true.
Proof.
  induction s as [|c s IH]; intros H n m.
  - destruct n, m; reflexivity.
  - simpl in H. apply andb_true_iff in H. destruct H as [Hc Hs].
    destruct n as [|n]; [destruct m as [|m]|]; simpl; auto.
    rewrite Hc. simpl. now apply IH.
Qed.

Lemma noNewline_toFixed (x : Q) (d : nat) : noNewline (toFixed x d) = true.
Proof.
  unfold toFixed. cbv zeta.
  set (digits := showZ _).
  set (padded := (zeros _ ++ digits)%string).
  assert (Hp : noNewline padded = true)
    by (unfold padded, digits; now rewrite noNewline_app, noNewline_zeros, noNewline_showZ).
  rewrite !noNewline_app, (noNewline_substring padded Hp).
  destruct (x <? 0)%Q; destruct d; simpl;
    rewrite ?(noNewline_substring padded Hp); reflexivity.
Qed.

Lemma noNewline_toFixedNumber (x : number) (d : nat) :
  noNewline (toFixedNumber x d) = true.
Proof.
  unfold toFixedNumber.
  destruct x as [s|s| |s m e]; try apply noNewline_toFixed;
    try destruct s; reflexivity.
Qed.

Lemma endsVisibly_app (a b : string) :
  endsVisibly b = true -> endsVisibly (a ++ b) = true.
Proof.
  intro H. induction a as [|c a IH]; simpl; [exact H|].
  destruct (a ++ b)%string eqn:E; [|exact IH].
  destruct a; [simpl in E; subst b; discriminate H | discriminate E].
Qed.

Lemma trimStart_visible (s : string) : startsVisibly s = true -> trimStart s = s.
Proof.
  destruct s as [|c s]; simpl; [discriminate|].
  intro H. apply negb_true_iff in H. now rewrite H.
Qed.

Lemma trimEnd_visible (s : string) : endsVisibly s = true -> trimEnd s = s.
Proof.
  induction s as [|c s IH]; [discriminate|].
  cbn [endsVisibly trimEnd]. destruct s as [|c' s'].
  - intro H. apply negb_true_iff in H. cbn [trimEnd]. now rewrite H.
  - intro H. rewrite (IH H). reflexivity.
Qed.

Lemma clean_trim (s : string) :
  clean s = true -> trim s = s /\ nonEmpty s = true /\ noNewline s = true.
Proof.
  unfold clean. rewrite !andb_true_iff. intros [[H1 H2] H3]. unfold trim.
  rewrite (trimStart_visible s H1), (trimEnd_visible s H2).
  repeat split; [|exact H3]. destruct s; [discriminate H1 | reflexivity].
Qed.

Lemma split_line (m rest : string) :
  noNewline m = true ->
  split (ascii_of_nat 10) (m ++ nl ++ rest) = m :: split (ascii_of_nat 10) rest.
Proof.
  induction m as [|c m IH]; intro H.
  - reflexivity.
  - simpl in H. apply andb_true_iff in H. destruct H as [Hc Hm].
    apply negb_true_iff in Hc.
    change ((String c m ++ nl ++ rest)%string) with (String c (m ++ nl ++ rest)).
    cbn [split]. rewrite Hc, (IH Hm). reflexivity.
Qed.

Lemma split_last (m : string) :
  noNewline m = true -> split (ascii_of_nat 10) m = [m].
Proof.
  induction m as [|c m IH]; intro H; [reflexivity|].
  simpl in H. apply andb_true_iff in H. destruct H as [Hc Hm].
  apply negb_true_iff in Hc. cbn [split]. rewrite Hc, (IH Hm). reflexivity.
Qed.

Lemma messages_cons_some r m evs : messages ((r, Some m) :: evs) = m :: messages evs.
Proof. reflexivity. Qed.

Lemma messages_cons_none r evs : messages ((r, None) :: evs) = messages evs.
Proof. reflexivity. Qed.

Lemma messages_app a b : messages (a ++ b) = (messages a ++ messages b)%list.
Proof. unfold messages. apply flat_map_app. Qed.

Lemma split_render (evs : list (Rule * option string)) :
  CleanTrace evs ->
  forall m0, noNewline m0 = true ->
    split (ascii_of_nat 10) (m0 ++ render evs) = m0 :: messages evs.
Proof.
  induction evs as [|[r [m|]] evs IH]; intros H m0 H0.
  - simpl. rewrite append_nil_r. now apply split_last.
  - unfold CleanTrace in H. rewrite messages_cons_some in H.
    inversion H as [|? ? Hm Hrest]; subst.
    cbn [render]. rewrite (split_line m0 _ H0).
    rewrite (IH Hrest m (proj2 (proj2 (clean_trim m Hm)))). reflexivity.
  - cbn [render]. rewrite messages_cons_none. apply IH; assumption.
Qed.

Lemma trim_clean_lines (ms : list string) :
  Forall (fun m => clean m = true) ms -> filter nonEmpty (map trim ms) = ms.
Proof.
  induction 1 as [|m ms Hm _ IH]; [reflexivity|].
  destruct (clean_trim m Hm) as (T & N & _).
  cbn [map filter]. rewrite T, N, IH. reflexivity.
Qed.

Lemma reasonsOf_render (evs : list (Rule * option string)) :
  CleanTrace evs -> reasonsOf (render evs) = messages evs.
Proof.
  intro H. unfold reasonsOf.
  pose proof (split_render evs H "" eq_refl) as S. cbn [append] in S. rewrite S.
  change (map trim ("" :: messages evs)) with ("" :: map trim (messages evs)).
  cbn [filter nonEmpty]. now apply trim_clean_lines.
Qed.

Lemma render_messages (evs : list (Rule * option string)) :
  render evs = String.concat "" (map (String (ascii_of_nat 10)) (messages evs)).
Proof.
  induction evs as [|[r [m|]] evs IH]; [reflexivity| |exact IH].
  rewrite messages_cons_some. cbn [render map]. rewrite IH.
  destruct (map (String (ascii_of_nat 10)) (messages evs)) as [|x xs] eqn:E.
  - cbn [String.concat]. now rewrite append_nil_r.
  - cbn [String.concat]. reflexivity.
Qed.

(** ** Every reason of the rules is a clean line *)

Lemma CleanTrace_app a b : CleanTrace a -> CleanTrace b -> CleanTrace (a ++ b).
Proof. unfold CleanTrace. rewrite messages_app. apply Forall_app_2 || (intros; apply Forall_app; tauto). Qed.

Lemma CleanBlock_id : CleanBlock (fun st => st).
Proof. intros st H. exact H. Qed.

Lemma CleanBlock_flag r m : clean m = true -> CleanBlock (flag r m).
Proof.
  intros Hm st H. cbn. apply CleanTrace_app; [exact H|].
  unfold CleanTrace. cbn. now constructor.
Qed.

Lemma CleanBlock_flagSilently r : CleanBlock (flagSilently r).
Proof.
  intros st H. cbn. apply CleanTrace_app; [exact H|]. constructor.
Qed.

Lemma CleanBlock_consoleLog s : CleanBlock (consoleLog s).
Proof. intros st H. exact H. Qed.

Lemma CleanBlock_comp f g : CleanBlock f -> CleanBlock g -> CleanBlock (fun st => g (f st)).
Proof. intros Hf Hg st H. apply Hg, Hf, H. Qed.

Lemma CleanBlock_if (b : bool) f g :
  CleanBlock f -> CleanBlock g -> CleanBlock (fun st => if b then f st else g st).
Proof. intros Hf Hg. destruct b; assumption. Qed.

Ltac clean_msg :=
  unfold clean;
  apply andb_true_intro; split; [apply andb_true_intro; split|];
  [ reflexivity
  | repeat match goal with
           | |- endsVisibly (_ ++ _) = true => apply endsVisibly_app
           end; reflexivity
  | repeat rewrite noNewline_app;
    rewrite ?noNewline_showZ, ?noNewline_toFixedNumber; reflexivity ].

Ltac clean_basic :=
  match goal with
  | |- CleanBlock (fun st => st) => apply CleanBlock_id
  | |- CleanBlock (fun st => if _ then _ else _) => apply CleanBlock_if
  | |- CleanBlock (fun st => flag _ _ _) => eapply CleanBlock_comp; [|apply CleanBlock_flag]
  | |- CleanBlock (flag _ _) => apply CleanBlock_flag
  | |- CleanBlock (flagSilently _) => apply CleanBlock_flagSilently
  | |- CleanBlock (fun st => flagSilently _ _) =>
      eapply CleanBlock_comp; [|apply CleanBlock_flagSilently]
  | |- CleanBlock (consoleLog _) => apply CleanBlock_consoleLog
  | |- CleanBlock (fun st => consoleLog _ _) =>
      eapply CleanBlock_comp; [|apply CleanBlock_consoleLog]
  | |- clean _ = true => clean_msg
  end.

Ltac clean_block :=
  cbv beta zeta;
  repeat
    match goal with
    | |- CleanBlock (fun st => st) => apply CleanBlock_id
    | |- CleanBlock (fun st => if ?b then @?f st else @?g st) =>
        apply (CleanBlock_if b f g)
    | |- CleanBlock (fun st => flag ?r ?m (@?f st)) =>
        apply (CleanBlock_comp f (flag r m)); [ | apply CleanBlock_flag; clean_msg ]
    | |- CleanBlock (fun st => flagSilently ?r (@?f st)) =>
        apply (CleanBlock_comp f (flagSilently r)); [ | apply CleanBlock_flagSilently ]
    | |- CleanBlock (fun st => consoleLog ?s (@?f st)) =>
        apply (CleanBlock_comp f (consoleLog s)); [ | apply CleanBlock_consoleLog ]
    end.

Lemma CleanBlock_checkAnomaly P name c p vg th :
  startsVisibly name = true -> noNewline name = true ->
  CleanBlock (checkAnomaly P name c p vg th).
Proof.
  intros Hs Hn. unfold checkAnomaly. cbv beta zeta.
  assert (H1 : clean (name ++ " appeared (0→" ++ showZ c
                        ++ ") without corresponding jump in views") = true).
  { unfold clean.
    apply andb_true_intro; split; [apply andb_true_intro; split|].
    - destruct name; [discriminate Hs | exact Hs].
    - repeat match goal with
             | |- endsVisibly (_ ++ _) = true => apply endsVisibly_app
             end; reflexivity.
    - repeat rewrite noNewline_app. rewrite Hn, noNewline_showZ. reflexivity. }
  assert (H2 : clean (name ++ " grew quickly without corresponding jump in views")
               = true).
  { unfold clean.
    apply andb_true_intro; split; [apply andb_true_intro; split|].
    - destruct name; [discriminate Hs | exact Hs].
    - apply endsVisibly_app. reflexivity.
    - rewrite noNewline_app, Hn. reflexivity. }
  repeat
    match goal with
    | |- CleanBlock (fun st => st) => apply CleanBlock_id
    | |- CleanBlock (fun st => if ?b then @?f st else @?g st) =>
        apply (CleanBlock_if b f g)
    | |- CleanBlock (fun st => flag ?r ?m (@?f st)) =>
        apply (CleanBlock_comp f (flag r m)); [ | apply CleanBlock_flag; assumption ]
    end.
Qed.

Lemma CleanBlock_likesAnomalies P : CleanBlock (likesAnomalies P).
Proof. unfold likesAnomalies. clean_block. Qed.

Lemma CleanBlock_sharesSavesGrowth P : CleanBlock (sharesSavesGrowth P).
Proof.
  unfold sharesSavesGrowth. cbv beta zeta.
  repeat
    match goal with
    | |- CleanBlock (fun st => st) => apply CleanBlock_id
    | |- CleanBlock (fun st => if ?b then @?f st else @?g st) =>
        apply (CleanBlock_if b f g)
    | |- CleanBlock (fun st => checkAnomaly ?P ?n ?c ?p ?vg ?th (@?f st)) =>
        apply (CleanBlock_comp f (checkAnomaly P n c p vg th));
        [ | apply CleanBlock_checkAnomaly; reflexivity ]
    end.
Qed.

Lemma CleanBlock_sharesZeroToX P : CleanBlock (sharesZeroToX P).
Proof. unfold sharesZeroToX. clean_block. Qed.

Lemma CleanBlock_savesZeroToX P : CleanBlock (savesZeroToX P).
Proof. unfold savesZeroToX. clean_block. Qed.

Lemma CleanBlock_zeroLikes P : CleanBlock (zeroLikes P).
Proof. unfold zeroLikes. clean_block. Qed.

Lemma CleanBlock_snapchatUltraLowEngagement P :
  CleanBlock (snapchatUltraLowEngagement P).
Proof. unfold snapchatUltraLowEngagement. clean_block. Qed.

Lemma CleanBlock_commentNotes P : CleanBlock (commentNotes P).
Proof. unfold commentNotes. clean_block. Qed.

Lemma CleanBlock_likeRatioCollapse P : CleanBlock (likeRatioCollapse P).
Proof. unfold likeRatioCollapse. clean_block. Qed.

Lemma CleanBlock_massiveCommentDrop P : CleanBlock (massiveCommentDrop P).
Proof. unfold massiveCommentDrop. clean_block. Qed.

Lemma CleanBlock_commentJumpViewsFlat P : CleanBlock (commentJumpViewsFlat P).
Proof. unfold commentJumpViewsFlat. clean_block. Qed.

Lemma CleanBlock_commentInjection P : CleanBlock (commentInjection P).
Proof. unfold commentInjection. clean_block. Qed.

Lemma CleanBlock_windowRules scans : CleanBlock (windowRules scans).
Proof. unfold windowRules, plateauMessage, stepMessage. clean_block. Qed.

Lemma CleanBlock_plateauPatternDetection P : CleanBlock (plateauPatternDetection P).
Proof.
  intros st H. rewrite plateauPatternDetection_eq.
  destruct (allScans P) as [l|]; [|exact H].
  destruct (scanIndex P) as [i|]; [|exact H].
  destruct (negb (platform P =? "youtube")%string && (Z.of_nat (List.length l) >=? 6));
    [|exact H].
  now apply CleanBlock_windowRules.
Qed.

Lemma RunDetect_reasons_are_lines (P : Props) :
  CleanTrace (St.fired (RunDetect.runRules P)).
Proof.
  unfold RunDetect.runRules.
  apply CleanBlock_plateauPatternDetection, CleanBlock_commentInjection,
    CleanBlock_commentJumpViewsFlat, CleanBlock_massiveCommentDrop,
    CleanBlock_likeRatioCollapse, CleanBlock_commentNotes,
    CleanBlock_snapchatUltraLowEngagement, CleanBlock_zeroLikes,
    CleanBlock_savesZeroToX, CleanBlock_sharesZeroToX, CleanBlock_sharesSavesGrowth,
    CleanBlock_likesAnomalies.
  constructor.
Qed.

Lemma pairReasons_lines (platformTag : string) (valid : list ScanData)
    (notes : bool) (j : nat) :
  let rs := pairReasons platformTag valid notes j in
  bottedReason (RunDetect.detectBotAlgo (transitionOf platformTag valid j notes))
  = String.concat "" (map (String (ascii_of_nat 10)) rs)
  /\ Forall (fun r => r <> "" /\ ~ In (ascii_of_nat 10) (list_ascii_of_string r)) rs.
Proof.
  cbv zeta. unfold pairReasons, runnerResponse.
  set (P := transitionOf platformTag valid j notes).
  pose proof (RunDetect_reasons_are_lines P) as C.
  destruct (RunDetect_runRules_coherent P) as [Hr _].
  unfold RunDetect.detectBotAlgo, respond. cbn [bottedReason]. rewrite Hr.
  rewrite (reasonsOf_render _ C). split; [apply render_messages|].
  unfold CleanTrace in C. eapply Forall_impl; [|exact C].
  intros m Hm. destruct (clean_trim m Hm) as (_ & N & L). split.
  - destruct m; [discriminate N | discriminate].
  - clear -L. induction m as [|c m IH]; [intros []|].
    simpl in L. apply andb_true_iff in L. destruct L as [Lc Lm].
    apply negb_true_iff, Ascii.eqb_neq in Lc.
    intros [E|E]; [congruence | now apply IH].
Qed.

(** * Further properties of the drivers *)

(** ** [analyzeUrl] *)

Lemma nth_after (A : Type) (done : list A) (x : A) (rest : list A) (d : A) :
  nth (List.length done) (done ++ x :: rest) d = x.
Proof. apply nth_middle. Qed.

Lemma pairwiseChecks_spec (platformTag : string) (valid : list ScanData)
    (notes : bool) (rest : list ScanData) :
  forall (done : list ScanData) (previous : ScanData)
         (flagged : list string) (perScan : list (Z * list string)),
    valid = (done ++ previous :: rest)%list ->
    pairwiseChecks platformTag valid notes previous rest
                   (Z.of_nat (S (List.length done))) flagged perScan
    = ((flagged
          ++ flat_map (pairFlagged platformTag valid notes)
                      (seq (S (List.length done)) (List.length rest)))%list,
       (perScan
          ++ map (fun j => (Z.of_nat j, pairReasons platformTag valid notes j))
                 (seq (S (List.length done)) (List.length rest)))%list).
Proof.
  induction rest as [|current rest IH]; intros done previous flagged perScan Hv.
  - simpl. now rewrite !app_nil_r.
  - cbn [pairwiseChecks List.length seq flat_map map].
    assert (Ht : mkProps previous current platformTag
                   (Some (Z.of_nat (S (List.length done)))) (Some valid) notes
                 = transitionOf platformTag valid (S (List.length done)) notes).
    { unfold transitionOf. f_equal.
      - replace (S (List.length done) - 1)%nat with (List.length done) by lia.
        rewrite Hv. now rewrite nth_after.
      - rewrite Hv.
        replace (done ++ previous :: current :: rest)%list
          with ((done ++ [previous]) ++ current :: rest)%list
          by (now rewrite <- app_assoc).
        replace (S (List.length done)) with (List.length (done ++ [previous]))
          by (rewrite length_app; simpl; lia).
        now rewrite nth_after. }
    rewrite Ht.
    replace (Z.of_nat (S (List.length done)) + 1)
      with (Z.of_nat (S (List.length (done ++ [previous]))))
      by (rewrite length_app; simpl; lia).
    rewrite (IH (done ++ [previous])%list current)
      by (rewrite Hv; now rewrite <- app_assoc).
    replace (List.length (done ++ [previous])) with (S (List.length done))
      by (rewrite length_app; simpl; lia).
    unfold pairFlagged, pairReasons, runnerResponse.
    cbn [flat_map map seq].
    set (r := RunDetect.detectBotAlgo
                (transitionOf platformTag valid (S (List.length done)) notes)).
    destruct (shouldReject r);
      destruct (0 <? List.length (reasonsOf (bottedReason r)))%nat;
      cbn [andb app]; rewrite <- ?app_assoc; reflexivity.
Qed.

Lemma analyzeUrl_pairwise (url platformTag : string) (scans : list ScanData)
    (notes : bool) (first : ScanData) (rest : list ScanData) :
  filter (fun s => negb (missing s)) scans = first :: rest ->
  pairwiseChecks platformTag (first :: rest) notes first rest 1 [] []
  = (flat_map (pairFlagged platformTag (first :: rest) notes)
              (seq 1 (List.length rest)),
     map (fun j => (Z.of_nat j, pairReasons platformTag (first :: rest) notes j))
         (seq 1 (List.length rest))).
Proof.
  intros _.
  exact (pairwiseChecks_spec platformTag (first :: rest) notes rest [] first [] []
           eq_refl).
Qed.

(** X24: [analyzeUrl] evaluates exactly the consecutive pairs of the
    valid (non-missing) scans: it completes whenever one scan is valid,
    [scanCount] counts all parsed scans, missing ones included, and
    [perScan] has one entry per transition [j = 1 .. n-1] of the valid
    scans, numbered [j].  The reasons of entry [j] are the lines of the
    [bottedReason] that the runner's [detectBotAlgo] returns for scans
    [j-1] and [j] of the valid series (with that series as [allScans]
    and [j] as [scanIndex]): [bottedReason] is the concatenation, in
    order, of a line feed followed by the reason, and no reason is empty
    or contains a line feed. *)
Theorem analyzeUrl_evaluates_valid_transitions
    (url platformTag : string) (scans : list ScanData) (notes : bool) :
  let valid := filter (fun s => negb (missing s)) scans in
  valid <> [] ->
  exists result,
    analyzeUrl url platformTag scans notes = Normal result
    /\ Analysis.scanCount result = Z.of_nat (List.length scans)
    /\ List.length (Analysis.perScan result) = (List.length valid - 1)%nat
    /\ forall j, (1 <= j < List.length valid)%nat ->
         exists reasons,
           nth_error (Analysis.perScan result) (j - 1) = Some (Z.of_nat j, reasons)
           /\ bottedReason
                (RunDetect.detectBotAlgo (transitionOf platformTag valid j notes))
              = String.concat "" (map (String "010"%char) reasons)
           /\ Forall (fun r => r <> ""
                               /\ ~ In "010"%char (list_ascii_of_string r)) reasons.
Proof.
  intros valid Hne. unfold analyzeUrl. fold valid.
  destruct valid as [|first rest] eqn:Ev; [congruence|].
  rewrite (analyzeUrl_pairwise url platformTag scans notes first rest Ev).
  eexists. split; [reflexivity|]. split; [reflexivity|].
  cbn [Analysis.perScan].
  replace (List.length (first :: rest) - 1)%nat with (List.length rest)
    by (simpl; lia).
  split; [now rewrite length_map, length_seq|].
  intros j Hj. exists (pairReasons platformTag (first :: rest) notes j).
  split; [|exact (pairReasons_lines platformTag (first :: rest) notes j)].
  rewrite nth_error_map.
  replace (nth_error (seq 1 (List.length rest)) (j - 1)) with (Some j).
  - reflexivity.
  - symmetry. simpl in Hj.
    rewrite (nth_error_nth' _ 0%nat) by (rewrite length_seq; lia).
    rewrite seq_nth by lia. f_equal. lia.
Qed.

Lemma analyzeUrl_evaluates_valid_transitions_witness :
  exists result,
    analyzeUrl "u" "tiktok"
      [scanOf 1000 50; mkScan 0 0 0 0 0 true; scanOf 2100 59] false = Normal result
    /\ Analysis.scanCount result = 3
    /\ exists reasons,
         Analysis.perScan result = [(1, reasons)]
         /\ reasons = ["views doubled quickly without corresponding jump in likes"]
         /\ bottedReason
              (RunDetect.detectBotAlgo
                 (transitionOf "tiktok" [scanOf 1000 50; scanOf 2100 59] 1 false))
            = String.concat "" (map (String "010"%char) reasons).
Proof.
  destruct (analyzeUrl_evaluates_valid_transitions "u" "tiktok"
              [scanOf 1000 50; mkScan 0 0 0 0 0 true; scanOf 2100 59] false)
    as (r & H1 & H2 & H3 & H4); [discriminate|].
  exists r. split; [exact H1|]. split; [exact H2|].
  destruct (H4 1%nat) as (reasons & N & B & _); [simpl; lia|].
  exists reasons.
  assert (E : Analysis.perScan r
              = [(1, ["views doubled quickly without corresponding jump in likes"])]).
  { assert (C : analyzeUrl "u" "tiktok"
                  [scanOf 1000 50; mkScan 0 0 0 0 0 true; scanOf 2100 59] false
                = Normal (Analysis.mk "u" "tiktok" 3 
                            ["Scan 1: Anomalie : views doubled quickly without corresponding jump in likes"]
                            [(1, ["views doubled quickly without corresponding jump in likes"])]
                            (Some []) (Some [])))
      by (vm_compute; reflexivity).
    rewrite C in H1. inversion H1. reflexivity. }
  rewrite E in N. cbn in N. inversion N; subst reasons.
  split; [exact E|]. split; [reflexivity | exact B].
Defined.

(** X25: [analyzeUrl] never flags a transition that the runner's
    [detectBotAlgo] accepted or for which it gave no reason: every line
    of [flagged] is a line of the zero-likes summary, a line of the
    ultra-low-engagement summary, or the line "Scan j: Anomalie : ..." of
    a transition [j] of the valid scans that was rejected with at least
    one reason. *)
Theorem analyzeUrl_flags_only_explained_rejects
    (url platformTag : string) (scans : list ScanData) (notes : bool)
    (result : Analysis.t) (line : string) :
  let valid := filter (fun s => negb (missing s)) scans in
  analyzeUrl url platformTag scans notes = Normal result ->
  In line (Analysis.flagged result) ->
  In line (summarizeZeroLikes valid platformTag 1000 5)
  \/ In line (summarizeUltraLowEngagement valid platformTag 20000 3)
  \/ exists j,
       (1 <= j < List.length valid)%nat
       /\ shouldReject (RunDetect.detectBotAlgo (transitionOf platformTag valid j notes))
          = true
       /\ pairReasons platformTag valid notes j <> []
       /\ line = "Scan " ++ showZ (Z.of_nat j) ++ ": Anomalie : "
                   ++ join "; " (pairReasons platformTag valid notes j).
Proof.
  intros valid. unfold analyzeUrl. fold valid.
  destruct valid as [|first rest] eqn:Ev; [discriminate|].
  rewrite (analyzeUrl_pairwise url platformTag scans notes first rest Ev).
  assert (Hpair : forall l,
            In l (flat_map (pairFlagged platformTag (first :: rest) notes)
                           (seq 1 (List.length rest))) ->
            exists j,
              (1 <= j < List.length (first :: rest))%nat
              /\ shouldReject (RunDetect.detectBotAlgo
                                 (transitionOf platformTag (first :: rest) j notes))
                 = true
              /\ pairReasons platformTag (first :: rest) notes j <> []
              /\ l = "Scan " ++ showZ (Z.of_nat j) ++ ": Anomalie : "
                       ++ join "; " (pairReasons platformTag (first :: rest) notes j)).
  { intros l Hl. apply in_flat_map in Hl. destruct Hl as (j & Hj & Hl).
    apply in_seq in Hj. exists j. unfold pairFlagged in Hl.
    destruct (shouldReject (runnerResponse platformTag (first :: rest) notes j)) eqn:R;
      [|destruct Hl].
    destruct (pairReasons platformTag (first :: rest) notes j) eqn:Rs; [destruct Hl|].
    simpl in Hl. destruct Hl as [<-|[]].
    split; [simpl; lia|]. split; [exact R|]. split; [discriminate | reflexivity]. }
  intros H Hin. inversion H; subst result; clear H. cbn [Analysis.flagged] in Hin.
  set (pf := flat_map (pairFlagged platformTag (first :: rest) notes)
                      (seq 1 (List.length rest))) in *.
  set (zl := summarizeZeroLikes (first :: rest) platformTag 1000 5) in *.
  set (ul := summarizeUltraLowEngagement (first :: rest) platformTag 20000 3) in *.
  assert (Hstep1 :
            forall b : bool,
              In line (if b
                       then match zl with
                            | [] => pf
                            | z :: zl' =>
                                (filter (fun l => negb (testWord "zero likes" false l)) pf
                                 ++ z :: zl')%list
                            end
                       else pf) ->
              In line zl \/ In line pf).
  { intros [|]; [|tauto].
    destruct zl as [|z zl']; [tauto|].
    intro Hx. apply in_app_or in Hx. destruct Hx as [Hx|Hx]; [|tauto].
    apply filter_In in Hx. tauto. }
  destruct (platformTag =? "snapchat")%string.
  - destruct ul as [|u ul'] eqn:Eu.
    + apply Hstep1 in Hin. destruct Hin as [Hin|Hin]; [tauto|].
      right. right. now apply Hpair.
    + apply in_app_or in Hin. destruct Hin as [Hin|Hin]; [|tauto].
      apply filter_In in Hin. destruct Hin as [Hin _].
      apply Hstep1 in Hin. destruct Hin as [Hin|Hin]; [tauto|].
      right. right. now apply Hpair.
  - apply Hstep1 in Hin. destruct Hin as [Hin|Hin]; [tauto|].
    right. right. now apply Hpair.
Qed.

Lemma analyzeUrl_flags_only_explained_rejects_witness :
  exists result,
    analyzeUrl "u" "snapchat" [scanOf 30000 0; scanOf 30000 0] false = Normal result
    /\ Analysis.flagged result = []
    /\ shouldReject (RunDetect.detectBotAlgo snapchatQuiet) = true.
Proof.
  eexists. split; [reflexivity|]. split; [|reflexivity].
  destruct (Analysis.flagged _) as [|line rest] eqn:E; [reflexivity|].
  exfalso.
  destruct (analyzeUrl_flags_only_explained_rejects
              "u" "snapchat" [scanOf 30000 0; scanOf 30000 0] false _ line eq_refl)
    as [H|[H|(j & Hj & _ & Hr & _)]].
  - rewrite E. now left.
  - vm_compute in H. exact H.
  - vm_compute in H. exact H.
  - simpl in Hj. assert (j = 1%nat) by lia. subst j. apply Hr. reflexivity.
Defined.

(** ** [detectBotDuringScan] *)

Lemma transitionOf_at (platformTag : string) (scans done : list ScanData)
    (previous current : ScanData) (rest : list ScanData) (notes : bool) :
  scans = (done ++ previous :: current :: rest)%list ->
  mkProps previous current platformTag (Some (Z.of_nat (S (List.length done))))
          (Some scans) notes
  = transitionOf platformTag scans (S (List.length done)) notes.
Proof.
  intro Hv. unfold transitionOf. f_equal.
  - replace (S (List.length done) - 1)%nat with (List.length done) by lia.
    rewrite Hv. now rewrite nth_after.
  - rewrite Hv.
    replace (done ++ previous :: current :: rest)%list
      with ((done ++ [previous]) ++ current :: rest)%list
      by (now rewrite <- app_assoc).
    replace (S (List.length done)) with (List.length (done ++ [previous]))
      by (rewrite length_app; simpl; lia).
    now rewrite nth_after.
Qed.

Lemma scanTransitions_spec (platformTag : string) (scans : list ScanData)
    (now : Z -> string) (rest : list ScanData) :
  forall (done : list ScanData) (previous : ScanData) (reject : bool)
         (internalNotes : string),
    scans = (done ++ previous :: rest)%list ->
    scanTransitions platformTag scans now previous rest
                    (Z.of_nat (S (List.length done))) reject internalNotes
    = (reject
       || existsb (fun j => shouldReject (engineResponse platformTag scans false j))
                  (seq (S (List.length done)) (List.length rest)),
       fold_left (fun text j =>
                    appendNote now (engineResponse platformTag scans false j) j text)
                 (seq (S (List.length done)) (List.length rest)) internalNotes).
Proof.
  induction rest as [|current rest IH]; intros done previous reject internalNotes Hv.
  - simpl. now rewrite orb_false_r.
  - cbn [scanTransitions List.length seq existsb fold_left].
    fold (engineTag platformTag).
    rewrite (transitionOf_at (engineTag platformTag) scans done previous current rest
               false Hv).
    fold (engineResponse platformTag scans false (S (List.length done))).
    replace (Z.of_nat (S (List.length done)) + 1)
      with (Z.of_nat (S (List.length (done ++ [previous]))))
      by (rewrite length_app; simpl; lia).
    rewrite (IH (done ++ [previous])%list current)
      by (rewrite Hv; now rewrite <- app_assoc).
    replace (List.length (done ++ [previous])) with (S (List.length done))
      by (rewrite length_app; simpl; lia).
    f_equal.
    + destruct (shouldReject
                  (engineResponse platformTag scans false (S (List.length done))));
        destruct reject; reflexivity.
    + f_equal. unfold appendNote.
      replace (Z.of_nat (S (S (List.length done))))
        with (Z.of_nat (S (List.length done)) + 1) by lia.
      reflexivity.
Qed.

Lemma appendNote_prefix (now : Z -> string) (r : BotDetectorAlgoResponse) (j : nat)
    (text : string) :
  exists suffix, appendNote now r j text = text ++ suffix.
Proof.
  unfold appendNote. destruct (nonEmpty (trim (bottedReason r))).
  - eexists. reflexivity.
  - exists "". now rewrite append_nil_r.
Qed.

Lemma fold_appendNote_prefix (now : Z -> string)
    (resp : nat -> BotDetectorAlgoResponse) (js : list nat) (text : string) :
  exists suffix,
    fold_left (fun t j => appendNote now (resp j) j t) js text = text ++ suffix.
Proof.
  revert text. induction js as [|j js IH]; intro text; simpl.
  - exists "". now rewrite append_nil_r.
  - destruct (appendNote_prefix now (resp j) j text) as (s1 & E1). rewrite E1.
    destruct (IH (text ++ s1)) as (s2 & E2). rewrite E2.
    exists (s1 ++ s2). now rewrite append_assoc.
Qed.

Lemma fold_appendNote_blank (now : Z -> string)
    (resp : nat -> BotDetectorAlgoResponse) (js : list nat) (text : string) :
  (forall j, In j js -> bottedReason (resp j) = "") ->
  fold_left (fun t j => appendNote now (resp j) j t) js text = text.
Proof.
  revert text. induction js as [|j js IH]; intros text H; simpl; [reflexivity|].
  unfold appendNote at 2. rewrite (H j) by now left. simpl.
  apply IH. intros j' Hj'. apply H. now right.
Qed.

(** X26: for a submission whose platform has a scan table and whose
    series has at least 2 scans, [detectBotDuringScan] resolves to
    [true] exactly when [detectBotAlgo] rejects some transition
    [j = 1 .. n-1] of the series ('youtube-short' being evaluated as
    'youtube'); the notes it stores extend the previous notes and are
    the previous notes unchanged when every transition has an empty
    [bottedReason], even if the verdict is [true]. *)
Theorem detectBotDuringScan_verdict
    (sub : Submission.t) (findAll : ScanTable -> list ScanData) (now : Z -> string)
    (table : ScanTable) :
  scanTable (Submission.platform sub) = Some table ->
  (2 <= List.length (findAll table))%nat ->
  let scans := findAll table in
  let resp := engineResponse (Submission.platform sub) scans false in
  exists notes,
    detectBotDuringScan (Some sub) findAll now
    = Normal (mkDuringScan
                (Some (existsb (fun j => shouldReject (resp j))
                               (seq 1 (List.length scans - 1))))
                (Some notes))
    /\ (exists suffix, notes = Submission.internalNotes sub ++ suffix)
    /\ ((forall j, (1 <= j < List.length scans)%nat -> bottedReason (resp j) = "") ->
        notes = Submission.internalNotes sub).
Proof.
  intros Ht Hlen. cbv zeta. unfold detectBotDuringScan. rewrite Ht. cbv zeta.
  replace (Z.of_nat (List.length (findAll table)) <? 2) with false
    by (symmetry; apply Z.ltb_ge; lia).
  destruct (findAll table) as [|first rest]; [simpl in Hlen; lia|].
  pose proof (scanTransitions_spec (Submission.platform sub) (first :: rest) now rest
                [] first false (Submission.internalNotes sub) eq_refl) as Hspec.
  cbn [List.length] in Hspec. change (Z.of_nat 1) with 1 in Hspec.
  rewrite Hspec. cbn [orb].
  replace (List.length (first :: rest) - 1)%nat with (List.length rest)
    by (simpl; lia).
  eexists. split; [reflexivity|]. split.
  - apply fold_appendNote_prefix.
  - intro H. apply fold_appendNote_blank. intros j Hj. apply in_seq in Hj.
    apply H. simpl. lia.
Qed.

Lemma detectBotDuringScan_verdict_witness :
  exists notes,
    detectBotDuringScan (Some (Submission.mk "snapchat" "seen")) storedScans
                        (fun _ => "t")
    = Normal (mkDuringScan (Some true) (Some notes))
    /\ notes = "seen".
Proof.
  destruct (detectBotDuringScan_verdict
              (Submission.mk "snapchat" "seen") storedScans (fun _ => "t")
              PostScansSnapchat eq_refl) as (notes & H1 & _ & H3).
  - simpl. lia.
  - exists notes. split; [exact H1|]. apply H3.
    intros j Hj. simpl in Hj.
    assert (Hc : j = 1%nat \/ j = 2%nat) by lia.
    destruct Hc as [-> | ->]; reflexivity.
Defined.

(** ** The bot verdict of the admin report *)

Lemma reason_rejects (P : Props) :
  bottedReason (detectBotAlgo P) <> "" -> shouldReject (detectBotAlgo P) = true.
Proof.
  destruct (response_trace P) as [Hr Hs]. rewrite Hr, Hs.
  destruct (St.fired (runRules P)); simpl; [congruence|reflexivity].
Qed.

Lemma length_pos_nonempty (s : string) :
  (0 <? String.length s)%nat = true <-> s <> "".
Proof.
  destruct s; simpl; split; try congruence; try discriminate; reflexivity.
Qed.

Lemma mapSet_all_true (k : string) (m : list (string * bool)) :
  Forall (fun entry => snd entry = true) m ->
  Forall (fun entry => snd entry = true) (mapSet k true m).
Proof.
  induction 1 as [|[k' v'] m Hv Hm IH]; simpl.
  - repeat constructor.
  - destruct (k' =? k)%string; constructor; auto.
Qed.

Lemma mapSet_nonempty (k : string) (v : bool) (m : list (string * bool)) :
  mapSet k v m <> [].
Proof. destruct m as [|[k' v'] m]; simpl; [|destruct (k' =? k)%string]; discriminate. Qed.

Lemma dumpTransitions_spec (platformTag : string) (scans : list ScanData)
    (rest : list ScanData) :
  forall (done : list ScanData) (previous : ScanData) (botted : list (string * bool)),
    scans = (done ++ previous :: rest)%list ->
    Forall (fun entry => snd entry = true) botted ->
    let out := dumpTransitions platformTag scans previous rest
                               (Z.of_nat (S (List.length done))) botted in
    Forall (fun entry => snd entry = true) out
    /\ (out <> [] <->
        botted <> []
        \/ exists j, (S (List.length done) <= j < S (List.length done) + List.length rest)%nat
                     /\ bottedReason (engineResponse platformTag scans true j) <> "").
Proof.
  induction rest as [|current rest IH]; intros done previous botted Hv Hb; cbv zeta.
  - simpl. split; [exact Hb|]. split; [tauto|].
    intros [H|(j & Hj & _)]; [exact H | lia].
  - cbn [dumpTransitions]. fold (engineTag platformTag).
    rewrite (transitionOf_at (engineTag platformTag) scans done previous current rest
               true Hv).
    fold (engineResponse platformTag scans true (S (List.length done))).
    set (r := engineResponse platformTag scans true (S (List.length done))).
    replace (Z.of_nat (S (List.length done)) + 1)
      with (Z.of_nat (S (List.length (done ++ [previous]))))
      by (rewrite length_app; simpl; lia).
    assert (Hv' : scans = ((done ++ [previous]) ++ current :: rest)%list)
      by (rewrite Hv; now rewrite <- app_assoc).
    assert (Hlen : List.length (done ++ [previous]) = S (List.length done))
      by (rewrite length_app; simpl; lia).
    destruct (0 <? String.length (bottedReason r))%nat eqn:E.
    + apply length_pos_nonempty in E.
      assert (Hrej : shouldReject r = true) by (apply reason_rejects; exact E).
      rewrite Hrej.
      destruct (IH (done ++ [previous])%list current
                  (mapSet ("#" ++ showZ (Z.of_nat (S (List.length done))) ++ ": "
                             ++ bottedReason r) true botted)
                  Hv' (mapSet_all_true _ _ Hb)) as [H1 H2].
      split; [exact H1|]. rewrite H2. split.
      * intros _. right. exists (S (List.length done)). split; [simpl; lia | exact E].
      * intros _. left. apply mapSet_nonempty.
    + destruct (IH (done ++ [previous])%list current botted Hv' Hb) as [H1 H2].
      split; [exact H1|]. rewrite H2, Hlen. cbn [List.length].
      assert (En : bottedReason r = "").
      { destruct (bottedReason r) eqn:Er; [reflexivity|]. simpl in E. discriminate. }
      split.
      * intros [H|(j & Hj & Hr)]; [now left|]. right. exists j. split; [lia | exact Hr].
      * intros [H|(j & Hj & Hr)]; [now left|].
        destruct (Nat.eq_dec j (S (List.length done))) as [->|Hne].
        -- fold r in Hr. congruence.
        -- right. exists j. split; [lia | exact Hr].
Qed.

Lemma botLabel_all_true (botted : list (string * bool)) :
  Forall (fun entry => snd entry = true) botted ->
  botLabel botted = if (0 <? List.length botted)%nat then Botted else NotBotted.
Proof.
  intro H. unfold botLabel. destruct botted as [|[k v] rest]; [reflexivity|].
  inversion H as [|? ? Hv _]; subst. simpl in Hv. subst v. reflexivity.
Qed.

Lemma dumpBotted_spec (platformTag : string) (scans : list ScanData) :
  let out := match scans with
             | [] => []
             | first :: rest => dumpTransitions platformTag scans first rest 1 []
             end in
  Forall (fun entry => snd entry = true) out
  /\ (out <> [] <->
      exists j, (1 <= j < List.length scans)%nat
                /\ bottedReason (engineResponse platformTag scans true j) <> "").
Proof.
  cbv zeta. destruct scans as [|first rest].
  - split; [constructor|]. split; [congruence|].
    intros (j & Hj & _). simpl in Hj. lia.
  - destruct (dumpTransitions_spec platformTag (first :: rest) rest [] first []
                eq_refl (Forall_nil _)) as [H1 H2].
    cbn [List.length] in H1, H2. change (Z.of_nat 1) with 1 in H1, H2.
    split; [exact H1|]. rewrite H2. cbn [List.length]. split.
    + intros [H|(j & Hj & Hr)]; [congruence|]. exists j. split; [lia|exact Hr].
    + intros (j & Hj & Hr). right. exists j. split; [lia|exact Hr].
Qed.

Lemma detectBotAlgo_ignores_logNotes (P : Props) (b : bool) :
  detectBotAlgo (withLogNotes b P) = detectBotAlgo P.
Proof.
  unfold detectBotAlgo. rewrite !runRules_split.
  rewrite rulesBeforeNotes_ignore_logNotes, rulesAfterNotes_ignore_logNotes.
  now rewrite !respond_after_notes.
Qed.

Lemma engineResponse_ignores_logNotes (platformTag : string) (scans : list ScanData)
    (j : nat) :
  engineResponse platformTag scans true j = engineResponse platformTag scans false j.
Proof.
  unfold engineResponse.
  exact (detectBotAlgo_ignores_logNotes
           (transitionOf (engineTag platformTag) scans j false) true).
Qed.

Lemma dumpScanTable_scanTable (platformTag : string) (table : ScanTable) :
  dumpScanTable platformTag = Some table -> scanTable platformTag = Some table.
Proof.
  unfold dumpScanTable.
  repeat match goal with
         | |- context [(platformTag =? ?s)%string] =>
             let E := fresh "E" in
             destruct (platformTag =? s)%string eqn:E;
             [apply String.eqb_eq in E; subst platformTag;
              let H := fresh "H" in intro H; inversion H; reflexivity|]
         end.
  discriminate.
Qed.

(** X27: the "Bot AI Detection" box of the admin report never shows
    'Maybe Botted': it shows 'Botted' exactly when [detectBotAlgo]
    returns a non-empty [bottedReason] for some transition
    [j = 1 .. n-1] of the loaded scans, and 'Not Botted' otherwise; a
    transition that is rejected without a reason does not count. *)
Theorem dumpBotLabel_is_botted_or_not
    (platformTag : string) (findAll : ScanTable -> list ScanData) :
  let scans := match dumpScanTable platformTag with
               | Some table => findAll table
               | None => []
               end in
  dumpBotLabel platformTag findAll <> MaybeBotted
  /\ (dumpBotLabel platformTag findAll = Botted
      <-> exists j, (1 <= j < List.length scans)%nat
                    /\ bottedReason (engineResponse platformTag scans true j) <> "")
  /\ (dumpBotLabel platformTag findAll = NotBotted
      <-> forall j, (1 <= j < List.length scans)%nat ->
                    bottedReason (engineResponse platformTag scans true j) = "").
Proof.
  intro scans. unfold dumpBotLabel. fold scans. clearbody scans.
  set (out := match scans with
              | [] => []
              | first :: rest => dumpTransitions platformTag scans first rest 1 []
              end).
  pose proof (dumpBotted_spec platformTag scans) as Hout. cbv zeta in Hout.
  fold out in Hout.
  destruct Hout as [Hall Hex]. rewrite (botLabel_all_true _ Hall).
  clearbody out. destruct out as [|e out']; cbn [List.length Nat.ltb Nat.leb].
  - split; [discriminate|]. split.
    + split; [discriminate|]. intro H. apply Hex in H. congruence.
    + split; [|reflexivity]. intros _ j Hj.
      destruct (string_dec (bottedReason (engineResponse platformTag scans true j)) "")
        as [E|E]; [exact E|].
      exfalso. assert (Hf : @nil (string * bool) <> []); [|congruence].
      apply Hex. exists j. split; [exact Hj|exact E].
  - split; [discriminate|]. split.
    + split; [|reflexivity]. intros _. apply Hex. discriminate.
    + split; [discriminate|]. intro H. exfalso.
      assert (Hn : e :: out' <> []) by discriminate.
      apply Hex in Hn. destruct Hn as (j & Hj & Hr). apply Hr. now apply H.
Qed.

(** X28: whenever the admin report shows 'Botted' for a submission,
    [detectBotDuringScan] resolves to [true] when its query returns the
    same scans as the report's (the report not showing extended scans):
    the report never marks a series the scan-time check would let pass.
    The two read the same table, evaluate the same transitions, and
    [logNotes] does not change a response. *)
Theorem report_botted_implies_scan_reject
    (sub : Submission.t) (findAll : ScanTable -> list ScanData) (now : Z -> string) :
  dumpBotLabel (Submission.platform sub) findAll = Botted ->
  exists notes,
    detectBotDuringScan (Some sub) findAll now
    = Normal (mkDuringScan (Some true) (Some notes)).
Proof.
  intro H. unfold dumpBotLabel in H. cbv zeta in H.
  destruct (dumpScanTable (Submission.platform sub)) as [table|] eqn:Et;
    [|discriminate].
  apply dumpScanTable_scanTable in Et.
  destruct (dumpBotted_spec (Submission.platform sub) (findAll table)) as [_ Hex].
  assert (Hj : exists j, (1 <= j < List.length (findAll table))%nat
                         /\ bottedReason (engineResponse (Submission.platform sub)
                                            (findAll table) true j) <> "").
  { apply Hex. intro E. rewrite E in H. discriminate. }
  destruct Hj as (j & Hj & Hr).
  unfold detectBotDuringScan. rewrite Et. cbv zeta.
  replace (Z.of_nat (List.length (findAll table)) <? 2) with false
    by (symmetry; apply Z.ltb_ge; lia).
  destruct (findAll table) as [|first rest] eqn:Es; [simpl in Hj; lia|].
  pose proof (scanTransitions_spec (Submission.platform sub) (first :: rest) now rest
                [] first false (Submission.internalNotes sub) eq_refl) as Hspec.
  cbn [List.length] in Hspec. change (Z.of_nat 1) with 1 in Hspec.
  rewrite Hspec. cbn [orb]. eexists. do 3 f_equal.
  apply existsb_exists. exists j. split.
  - apply in_seq. simpl in Hj. lia.
  - rewrite <- engineResponse_ignores_logNotes. unfold engineResponse.
    apply reason_rejects. exact Hr.
Qed.

Lemma report_botted_implies_scan_reject_witness :
  dumpBotLabel "youtube" storedScans = Botted
  /\ exists notes,
       detectBotDuringScan (Some (Submission.mk "youtube" "")) storedScans
                           (fun _ => "t")
       = Normal (mkDuringScan (Some true) (Some notes)).
Proof.
  assert (H : dumpBotLabel "youtube" storedScans = Botted) by (vm_compute; reflexivity).
  split; [exact H|].
  exact (report_botted_implies_scan_reject (Submission.mk "youtube" "") storedScans
           (fun _ => "t") H).
Defined.

(** * Further properties of the likes rules *)

Lemma Qlt_over_3_2 (a b : Z) : (b * 1.5 <? a)%Q = (3 * b <? 2 * a).
Proof.
  apply eq_true_iff_eq. rewrite Qltb_lt, Z.ltb_lt.
  unfold Qlt, Qmult, inject_Z. cbn -[Z.mul Pos.mul]. lia.
Qed.

Lemma Qlt_under_6_5 (a b : Z) : (a <? b * 1.2)%Q = (5 * a <? 6 * b).
Proof.
  apply eq_true_iff_eq. rewrite Qltb_lt, Z.ltb_lt.
  unfold Qlt, Qmult, inject_Z. cbn -[Z.mul Pos.mul]. lia.
Qed.

Lemma likesAnomalies_fired (P : Props) :
  platform P <> "youtube" -> platform P <> "snapchat" ->
  let L := getEffectivePair P Likes in
  map fst (St.fired (likesAnomalies P St.init))
  = ((if (currViews L >? 1000) && (currViews L >? prevViews L * 2)
         && (curr L <? prev L * 1.2)%Q
      then [ViewsDoubledLikesFlat] else [])
     ++ (if matureScan P && negb (glitchLikes P)
            && (currViews L - prevViews L >=? 1000) && (curr L - prev L <? 2)
         then [ViewsGrewLikesFrozen] else [])
     ++ (if matureScan P && negb (glitchLikes P) && (curr L >? 0)
            && (curr L >? prev L * 1.5)%Q && (currViews L <? prevViews L * 1.2)%Q
         then [LikesSpikeViewsFlat] else []))%list.
Proof.
  intros Hy Hs. cbv zeta. unfold likesAnomalies.
  apply String.eqb_neq in Hy. apply String.eqb_neq in Hs. rewrite Hy, Hs.
  cbv beta zeta. simpl negb. simpl andb. cbv iota.
  repeat match goal with
         | |- context [if ?b then _ else _] => destruct b
         end; reflexivity.
Qed.

Lemma In_site (c : bool) (r r' : Rule) :
  In r (if c then [r'] else []) <-> r' = r /\ c = true.
Proof. destruct c; simpl; intuition discriminate. Qed.

Lemma likesAnomalies_excluded (P : Props) :
  platform P = "youtube" \/ platform P = "snapchat" ->
  St.fired (likesAnomalies P St.init) = [].
Proof. unfold likesAnomalies. intros [E|E]; rewrite E; reflexivity. Qed.

(** X29: the two likes rules of a mature transition are exact.  On a
    platform other than youtube and snapchat, on a mature transition
    without a likes glitch: "views grew but <2 likes change" fires
    exactly when the views grow by at least 1000 while the likes grow
    by fewer than 2 (a fall of the likes included); "likes spiked" fires
    exactly when the likes are positive and more than 1.5 times the
    previous likes while the views are below 1.2 times the previous
    views.  Otherwise neither fires; when one fires the transition is
    rejected. *)
Theorem mature_likes_rules_exact (P : Props) :
  (In ViewsGrewLikesFrozen (firedRules P)
   <-> platform P <> "youtube" /\ platform P <> "snapchat"
       /\ matureScan P = true /\ glitchLikes P = false
       /\ views (currentScan P) - views (prevScan P) >= 1000
       /\ likes (currentScan P) - likes (prevScan P) < 2)
  /\ (In LikesSpikeViewsFlat (firedRules P)
      <-> platform P <> "youtube" /\ platform P <> "snapchat"
          /\ matureScan P = true /\ glitchLikes P = false
          /\ likes (currentScan P) > 0
          /\ 2 * likes (currentScan P) > 3 * likes (prevScan P)
          /\ 5 * views (currentScan P) < 6 * views (prevScan P))
  /\ (In ViewsGrewLikesFrozen (firedRules P) \/ In LikesSpikeViewsFlat (firedRules P) ->
      shouldReject (detectBotAlgo P) = true).
Proof.
  split; [|split; [|intros [H|H]; exact (fired_rejects P _ H)]].
  - rewrite (fires_likesAnomalies P ViewsGrewLikesFrozen) by (simpl; tauto).
    destruct (string_dec (platform P) "youtube") as [Ey|Hy].
    { rewrite likesAnomalies_excluded by tauto. simpl. tauto. }
    destruct (string_dec (platform P) "snapchat") as [Es|Hs].
    { rewrite likesAnomalies_excluded by tauto. simpl. tauto. }
    rewrite (likesAnomalies_fired P Hy Hs), !in_app_iff, !In_site.
    destruct (glitchLikes P) eqn:G.
    + rewrite !andb_false_r. cbn [negb andb]. intuition discriminate.
    + unfold glitchLikes in G. rewrite (no_glitch_raw_pair P Likes G).
      cbn [rawPair prev curr prevViews currViews metric negb].
      rewrite !andb_true_iff, Z.geb_le, Z.ltb_lt.
      intuition (try discriminate; try lia).
  - rewrite (fires_likesAnomalies P LikesSpikeViewsFlat) by (simpl; tauto).
    destruct (string_dec (platform P) "youtube") as [Ey|Hy].
    { rewrite likesAnomalies_excluded by tauto. simpl. tauto. }
    destruct (string_dec (platform P) "snapchat") as [Es|Hs].
    { rewrite likesAnomalies_excluded by tauto. simpl. tauto. }
    rewrite (likesAnomalies_fired P Hy Hs), !in_app_iff, !In_site.
    destruct (glitchLikes P) eqn:G.
    + rewrite !andb_false_r. cbn [negb andb]. intuition discriminate.
    + unfold glitchLikes in G. rewrite (no_glitch_raw_pair P Likes G).
      cbn [rawPair prev curr prevViews currViews metric negb].
      rewrite Qlt_over_3_2, !Qlt_under_6_5.
      rewrite !andb_true_iff, Z.gtb_lt, !Z.ltb_lt.
      intuition (try discriminate; try lia).
Qed.

Lemma mature_likes_rules_exact_witness :
  let P := transitionOf "tiktok" [scanOf 3000 200; scanOf 4500 190] 1 false in
  In ViewsGrewLikesFrozen (firedRules P) /\ shouldReject (detectBotAlgo P) = true.
Proof.
  intro P.
  assert (H : In ViewsGrewLikesFrozen (firedRules P)).
  { apply (proj1 (mature_likes_rules_exact P)).
    repeat split; try reflexivity; try discriminate; simpl; lia. }
  split; [exact H|].
  exact (proj2 (proj2 (mature_likes_rules_exact P)) (or_introl H)).
Defined.

(** * Further properties of the generic growth check *)

Lemma Qlt_times10 (c p : Z) : (p * 10 <? c)%Q = (10 * p <? c).
Proof.
  apply eq_true_iff_eq. rewrite Qltb_lt, Z.ltb_lt.
  unfold Qlt, Qmult, inject_Z. cbn -[Z.mul Pos.mul]. lia.
Qed.

Lemma Qlt_times3 (c p : Z) : (p * 3 <? c)%Q = (3 * p <? c).
Proof.
  apply eq_true_iff_eq. rewrite Qltb_lt, Z.ltb_lt.
  unfold Qlt, Qmult, inject_Z. cbn -[Z.mul Pos.mul]. lia.
Qed.

Lemma fires_sharesSavesGrowth (P : Props) (r : Rule) :
  In r [MetricAppeared; MetricGrewQuickly] ->
  (In r (firedRules P) <-> In r (map fst (St.fired (sharesSavesGrowth P St.init)))).
Proof.
  intro Hr. rewrite firedRules_blocks. split; [intro H | tauto].
  simpl in Hr. destruct Hr as [<-|[<-|[]]]; other_blocks P; exact H.
Qed.

Lemma checkAnomaly_fired (P : Props) (name : string) (c p : Z) (vg th : Q) :
  map fst (St.fired (checkAnomaly P name c p vg th St.init))
  = if (p =? 0) && (c >=? 10) && (views (currentScan P) <? views (prevScan P) * vg)%Q
    then [MetricAppeared]
    else if (p >? 0) && (views (currentScan P) <? views (prevScan P) * vg)%Q
            && (c >? p * th)%Q
         then [MetricGrewQuickly] else [].
Proof.
  unfold checkAnomaly. cbv zeta.
  repeat match goal with
         | |- context [if ?b then _ else _] => destruct b
         end; reflexivity.
Qed.

Lemma checkAnomaly_once (P : Props) (name : string) (c p : Z) (vg th : Q) (r : Rule) :
  In r (map fst (St.fired (checkAnomaly P name c p vg th St.init)))
  <-> (r = MetricAppeared /\ p = 0 /\ c >= 10
       /\ (views (currentScan P) <? views (prevScan P) * vg)%Q = true)
      \/ (r = MetricGrewQuickly /\ p > 0
          /\ (views (currentScan P) <? views (prevScan P) * vg)%Q = true
          /\ (c >? p * th)%Q = true).
Proof.
  rewrite checkAnomaly_fired.
  destruct ((p =? 0) && (c >=? 10)
            && (views (currentScan P) <? views (prevScan P) * vg)%Q) eqn:EA.
  - apply andb_true_iff in EA. destruct EA as [EA Hv].
    apply andb_true_iff in EA. destruct EA as [H0 H10].
    apply Z.eqb_eq in H0. apply Z.geb_le in H10. simpl. split.
    + intros [<-|[]]. left. repeat split; auto. lia.
    + intros [(-> & _)|(_ & Hp & _)]; [now left | lia].
  - destruct ((p >? 0) && (views (currentScan P) <? views (prevScan P) * vg)%Q
              && (c >? p * th)%Q) eqn:EG.
    + apply andb_true_iff in EG. destruct EG as [EG Hc].
      apply andb_true_iff in EG. destruct EG as [Hp Hv].
      apply Z.gtb_lt in Hp. simpl. split.
      * intros [<-|[]]. right. repeat split; auto. lia.
      * intros [(_ & H0 & _)|(-> & _)]; [lia | now left].
    + simpl. split; [tauto|].
      intros [(_ & H0 & H10 & Hv)|(_ & Hp & Hv & Hc)].
      * rewrite (proj2 (Z.eqb_eq p 0) H0), Hv in EA.
        replace (c >=? 10) with true in EA by (symmetry; apply Z.geb_le; lia).
        discriminate.
      * rewrite Hv, Hc in EG.
        replace (p >? 0) with true in EG by (symmetry; apply Z.gtb_lt; lia).
        discriminate.
Qed.

Lemma checkAnomaly_twice (P : Props) (name : string) (c p : Z) (r : Rule) :
  In r (map fst (St.fired (checkAnomaly P name c p 1.2 3
                             (checkAnomaly P name c p 2 10 St.init))))
  <-> (r = MetricAppeared /\ p = 0 /\ c >= 10
       /\ (views (currentScan P) < 2 * views (prevScan P)
           \/ 5 * views (currentScan P) < 6 * views (prevScan P)))
      \/ (r = MetricGrewQuickly /\ p > 0
          /\ ((views (currentScan P) < 2 * views (prevScan P) /\ c > 10 * p)
              \/ (5 * views (currentScan P) < 6 * views (prevScan P) /\ c > 3 * p))).
Proof.
  rewrite (fired_block [MetricAppeared; MetricGrewQuickly]
             (checkAnomaly P name c p 1.2 3))
    by (apply Block_checkAnomaly; simpl; tauto).
  rewrite map_app, in_app_iff, !checkAnomaly_once.
  rewrite Qlt_times2, Qlt_under_6_5, Qlt_times10, Qlt_times3, !Z.ltb_lt.
  assert (E2 : views (currentScan P) < views (prevScan P) * 2
               <-> views (currentScan P) < 2 * views (prevScan P)) by lia.
  assert (E10 : 10 * p < c <-> c > 10 * p) by lia.
  assert (E3 : 3 * p < c <-> c > 3 * p) by lia.
  rewrite E2, E10, E3. tauto.
Qed.

Lemma sharesSavesGrowth_fired (P : Props) (r : Rule) :
  In r (map fst (St.fired (sharesSavesGrowth P St.init)))
  <-> matureScan P = true
      /\ exists key name,
           ((key = Shares /\ name = "shares") \/ (key = Saves /\ name = "saves"))
           /\ glitch key P = false
           /\ In r (map fst (St.fired
                      (checkAnomaly P name (metric key (currentScan P))
                         (metric key (prevScan P)) 1.2 3
                         (checkAnomaly P name (metric key (currentScan P))
                            (metric key (prevScan P)) 2 10 St.init)))).
Proof.
  unfold sharesSavesGrowth. destruct (matureScan P); [|simpl; intuition discriminate].
  cbv zeta.
  assert (Hsplit : forall name c p st,
             St.fired (checkAnomaly P name c p 1.2 3 (checkAnomaly P name c p 2 10 st))
             = (St.fired st
                ++ St.fired (checkAnomaly P name c p 1.2 3
                               (checkAnomaly P name c p 2 10 St.init)))%list).
  { intros name c p st.
    rewrite (fired_block [MetricAppeared; MetricGrewQuickly]
               (checkAnomaly P name c p 1.2 3) (checkAnomaly P name c p 2 10 st))
      by (apply Block_checkAnomaly; simpl; tauto).
    rewrite (fired_block [MetricAppeared; MetricGrewQuickly]
               (checkAnomaly P name c p 2 10) st)
      by (apply Block_checkAnomaly; simpl; tauto).
    rewrite (fired_block [MetricAppeared; MetricGrewQuickly]
               (checkAnomaly P name c p 1.2 3) (checkAnomaly P name c p 2 10 St.init))
      by (apply Block_checkAnomaly; simpl; tauto).
    now rewrite app_assoc. }
  unfold glitchShares, glitchSaves.
  destruct (glitch Shares P) eqn:Gs; destruct (glitch Saves P) eqn:Gv; cbn [negb];
    rewrite ?(no_glitch_raw_pair P Shares Gs), ?(no_glitch_raw_pair P Saves Gv);
    cbn [rawPair prev curr metric].
  - simpl. split; [tauto|]. intros (_ & key & name & [[-> _]|[-> _]] & G & _); congruence.
  - split.
    + intros H. split; [reflexivity|]. exists Saves, "saves". tauto.
    + intros (_ & key & name & [[-> ->]|[-> ->]] & G & H); [congruence|]. exact H.
  - split.
    + intros H. split; [reflexivity|]. exists Shares, "shares". tauto.
    + intros (_ & key & name & [[-> ->]|[-> ->]] & G & H); [|congruence]. exact H.
  - rewrite (Hsplit "saves" _ _ (checkAnomaly P "shares" _ _ _ _ _)).
    rewrite map_app, in_app_iff. split.
    + intros [H|H]; (split; [reflexivity|]).
      * exists Shares, "shares". tauto.
      * exists Saves, "saves". tauto.
    + intros (_ & key & name & [[-> ->]|[-> ->]] & G & H); [now left | now right].
Qed.

(** X30: the generic growth check on shares and saves is exact.  On a
    mature transition, for shares or saves without a glitch on that
    metric: "<metric> appeared (0→n)" fires exactly when the metric goes
    from 0 to at least 10 while the views stay below twice (or below
    1.2 times) the previous views; "<metric> grew quickly" fires exactly
    when the previous value is positive and either the views stay below
    twice the previous views while the metric grows more than tenfold,
    or the views stay below 1.2 times the previous views while the
    metric grows more than threefold.  When one fires the transition is
    rejected. *)
Theorem growth_check_exact (P : Props) :
  let v := views (currentScan P) in
  let pv := views (prevScan P) in
  (In MetricAppeared (firedRules P)
   <-> matureScan P = true
       /\ exists key, (key = Shares \/ key = Saves) /\ glitch key P = false
            /\ metric key (prevScan P) = 0 /\ metric key (currentScan P) >= 10
            /\ (v < 2 * pv \/ 5 * v < 6 * pv))
  /\ (In MetricGrewQuickly (firedRules P)
      <-> matureScan P = true
          /\ exists key, (key = Shares \/ key = Saves) /\ glitch key P = false
               /\ metric key (prevScan P) > 0
               /\ ((v < 2 * pv
                    /\ metric key (currentScan P) > 10 * metric key (prevScan P))
                   \/ (5 * v < 6 * pv
                       /\ metric key (currentScan P) > 3 * metric key (prevScan P))))
  /\ (In MetricAppeared (firedRules P) \/ In MetricGrewQuickly (firedRules P) ->
      shouldReject (detectBotAlgo P) = true).
Proof.
  cbv zeta. split; [|split; [|intros [H|H]; exact (fired_rejects P _ H)]].
  - rewrite (fires_sharesSavesGrowth P MetricAppeared) by (simpl; tauto).
    rewrite sharesSavesGrowth_fired. split.
    + intros (Hm & key & name & Hk & G & H). split; [exact Hm|].
      apply checkAnomaly_twice in H.
      destruct H as [(_ & H)|(E & _)]; [|discriminate].
      exists key. intuition.
    + intros (Hm & key & Hk & G & H0 & H10 & Hv). split; [exact Hm|].
      exists key, (match key with Shares => "shares" | _ => "saves" end).
      split; [destruct Hk as [-> | ->]; tauto|]. split; [exact G|].
      apply checkAnomaly_twice. left. tauto.
  - rewrite (fires_sharesSavesGrowth P MetricGrewQuickly) by (simpl; tauto).
    rewrite sharesSavesGrowth_fired. split.
    + intros (Hm & key & name & Hk & G & H). split; [exact Hm|].
      apply checkAnomaly_twice in H.
      destruct H as [(E & _)|(_ & H)]; [discriminate|].
      exists key. intuition.
    + intros (Hm & key & Hk & G & Hp & Hv). split; [exact Hm|].
      exists key, (match key with Shares => "shares" | _ => "saves" end).
      split; [destruct Hk as [-> | ->]; tauto|]. split; [exact G|].
      apply checkAnomaly_twice. right. tauto.
Qed.

Lemma growth_check_exact_witness :
  let P := transitionOf "tiktok" [mkScan 5000 400 4 9 20 false;
                                  mkScan 5600 420 50 9 21 false] 1 false in
  In MetricGrewQuickly (firedRules P) /\ shouldReject (detectBotAlgo P) = true.
Proof.
  intro P.
  assert (H : In MetricGrewQuickly (firedRules P)).
  { apply (proj1 (proj2 (growth_check_exact P))).
    split; [reflexivity|]. exists Saves.
    split; [now right|]. split; [reflexivity|]. split; [simpl; lia|].
    left. simpl. lia. }
  split; [exact H|].
  exact (proj2 (proj2 (growth_check_exact P)) (or_intror H)).
Defined.
